(** * Identity resolution and lifecycle engine of the face tracker

    A shallow embedding of the tracking core of the repository
    ([utils.py], [database.py], [tracker.py] and [process_video] of
    [main.py]) together with the properties stated about it.

    Conventions of the embedding.
    - Python floats (confidences, similarities, thresholds, embedding
      components) are real numbers; rounding is not modelled.
    - Bounding boxes and frame numbers are integers, as the detector
      produces them ([astype(int)]).  On integer boxes the distance
      tests of the source are exact, and are decided on integers.
    - [tracked_people] is a Python dict, which iterates in insertion
      order: it is an association list with distinct keys.
    - The video stream is the list of its frames, each with the
      detections that [detect_faces] returns for it.  The embedding
      model is a function from face crops to optional embeddings.
    - A pymongo call may raise.  Whether the n-th oracle read of a run,
      when it is a pymongo call, raises is read from an oracle;
      timestamps and random identifiers come from oracles as well.
      The connection to the store, made when the [DatabaseManager] is
      constructed, is the first oracle read of a run.
    - Calls of OpenCV and of the file system are taken not to raise,
      and the detector and the embedding model are taken to be loaded.
    - [np.dot] raises on arrays of different lengths.  Embeddings are
      arbitrary lists: that they have one length is a hypothesis where
      a property needs it.
    - A run that ends with an uncaught Python exception has no result
      ([None]). *)

From Stdlib Require Import ZArith List Ascii String Bool Arith Lia.
From Stdlib Require Import Reals Lra.
From Stdlib Require Import DecimalString DecimalZ DecimalPos.
Import ListNotations.

(* ================================================================= *)
(** ** Real-number tests as booleans *)

Definition Rltb (a b : R) : bool := if Rlt_dec a b then true else false.
Definition Rgtb (a b : R) : bool := Rltb b a.
Definition Rgeb (a b : R) : bool := negb (Rltb a b).
Definition Reqb (a b : R) : bool := if Req_dec_T a b then true else false.

(* ================================================================= *)
(** ** Basic data *)

Definition PersonId := string.
Definition Timestamp := Z.
Definition Embedding := list R.

(** A bounding box [(x, y, w, h)] and a detection [(x, y, w, h, conf)]. *)
Definition BBox := (Z * Z * Z * Z)%type.
Definition Detection := (Z * Z * Z * Z * R)%type.

Definition det_box (d : Detection) : BBox :=
  let '(x, y, w, h, _) := d in (x, y, w, h).
Definition det_conf (d : Detection) : R :=
  let '(_, _, _, _, c) := d in c.

(* ================================================================= *)
(** ** utils.py / DatabaseManager: cosine similarity *)

(** [np.dot] on two one-dimensional arrays.  On arrays of different
    lengths it raises [ValueError] (shapes not aligned): no value. *)
Fixpoint dot (a b : Embedding) : option R :=
  match a, b with
  | [], [] => Some 0%R
  | x :: a', y :: b' =>
      match dot a' b' with
      | Some d => Some (x * y + d)%R
      | None => None
      end
  | _, _ => None
  end.

(** [np.linalg.norm]: the root of the sum of the squares. *)
Fixpoint sum_of_squares (a : Embedding) : R :=
  match a with
  | [] => 0%R
  | x :: a' => (x * x + sum_of_squares a')%R
  end.

Definition norm (a : Embedding) : R := sqrt (sum_of_squares a).

(** Division as a partial operation: no value on a zero divisor. *)
Definition py_div (x y : R) : option R :=
  if Reqb y 0 then None else Some (x / y)%R.

(** [cosine_similarity(a, b)] of utils.py and of DatabaseManager (the
    two bodies are the same).  The norms are tested first; [np.dot] is
    evaluated, and may raise, only when both are non-zero. *)
Definition cosine_similarity (a b : Embedding) : option R :=
  if Reqb (norm a) 0 || Reqb (norm b) 0 then Some 0%R
  else
    match dot a b with
    | None => None
    | Some d => py_div d (norm a * norm b)
    end.

(* ================================================================= *)
(** ** DatabaseManager.find_best_match *)

(** The loop of [find_best_match], carrying [best_id], [best_sim] and
    [second_best_sim]. *)
Fixpoint find_best_match_loop (new_embedding : Embedding)
    (known_embeddings : list (PersonId * Embedding))
    (best_id : option PersonId) (best_sim second_best_sim : R)
  : option (option PersonId * R * R) :=
  match known_embeddings with
  | [] => Some (best_id, best_sim, second_best_sim)
  | (person_id, known_emb) :: rest =>
      match cosine_similarity new_embedding known_emb with
      | None => None
      | Some sim =>
          if Rgtb sim best_sim then
            find_best_match_loop new_embedding rest (Some person_id) sim best_sim
          else if Rgtb sim second_best_sim then
            find_best_match_loop new_embedding rest best_id best_sim sim
          else
            find_best_match_loop new_embedding rest best_id best_sim second_best_sim
      end
  end.

Definition find_best_match (new_embedding : Embedding)
    (known_embeddings : list (PersonId * Embedding))
  : option (option PersonId * R * R) :=
  find_best_match_loop new_embedding known_embeddings None (-1)%R (-1)%R.

(** The embeddings of a gallery all have length [n]. *)
Definition gallery_of_length (n : nat) (known : list (PersonId * Embedding))
  : Prop :=
  Forall (fun e => List.length (snd e) = n) known.

(* ================================================================= *)
(** ** The persistence store, the tracked set and the run state *)

(** Documents of the collections [people], [face_data], [visit_records]. *)
Record PersonDoc := mkPersonDoc {
  p_person_id : PersonId;
  p_first_seen : Timestamp;
  p_last_seen : Timestamp;
  p_visit_count : Z }.

Record FaceDoc := mkFaceDoc {
  f_person_id : PersonId;
  f_face_vector : Embedding;
  f_created_time : Timestamp }.

Inductive Action := Entry | Exit.

(** The path of a saved evidence image: its folder prefix and the oracle
    index that stands for the time and random part of the file name. *)
Definition Path := (string * nat)%type.

Record VisitDoc := mkVisitDoc {
  v_person_id : PersonId;
  v_action : Action;
  v_timestamp : Timestamp;
  v_photo_path : option Path }.

(** [counter] is the [current_number] of the [person_counter] document,
    [None] when the document is missing. *)
Record Db := mkDb {
  people : list PersonDoc;
  face_data : list FaceDoc;
  visit_records : list VisitDoc;
  counter : option Z }.

(** A video frame: its shape and an identifier of its pixel content. *)
Record Frame := mkFrame {
  frame_height : Z;
  frame_width : Z;
  frame_id : nat }.

(** [frame[ya:yb, xa:xb]]. *)
Record Crop := mkCrop {
  crop_frame : Frame;
  crop_ya : Z; crop_yb : Z;
  crop_xa : Z; crop_xb : Z }.

(** The per-person dict kept in [tracked_people]. *)
Record Track := mkTrack {
  last_seen_frame : Z;
  bbox : option BBox;
  last_known_bbox : option BBox;
  last_crop : option Crop;
  conf : R;
  last_seen_time : Timestamp }.

(** The calls made on the DatabaseManager, in order (ghost state). *)
Inductive Call :=
| CGetAllFaceData
| CFindBestMatch (new_embedding : Embedding)
| CGetNextPersonId
| CRegisterPerson (person_id : PersonId) (emb : Embedding) (ts : Timestamp)
| CShouldStoreEmbedding (person_id : PersonId) (emb : Embedding)
| CFaceDataInsert (person_id : PersonId) (emb : Embedding) (ts : Timestamp)
| CUpdateLastSeen (person_id : PersonId) (ts : Timestamp)
| CSaveVisitRecord (person_id : PersonId) (action : Action) (ts : Timestamp)
    (img_path : option Path)
| CGetUniqueVisitorCount
| CGetVisitCount (action : Action).

(** The state of a run of [process_video]: the store, the tracker's
    [tracked_people], the local variables [known_embeddings] and
    [timestamp_now] ([None] while unbound), the number of oracle reads
    made so far, and the trace of DatabaseManager calls. *)
Record State := mkState {
  db : Db;
  tracked_people : list (PersonId * Track);
  known_embeddings : list (PersonId * Embedding);
  timestamp_now : option Timestamp;
  tick : nat;
  trace : list Call }.

Definition set_db (d : Db) (s : State) : State :=
  mkState d (tracked_people s) (known_embeddings s) (timestamp_now s) (tick s) (trace s).
Definition set_tracked_people (t : list (PersonId * Track)) (s : State) : State :=
  mkState (db s) t (known_embeddings s) (timestamp_now s) (tick s) (trace s).
Definition set_known_embeddings (k : list (PersonId * Embedding)) (s : State) : State :=
  mkState (db s) (tracked_people s) k (timestamp_now s) (tick s) (trace s).
Definition set_timestamp_now (t : option Timestamp) (s : State) : State :=
  mkState (db s) (tracked_people s) (known_embeddings s) t (tick s) (trace s).
Definition set_tick (n : nat) (s : State) : State :=
  mkState (db s) (tracked_people s) (known_embeddings s) (timestamp_now s) n (trace s).
Definition set_trace (c : list Call) (s : State) : State :=
  mkState (db s) (tracked_people s) (known_embeddings s) (timestamp_now s) (tick s) c.

(** What the run reads from outside: whether the n-th oracle read, when
    it is a pymongo call, raises; the random part of a fallback
    identifier; the clock; the embedding model; the quit key. *)
Record Env := mkEnv {
  db_fails : nat -> bool;
  uuid_hex : nat -> string;
  clock : nat -> Timestamp;
  extract_embedding : Crop -> option Embedding;
  quit_requested : Z -> bool }.

(** The configuration values the tracking core reads. *)
Record Config := mkConfig {
  detection_skip_frames : Z;
  detection_conf_threshold : R;
  embedding_similarity_threshold : R;
  embedding_diversity_threshold : R;
  exit_frame_threshold : Z;
  save_cropped : bool;
  visualize : bool }.

(* ================================================================= *)
(** ** A state monad with failure *)

(** A computation on the run state; [None] is an uncaught exception. *)
Definition M (A : Type) : Type := State -> option (A * State).

Definition ret {A} (a : A) : M A := fun s => Some (a, s).

Definition bind {A B} (m : M A) (k : A -> M B) : M B :=
  fun s => match m s with
           | Some (a, s') => k a s'
           | None => None
           end.

Definition raise {A} : M A := fun _ => None.

Notation "x <- c1 ;; c2" := (bind c1 (fun x => c2))
  (at level 61, c1 at next level, right associativity).
Notation "c1 ;; c2" := (bind c1 (fun _ => c2))
  (at level 61, right associativity).

Definition gets {A} (f : State -> A) : M A := fun s => Some (f s, s).
Definition modify (f : State -> State) : M unit := fun s => Some (tt, f s).

(** Record a DatabaseManager call in the trace. *)
Definition log (c : Call) : M unit :=
  modify (fun s => set_trace (trace s ++ [c]) s).

(** Take the next oracle index. *)
Definition next_tick : M nat :=
  fun s => Some (tick s, set_tick (S (tick s)) s).

(* ================================================================= *)
(** ** Python helpers *)

(** Truth value of a string-or-None ([if best_id], [if current_match]). *)
Definition truthy (o : option string) : bool :=
  match o with
  | Some s => negb (String.eqb s EmptyString)
  | None => false
  end.

(** [f"{n}"] for an int. *)
Definition string_of_Z (n : Z) : string := NilZero.string_of_int (Z.to_int n).

(** Number of indices selected by [start:stop] on an axis of length [n]. *)
Definition slice_index (n i : Z) : Z :=
  if (i <? 0)%Z then Z.max 0 (i + n) else Z.min i n.
Definition slice_len (n start stop : Z) : Z :=
  Z.max 0 (slice_index n stop - slice_index n start).

(** Dict operations on the association list: [d.get(k)], [k in d],
    [d[k] = v] (in place when the key is present, appended otherwise)
    and [d.pop(k, None)] (keys are distinct). *)
Fixpoint dict_get {V} (k : PersonId) (d : list (PersonId * V)) : option V :=
  match d with
  | [] => None
  | (k', v) :: rest => if String.eqb k k' then Some v else dict_get k rest
  end.

Definition dict_mem {V} (k : PersonId) (d : list (PersonId * V)) : bool :=
  match dict_get k d with Some _ => true | None => false end.

Fixpoint dict_set {V} (k : PersonId) (v : V) (d : list (PersonId * V))
  : list (PersonId * V) :=
  match d with
  | [] => [(k, v)]
  | (k', v') :: rest =>
      if String.eqb k k' then (k', v) :: rest else (k', v') :: dict_set k v rest
  end.

Definition dict_pop {V} (k : PersonId) (d : list (PersonId * V))
  : list (PersonId * V) :=
  filter (fun kv => negb (String.eqb k (fst kv))) d.

(* ================================================================= *)
(** ** Distance between box centers *)

(** The center of a box, [x + w / 2] and [y + h / 2], and the distance
    of two centers as the source computes it. *)
Definition center_x (b : BBox) : R := let '(x, _, w, _) := b in (IZR x + IZR w / 2)%R.
Definition center_y (b : BBox) : R := let '(_, y, _, h) := b in (IZR y + IZR h / 2)%R.
Definition center_distance (a b : BBox) : R :=
  sqrt ((center_x a - center_x b) ^ 2 + (center_y a - center_y b) ^ 2).

(** Four times the squared distance of the centers, an integer. *)
Definition dist2x4 (a b : BBox) : Z :=
  let '(xa, ya, wa, ha) := a in
  let '(xb, yb, wb, hb) := b in
  ((2 * xa + wa - (2 * xb + wb)) ^ 2 + (2 * ya + ha - (2 * yb + hb)) ^ 2)%Z.

(** [distance < px], decided on integers (see [center_distance_lt]). *)
Definition within_px (px : Z) (a b : BBox) : bool :=
  (dist2x4 a b <? 4 * px * px)%Z.

(* ================================================================= *)
(** ** DatabaseManager (database.py) *)

(** [.sort("created_time", -1)]: most recent first, documents of equal
    time in insertion order. *)
Fixpoint insert_by_time (x : FaceDoc) (l : list FaceDoc) : list FaceDoc :=
  match l with
  | [] => [x]
  | y :: rest =>
      if (f_created_time y <=? f_created_time x)%Z then x :: y :: rest
      else y :: insert_by_time x rest
  end.

Fixpoint sort_by_time_desc (l : list FaceDoc) : list FaceDoc :=
  match l with
  | [] => []
  | x :: rest => insert_by_time x (sort_by_time_desc rest)
  end.

(** [face_data.find({"person_id": id}).sort("created_time", -1).limit(10)]. *)
Definition recent_face_data (d : Db) (person_id : PersonId) : list FaceDoc :=
  firstn 10 (sort_by_time_desc
    (filter (fun f => String.eqb (f_person_id f) person_id) (face_data d))).

(** The loop of [should_store_embedding] that accumulates [max_sim]. *)
Fixpoint max_sim_loop (new_embedding : Embedding) (existing : list FaceDoc)
    (max_sim : R) : option R :=
  match existing with
  | [] => Some max_sim
  | emb :: rest =>
      match cosine_similarity new_embedding (f_face_vector emb) with
      | None => None
      | Some sim => max_sim_loop new_embedding rest (Rmax max_sim sim)
      end
  end.

(** [people.update_one({"person_id": id}, {$set last_seen, $inc visit_count})]. *)
Fixpoint update_one_last_seen (person_id : PersonId) (ts : Timestamp)
    (ps : list PersonDoc) : list PersonDoc :=
  match ps with
  | [] => []
  | p :: rest =>
      if String.eqb (p_person_id p) person_id then
        mkPersonDoc (p_person_id p) (p_first_seen p) ts (p_visit_count p + 1) :: rest
      else p :: update_one_last_seen person_id ts rest
  end.

Definition set_people (ps : list PersonDoc) (d : Db) : Db :=
  mkDb ps (face_data d) (visit_records d) (counter d).
Definition set_face_data (fs : list FaceDoc) (d : Db) : Db :=
  mkDb (people d) fs (visit_records d) (counter d).
Definition set_visit_records (vs : list VisitDoc) (d : Db) : Db :=
  mkDb (people d) (face_data d) vs (counter d).
Definition set_counter (c : option Z) (d : Db) : Db :=
  mkDb (people d) (face_data d) (visit_records d) c.

(** The operations of the store, as functions on its content.  [None]
    is an error raised by the operation itself. *)
Definition op_inc_counter (d : Db) : option (Z * Db) :=
  match counter d with
  | Some n => Some ((n + 1)%Z, set_counter (Some (n + 1)%Z) d)
  | None => None
  end.

(** [people] has a unique index on [person_id]. *)
Definition op_insert_person (doc : PersonDoc) (d : Db) : option (unit * Db) :=
  if existsb (fun p => String.eqb (p_person_id p) (p_person_id doc)) (people d)
  then None
  else Some (tt, set_people (people d ++ [doc]) d).

Definition op_insert_face (doc : FaceDoc) (d : Db) : option (unit * Db) :=
  Some (tt, set_face_data (face_data d ++ [doc]) d).

Definition op_insert_visit (doc : VisitDoc) (d : Db) : option (unit * Db) :=
  Some (tt, set_visit_records (visit_records d ++ [doc]) d).

Definition op_update_last_seen (person_id : PersonId) (ts : Timestamp) (d : Db)
  : option (unit * Db) :=
  Some (tt, set_people (update_one_last_seen person_id ts (people d)) d).

Section Model.

Variable env : Env.
Variable config : Config.

(** One pymongo call: it raises when the oracle says so or when the
    operation itself does; the result is [None] then. *)
Definition pymongo {A} (op : Db -> option (A * Db)) : M (option A) :=
  n <- next_tick ;;
  if db_fails env n then ret None
  else
    d <- gets db ;;
    match op d with
    | Some (a, d') => modify (set_db d') ;; ret (Some a)
    | None => ret None
    end.

(** [utils.timestamp_iso()]. *)
Definition timestamp_iso : M Timestamp :=
  n <- next_tick ;; ret (clock env n).

(** [utils.save_cropped_face(img, prefix, logs_folder, save_cropped)]. *)
Definition save_cropped_face (img : Crop) (prefix : string) : M (option Path) :=
  if save_cropped config then n <- next_tick ;; ret (Some (prefix, n))
  else ret None.

(** [DatabaseManager._init_mongodb]: the connection to the store and
    the set-up of its collections, taken as one oracle read.  A failure
    is logged and raised again. *)
Definition init_mongodb : M unit :=
  n <- next_tick ;;
  if db_fails env n then raise else ret tt.

Definition init_counter : M unit :=
  r <- pymongo (fun d => Some (counter d, d)) ;;
  match r with
  | Some None => pymongo (fun d => Some (tt, set_counter (Some 0%Z) d)) ;; ret tt
  | _ => ret tt
  end.

Definition get_next_person_id : M PersonId :=
  log CGetNextPersonId ;;
  r <- pymongo op_inc_counter ;;
  match r with
  | Some n => ret ("person" ++ string_of_Z n)%string
  | None => k <- next_tick ;; ret ("person_" ++ uuid_hex env k)%string
  end.

Definition should_store_embedding (person_id : PersonId) (new_embedding : Embedding)
  : M bool :=
  log (CShouldStoreEmbedding person_id new_embedding) ;;
  r <- pymongo (fun d => Some (recent_face_data d person_id, d)) ;;
  match r with
  | None => ret true
  | Some [] => ret true
  | Some existing =>
      match max_sim_loop new_embedding existing 0%R with
      | None => ret true
      | Some max_sim => ret (Rltb max_sim (embedding_diversity_threshold config))
      end
  end.

Definition register_person (person_id : PersonId) (embedding_vector : Embedding)
    (timestamp : Timestamp) : M unit :=
  log (CRegisterPerson person_id embedding_vector timestamp) ;;
  r <- pymongo (op_insert_person (mkPersonDoc person_id timestamp timestamp 1)) ;;
  match r with
  | None => ret tt
  | Some _ =>
      pymongo (op_insert_face (mkFaceDoc person_id embedding_vector timestamp)) ;;
      ret tt
  end.

Definition update_last_seen (person_id : PersonId) (timestamp : Timestamp) : M unit :=
  log (CUpdateLastSeen person_id timestamp) ;;
  pymongo (op_update_last_seen person_id timestamp) ;;
  ret tt.

Definition save_visit_record (person_id : PersonId) (action : Action)
    (timestamp : Timestamp) (img_path : option Path) : M unit :=
  log (CSaveVisitRecord person_id action timestamp img_path) ;;
  pymongo (op_insert_visit (mkVisitDoc person_id action timestamp img_path)) ;;
  ret tt.

Definition get_all_face_data : M (list (PersonId * Embedding)) :=
  log CGetAllFaceData ;;
  r <- pymongo (fun d =>
         Some (map (fun f => (f_person_id f, f_face_vector f)) (face_data d), d)) ;;
  match r with
  | Some l => ret l
  | None => ret []
  end.

Definition get_unique_visitor_count : M Z :=
  log CGetUniqueVisitorCount ;;
  r <- pymongo (fun d => Some (Z.of_nat (List.length (people d)), d)) ;;
  match r with
  | Some n => ret n
  | None => ret 0%Z
  end.

Definition action_eqb (a b : Action) : bool :=
  match a, b with
  | Entry, Entry | Exit, Exit => true
  | _, _ => false
  end.

Definition get_visit_count (action : Action) : M Z :=
  log (CGetVisitCount action) ;;
  r <- pymongo (fun d =>
         Some (Z.of_nat (List.length
                 (filter (fun v => action_eqb (v_action v) action) (visit_records d))),
               d)) ;;
  match r with
  | Some n => ret n
  | None => ret 0%Z
  end.

(* ----------------------------------------------------------------- *)
(** ** FaceTracker (tracker.py) *)

Definition set_bbox (b : option BBox) (t : Track) : Track :=
  mkTrack (last_seen_frame t) b (last_known_bbox t) (last_crop t) (conf t)
          (last_seen_time t).
Definition set_last_seen_frame (n : Z) (t : Track) : Track :=
  mkTrack n (bbox t) (last_known_bbox t) (last_crop t) (conf t) (last_seen_time t).

(** The assignments made when detection [d] is matched to a track. *)
Definition match_track (d : Detection) (frame_num : Z) (t : Track) : Track :=
  mkTrack frame_num (Some (det_box d)) (Some (det_box d)) (last_crop t)
          (det_conf d) (last_seen_time t).

(** The inner loop of [_assign_detections_to_tracks]: the index of the
    unassigned detection nearest to [last_bbox] among those closer than
    100 px.  [best_match_idx = -1] is [None], [best_distance = inf] is
    [None]; distances are compared through [dist2x4]. *)
Fixpoint best_detection (last_bbox : BBox) (detections : list Detection)
    (i : nat) (assigned_detections : list nat)
    (best_match_idx : option nat) (best_distance : option Z) : option nat :=
  match detections with
  | [] => best_match_idx
  | d :: rest =>
      if existsb (Nat.eqb i) assigned_detections then
        best_detection last_bbox rest (S i) assigned_detections
                       best_match_idx best_distance
      else
        let distance := dist2x4 last_bbox (det_box d) in
        if within_px 100 last_bbox (det_box d)
           && match best_distance with
              | None => true
              | Some b => (distance <? b)%Z
              end
        then best_detection last_bbox rest (S i) assigned_detections
                            (Some i) (Some distance)
        else best_detection last_bbox rest (S i) assigned_detections
                            best_match_idx best_distance
  end.

(** The outer loop of [_assign_detections_to_tracks], over the items of
    [tracked_people] in iteration order. *)
Fixpoint assign_loop (items : list (PersonId * Track))
    (detections : list Detection) (frame_num : Z)
    (assigned_detections : list nat) : list (PersonId * Track) :=
  match items with
  | [] => []
  | (person_id, pdata) :: rest =>
      match last_known_bbox pdata with
      | None =>
          (person_id, pdata) :: assign_loop rest detections frame_num assigned_detections
      | Some last_bbox =>
          match best_detection last_bbox detections 0 assigned_detections None None with
          | Some idx =>
              match nth_error detections idx with
              | Some d =>
                  (person_id, match_track d frame_num pdata)
                    :: assign_loop rest detections frame_num (idx :: assigned_detections)
              | None =>
                  (person_id, pdata)
                    :: assign_loop rest detections frame_num assigned_detections
              end
          | None =>
              (person_id, pdata)
                :: assign_loop rest detections frame_num assigned_detections
          end
      end
  end.

Definition assign_detections_to_tracks (detections : list Detection)
    (frame_num : Z) : M unit :=
  modify (fun s =>
    set_tracked_people (assign_loop (tracked_people s) detections frame_num []) s).

(** The [else] branch of [update_trackers]: for each tracked person
    whose [bbox] is set, refresh [last_seen_frame] and the store. *)
Fixpoint refresh_loop (frame_num : Z) (items : list (PersonId * Track)) : M unit :=
  match items with
  | [] => ret tt
  | (person_id, pdata) :: rest =>
      match bbox pdata with
      | Some _ =>
          modify (fun s =>
            set_tracked_people
              (dict_set person_id (set_last_seen_frame frame_num pdata)
                        (tracked_people s)) s) ;;
          ts <- timestamp_iso ;;
          update_last_seen person_id ts
      | None => ret tt
      end ;;
      refresh_loop frame_num rest
  end.

(** [update_trackers(frame, frame_num, current_detections=None)]. *)
Definition update_trackers (frame_num : Z)
    (current_detections : option (list Detection)) : M unit :=
  modify (fun s =>
    set_tracked_people
      (map (fun kv => (fst kv, set_bbox None (snd kv))) (tracked_people s)) s) ;;
  match current_detections with
  | Some (d :: ds) => assign_detections_to_tracks (d :: ds) frame_num
  | _ =>
      items <- gets tracked_people ;;
      refresh_loop frame_num items
  end.

(** The test of [handle_exits]. *)
Definition exits (current_frame_num exit_thresh : Z) (pdata : Track) : bool :=
  (current_frame_num - last_seen_frame pdata >? exit_thresh)%Z.

(** The first loop of [handle_exits]: save an exit record for every
    person who exits and collect [to_remove]. *)
Fixpoint exits_loop (current_frame_num exit_thresh : Z)
    (items : list (PersonId * Track)) (to_remove : list PersonId)
  : M (list PersonId) :=
  match items with
  | [] => ret to_remove
  | (person_id, pdata) :: rest =>
      if exits current_frame_num exit_thresh pdata then
        img_path <- match last_crop pdata with
                    | Some crop => save_cropped_face crop "exits"
                    | None => ret None
                    end ;;
        timestamp_now <- timestamp_iso ;;
        save_visit_record person_id Exit timestamp_now img_path ;;
        exits_loop current_frame_num exit_thresh rest (to_remove ++ [person_id])
      else exits_loop current_frame_num exit_thresh rest to_remove
  end.

Definition handle_exits (current_frame_num exit_thresh : Z) : M unit :=
  items <- gets tracked_people ;;
  to_remove <- exits_loop current_frame_num exit_thresh items [] ;;
  modify (fun s =>
    set_tracked_people
      (fold_left (fun d person_id => dict_pop person_id d) to_remove
                 (tracked_people s)) s).

Definition register_face (person_id : PersonId) (box : BBox) (crop : Crop)
    (confidence : R) (timestamp : Timestamp) (frame_num : Z) : M unit :=
  modify (fun s =>
    set_tracked_people
      (dict_set person_id
         (mkTrack frame_num (Some box) (Some box) (Some crop) confidence timestamp)
         (tracked_people s)) s).

(* ----------------------------------------------------------------- *)
(** ** The frame loop (main.py, [process_video]) *)

(** The padded face region of a detection.  [int(0.1 * max(w, h))]
    truncates towards zero. *)
Definition crop_face (frame : Frame) (d : Detection) : Crop :=
  let '(x, y, w, h, _) := d in
  let pad := Z.quot (Z.max w h) 10 in
  mkCrop frame
         (Z.max 0 (y - pad)) (Z.min (frame_height frame) (y + h + pad))
         (Z.max 0 (x - pad)) (Z.min (frame_width frame) (x + w + pad)).

(** [crop.size] of the three-channel image region. *)
Definition crop_size (c : Crop) : Z :=
  (slice_len (frame_height (crop_frame c)) (crop_ya c) (crop_yb c)
   * slice_len (frame_width (crop_frame c)) (crop_xa c) (crop_xb c) * 3)%Z.

(** Position-based matching: the first tracked person, in iteration
    order, whose [bbox] is set and whose center is closer than 50 px to
    the center of the detection. *)
Fixpoint position_match (items : list (PersonId * Track)) (d : Detection)
  : option PersonId :=
  match items with
  | [] => None
  | (person_id, pdata) :: rest =>
      match bbox pdata with
      | Some tracked_box =>
          if within_px 50 tracked_box (det_box d) then Some person_id
          else position_match rest d
      | None => position_match rest d
      end
  end.

(** Reading the local variable [timestamp_now]; unbound, the read
    raises. *)
Definition read_timestamp_now : M Timestamp :=
  fun s => match timestamp_now s with
           | Some t => Some (t, s)
           | None => None
           end.

(** The [else] branch of the matching strategy: embedding-based
    recognition, or registration of a new person.  The result is
    [(assigned_id, is_new_person)]. *)
Definition recognize (emb : Embedding) : M (PersonId * bool) :=
  known <- gets known_embeddings ;;
  log (CFindBestMatch emb) ;;
  match find_best_match emb known with
  | None => raise
  | Some (best_id, best_sim, second_best_sim) =>
      now <- timestamp_iso ;;
      modify (set_timestamp_now (Some now)) ;;
      if Rgeb best_sim (embedding_similarity_threshold config) && truthy best_id then
        match best_id with
        | Some assigned_id => ret (assigned_id, false)
        | None => raise
        end
      else
        assigned_id <- get_next_person_id ;;
        register_person assigned_id emb now ;;
        modify (fun s =>
          set_known_embeddings (known_embeddings s ++ [(assigned_id, emb)]) s) ;;
        ret (assigned_id, true)
  end.

(** The guarded insert of a diverse embedding: on success the pair is
    appended to [known_embeddings]; an exception is caught. *)
Definition store_embedding (assigned_id : PersonId) (emb : Embedding) : M unit :=
  now <- gets timestamp_now ;;
  match now with
  | None => ret tt
  | Some ts =>
      log (CFaceDataInsert assigned_id emb ts) ;;
      r <- pymongo (op_insert_face (mkFaceDoc assigned_id emb ts)) ;;
      match r with
      | Some _ =>
          modify (fun s =>
            set_known_embeddings (known_embeddings s ++ [(assigned_id, emb)]) s)
      | None => ret tt
      end
  end.

(** The matching strategy for a detection with embedding [emb]:
    position match with a tracked person first, recognition otherwise.
    The result is [(assigned_id, is_new_person)]. *)
Definition assign_identity (d : Detection) (emb : Embedding) : M (PersonId * bool) :=
  items <- gets tracked_people ;;
  let current_match := position_match items d in
  if truthy current_match then
    match current_match with
    | Some assigned_id => ret (assigned_id, false)
    | None => raise
    end
  else recognize emb.

(** The steps after the assignment: the entry record of a new presence,
    the storage of a diverse embedding, the refresh of the store and the
    registration with the tracker. *)
Definition commit_identity (frame : Frame) (frame_num : Z) (d : Detection)
    (emb : Embedding) (r : PersonId * bool) : M (option (PersonId * bool)) :=
  let '(assigned_id, is_new_person) := r in
  let crop := crop_face frame d in
  tracked <- gets tracked_people ;;
  (if negb (dict_mem assigned_id tracked) then
     cropped_path <- save_cropped_face crop "entries" ;;
     now <- read_timestamp_now ;;
     save_visit_record assigned_id Entry now cropped_path
   else ret tt) ;;
  (if negb is_new_person then
     store <- should_store_embedding assigned_id emb ;;
     if store then store_embedding assigned_id emb else ret tt
   else ret tt) ;;
  now <- read_timestamp_now ;;
  update_last_seen assigned_id now ;;
  register_face assigned_id (det_box d) crop (det_conf d) now frame_num ;;
  ret (Some (assigned_id, is_new_person)).

(** The body of the loop over the detections of a frame.  The result is
    [None] when the detection is skipped, and the resolved
    [(assigned_id, is_new_person)] otherwise. *)
Definition resolve_detection (frame : Frame) (frame_num : Z) (d : Detection)
  : M (option (PersonId * bool)) :=
  if Rltb (det_conf d) (detection_conf_threshold config) then ret None
  else
    let crop := crop_face frame d in
    if (crop_size crop =? 0)%Z then ret None
    else
      match extract_embedding env crop with
      | None => ret None
      | Some emb =>
          r <- assign_identity d emb ;;
          commit_identity frame frame_num d emb r
      end.

Fixpoint recognition_loop (frame : Frame) (frame_num : Z)
    (detections : list Detection) : M unit :=
  match detections with
  | [] => ret tt
  | d :: rest =>
      resolve_detection frame frame_num d ;;
      recognition_loop frame frame_num rest
  end.

(** One frame: tracker update, recognition on the sampling cadence or
    when nobody is tracked, exit handling. *)
Definition process_frame (frame : Frame) (detections : list Detection)
    (frame_num : Z) : M unit :=
  update_trackers frame_num (Some detections) ;;
  tracked <- gets tracked_people ;;
  (if (frame_num mod Z.max 1 (detection_skip_frames config) =? 0)%Z
      || match tracked with [] => true | _ => false end
   then recognition_loop frame frame_num detections
   else ret tt) ;;
  handle_exits frame_num (exit_frame_threshold config).

(** The store reads of [Visualizer.draw_on_frame]; the drawing itself
    has no effect on the run state. *)
Definition draw_on_frame : M unit :=
  get_unique_visitor_count ;;
  get_visit_count Entry ;;
  get_visit_count Exit ;;
  ret tt.

(** [Visualizer.visualize]: the result is whether the quit key was
    pressed. *)
Definition visualizer_visualize (frame_num : Z) : M bool :=
  if negb (visualize config) then ret false
  else draw_on_frame ;; ret (quit_requested env frame_num).

(** The main loop over the frames of the stream, each with the
    detections the detector returns for it.  The result is the final
    [frame_num] and the number of detections. *)
Fixpoint frames_loop (frames : list (Frame * list Detection))
    (max_frames : option Z) (frame_num total_detections : Z) : M (Z * Z) :=
  match frames with
  | [] => ret (frame_num, total_detections)
  | (frame, detections) :: rest =>
      let frame_num := (frame_num + 1)%Z in
      let total_detections :=
        (total_detections + Z.of_nat (List.length detections))%Z in
      process_frame frame detections frame_num ;;
      draw_on_frame ;;
      should_quit <- (if visualize config then visualizer_visualize frame_num
                      else ret false) ;;
      if should_quit then ret (frame_num, total_detections)
      else
        match max_frames with
        | Some n =>
            if negb (n =? 0)%Z && (frame_num >=? n)%Z then
              ret (frame_num, total_detections)
            else frames_loop rest max_frames frame_num total_detections
        | None => frames_loop rest max_frames frame_num total_detections
        end
  end.

(** The summary returned by [process_video]. *)
Record Results := mkResults {
  processed_frames : Z;
  unique_people : Z;
  total_detections : Z }.

(** [process_video] on an opened source.  It starts with the
    construction of the [DatabaseManager]: [_init_mongodb], then
    [_init_counter]. *)
Definition process_video (frames : list (Frame * list Detection))
    (max_frames : option Z) : M Results :=
  init_mongodb ;;
  init_counter ;;
  known <- get_all_face_data ;;
  modify (set_known_embeddings known) ;;
  r <- frames_loop frames max_frames 0 0 ;;
  let '(frame_num, detections) := r in
  handle_exits frame_num 0 ;;
  unique <- get_unique_visitor_count ;;
  ret (mkResults frame_num unique detections).

(* ================================================================= *)
(** ** Observations on traces and states *)

(** The visit record a call saves, if it is a [save_visit_record]. *)
Definition saved_visit (c : Call) : option (PersonId * Action) :=
  match c with
  | CSaveVisitRecord person_id action _ _ => Some (person_id, action)
  | _ => None
  end.

(** The visit records that a list of calls saves, in order. *)
Definition saved_visits (calls : list Call) : list (PersonId * Action) :=
  flat_map (fun c => match saved_visit c with Some v => [v] | None => [] end) calls.

Definition is_find_best_match (c : Call) : bool :=
  match c with CFindBestMatch _ => true | _ => false end.

Definition is_should_store (c : Call) : bool :=
  match c with CShouldStoreEmbedding _ _ => true | _ => false end.

(** The state in which [process_video] starts on a store [d]. *)
Definition initial_state (d : Db) : State := mkState d [] [] None 0 [].

(** Every tracked person has an embedding in the in-memory gallery. *)
Definition tracked_in_gallery (s : State) : Prop :=
  forall person_id,
    dict_mem person_id (tracked_people s) = true ->
    In person_id (map fst (known_embeddings s)).

(** The number of exit records that a list of calls saves for a person. *)
Definition is_exit_of (person_id : PersonId) (c : Call) : bool :=
  match saved_visit c with
  | Some (p, Exit) => String.eqb p person_id
  | _ => false
  end.

Definition exit_count (person_id : PersonId) (calls : list Call) : nat :=
  List.length (filter (is_exit_of person_id) calls).

(** The person and action of each document of [visit_records]. *)
Definition visits_of (docs : list VisitDoc) : list (PersonId * Action) :=
  map (fun v => (v_person_id v, v_action v)) docs.

(* ================================================================= *)
(** ** Closed forms of the run state, used in the proofs *)

(** The store after a pymongo call made in state [s]. *)
Definition db_after {A} (op : Db -> option (A * Db)) (s : State) : Db :=
  if db_fails env (tick s) then db s
  else match op (db s) with
       | Some (_, d') => d'
       | None => db s
       end.

(** The persons that a call of [handle_exits] makes exit, in iteration
    order. *)
Definition exiting (current_frame_num exit_thresh : Z)
    (items : list (PersonId * Track)) : list PersonId :=
  map fst (filter (fun kv => exits current_frame_num exit_thresh (snd kv)) items).

(** The state after the trace has recorded call [c], and after a pymongo
    call [op]. *)
Definition logged (c : Call) (s : State) : State :=
  set_trace (trace s ++ [c]) s.

Definition after_pymongo {A} (op : Db -> option (A * Db)) (s : State) : State :=
  mkState (db_after op s) (tracked_people s) (known_embeddings s)
          (timestamp_now s) (S (tick s)) (trace s).

Definition st_update_last_seen (person_id : PersonId) (ts : Timestamp) (s : State)
  : State :=
  after_pymongo (op_update_last_seen person_id ts)
                (logged (CUpdateLastSeen person_id ts) s).

Definition st_save_visit_record (person_id : PersonId) (action : Action)
    (ts : Timestamp) (img_path : option Path) (s : State) : State :=
  after_pymongo (op_insert_visit (mkVisitDoc person_id action ts img_path))
                (logged (CSaveVisitRecord person_id action ts img_path) s).

Definition st_register_person (person_id : PersonId) (emb : Embedding)
    (ts : Timestamp) (s : State) : State :=
  let s1 := after_pymongo (op_insert_person (mkPersonDoc person_id ts ts 1))
                          (logged (CRegisterPerson person_id emb ts) s) in
  if db_fails env (tick s) then s1
  else if existsb (fun p => String.eqb (p_person_id p) person_id) (people (db s))
       then s1
       else after_pymongo (op_insert_face (mkFaceDoc person_id emb ts)) s1.

(** The identifier that [get_next_person_id] returns in state [s], and
    the state after the call. *)
Definition next_person_id (s : State) : PersonId :=
  match (if db_fails env (tick s) then None else counter (db s)) with
  | Some n => ("person" ++ string_of_Z (n + 1))%string
  | None => ("person_" ++ uuid_hex env (S (tick s)))%string
  end.

Definition st_get_next_person_id (s : State) : State :=
  let s1 := after_pymongo op_inc_counter (logged CGetNextPersonId s) in
  match (if db_fails env (tick s) then None else counter (db s)) with
  | Some _ => s1
  | None => set_tick (S (S (tick s))) s1
  end.

(** The decision of [should_store_embedding] in state [s]. *)
Definition retention_decision (person_id : PersonId) (new_embedding : Embedding)
    (s : State) : bool :=
  if db_fails env (tick s) then true
  else
    match recent_face_data (db s) person_id with
    | [] => true
    | existing =>
        match max_sim_loop new_embedding existing 0%R with
        | None => true
        | Some max_sim => Rltb max_sim (embedding_diversity_threshold config)
        end
    end.

Definition st_should_store_embedding (person_id : PersonId) (emb : Embedding)
    (s : State) : State :=
  mkState (db s) (tracked_people s) (known_embeddings s) (timestamp_now s)
          (S (tick s)) (trace s ++ [CShouldStoreEmbedding person_id emb]).

Definition st_store_embedding (assigned_id : PersonId) (emb : Embedding) (s : State)
  : State :=
  match timestamp_now s with
  | None => s
  | Some ts =>
      let s1 := after_pymongo (op_insert_face (mkFaceDoc assigned_id emb ts))
                              (logged (CFaceDataInsert assigned_id emb ts) s) in
      if db_fails env (tick s) then s1
      else set_known_embeddings (known_embeddings s ++ [(assigned_id, emb)]) s1
  end.

(** Saving an evidence crop: the path returned and the state after. *)
Definition saved_path (prefix : string) (s : State) : option Path :=
  if save_cropped config then Some (prefix, tick s) else None.

Definition st_save_cropped_face (s : State) : State :=
  if save_cropped config then set_tick (S (tick s)) s else s.

(** Recognition: the state once [timestamp_now] is bound, the
    identifier minted for a new person, and the state after the
    registration of that person. *)
Definition st_recognize_start (emb : Embedding) (s : State) : State :=
  set_timestamp_now (Some (clock env (tick s)))
    (set_tick (S (tick s)) (logged (CFindBestMatch emb) s)).

Definition new_person_id (emb : Embedding) (s : State) : PersonId :=
  next_person_id (st_recognize_start emb s).

Definition st_register_new (emb : Embedding) (s : State) : State :=
  let s1 := st_recognize_start emb s in
  let s3 := st_register_person (new_person_id emb s) emb (clock env (tick s))
                               (st_get_next_person_id s1) in
  set_known_embeddings (known_embeddings s3 ++ [(new_person_id emb s, emb)]) s3.

(** The steps that follow the assignment of an identity: the entry
    record of a fresh presence, the retention of the embedding, and the
    refresh of the store and of the tracker. *)
Definition st_entry (assigned_id : PersonId) (now : Timestamp) (s : State) : State :=
  if negb (dict_mem assigned_id (tracked_people s)) then
    st_save_visit_record assigned_id Entry now (saved_path "entries" s)
                         (st_save_cropped_face s)
  else s.

Definition st_retention (assigned_id : PersonId) (emb : Embedding)
    (is_new_person : bool) (s : State) : State :=
  if negb is_new_person then
    if retention_decision assigned_id emb s then
      st_store_embedding assigned_id emb (st_should_store_embedding assigned_id emb s)
    else st_should_store_embedding assigned_id emb s
  else s.

Definition st_commit (frame : Frame) (frame_num : Z) (d : Detection)
    (emb : Embedding) (assigned_id : PersonId) (is_new_person : bool)
    (now : Timestamp) (s : State) : State :=
  let s3 := st_update_last_seen assigned_id now
              (st_retention assigned_id emb is_new_person
                 (st_entry assigned_id now s)) in
  set_tracked_people
    (dict_set assigned_id
       (mkTrack frame_num (Some (det_box d)) (Some (det_box d))
                (Some (crop_face frame d)) (det_conf d) now)
       (tracked_people s3)) s3.

(** The calls made by the entry step and by the retention step. *)
Definition entry_calls (assigned_id : PersonId) (now : Timestamp) (s : State)
  : list Call :=
  if negb (dict_mem assigned_id (tracked_people s)) then
    [CSaveVisitRecord assigned_id Entry now (saved_path "entries" s)]
  else [].

Definition retention_calls (assigned_id : PersonId) (emb : Embedding)
    (is_new_person : bool) (now : Timestamp) (s : State) : list Call :=
  if negb is_new_person then
    CShouldStoreEmbedding assigned_id emb
      :: (if retention_decision assigned_id emb s
          then [CFaceDataInsert assigned_id emb now] else [])
  else [].

(** Whether the retention step appends the embedding to the in-memory
    gallery: the person is not new, the decision is to retain, and the
    insert that follows the decision does not raise. *)
Definition retention_appends (assigned_id : PersonId) (emb : Embedding)
    (is_new_person : bool) (s : State) : bool :=
  negb is_new_person && retention_decision assigned_id emb s
  && negb (db_fails env (S (tick s))).

(** The test of the position match on one tracked person. *)
Definition near (d : Detection) (pdata : Track) : bool :=
  match bbox pdata with
  | Some tracked_box => within_px 50 tracked_box (det_box d)
  | None => false
  end.

(** The track that [register_face] stores for a resolved detection. *)
Definition fresh_track (frame : Frame) (frame_num : Z) (d : Detection)
    (now : Timestamp) : Track :=
  mkTrack frame_num (Some (det_box d)) (Some (det_box d))
          (Some (crop_face frame d)) (det_conf d) now.

(** The similarities of the candidate to the stored embeddings, in
    their order; no value when one of them raises. *)
Fixpoint similarities (new_embedding : Embedding) (existing : list FaceDoc)
  : option (list R) :=
  match existing with
  | [] => Some []
  | f :: rest =>
      match cosine_similarity new_embedding (f_face_vector f),
            similarities new_embedding rest with
      | Some r, Some rs => Some (r :: rs)
      | _, _ => None
      end
  end.

(** The maximum similarity of the candidate to the stored embeddings:
    defined when there is a stored embedding and every similarity has a
    value. *)
Definition max_similarity (new_embedding : Embedding) (existing : list FaceDoc)
  : option R :=
  match similarities new_embedding existing with
  | Some (x :: xs) => Some (fold_left Rmax xs x)
  | _ => None
  end.

(** State [s'] is state [s] after the store reads [calls]: nothing but
    the trace and the oracle index has changed, and no visit record was
    saved. *)
Definition only_reads (s s' : State) (calls : list Call) : Prop :=
  tracked_people s' = tracked_people s
  /\ known_embeddings s' = known_embeddings s
  /\ timestamp_now s' = timestamp_now s
  /\ db s' = db s
  /\ trace s' = trace s ++ calls
  /\ saved_visits calls = [].

(** The invariant of the frame loop: the tracked set is a dict with
    distinct, non-empty keys, every tracked person has an embedding in
    the gallery, and [timestamp_now] is bound once somebody is tracked. *)
Definition well_formed (s : State) : Prop :=
  NoDup (map fst (tracked_people s))
  /\ tracked_in_gallery s
  /\ Forall (fun kv => fst kv <> EmptyString) (tracked_people s)
  /\ (tracked_people s <> [] -> timestamp_now s <> None).

(* ================================================================= *)
(** ** Further observations, used in the properties of the tracker *)

(** The count that [Visualizer.draw_on_frame] shows as In-frame: the
    tracked persons whose [bbox] is not [None]. *)
Definition inframe_people (tracked : list (PersonId * Track)) : nat :=
  List.length
    (filter (fun kv => match bbox (snd kv) with Some _ => true | None => false end)
            tracked).

(** Detection [d], at index [idx] of [detections], is not in
    [assigned_detections] and is nearest to [last_bbox] among the
    detections that are not, the first of them on a tie. *)
Definition nearest_unassigned (last_bbox : BBox) (assigned_detections : list nat)
    (detections : list Detection) (idx : nat) (d : Detection) : Prop :=
  nth_error detections idx = Some d
  /\ existsb (Nat.eqb idx) assigned_detections = false
  /\ forall j d',
       nth_error detections j = Some d' ->
       existsb (Nat.eqb j) assigned_detections = false ->
       (dist2x4 last_bbox (det_box d) <= dist2x4 last_bbox (det_box d'))%Z
       /\ ((j < idx)%nat ->
           (dist2x4 last_bbox (det_box d) < dist2x4 last_bbox (det_box d'))%Z).


(** The number of detections in a list of frames, and the number of
    frames that the main loop reads from a stream of [n] frames, from
    frame number [frame_num] on, when nobody presses the quit key. *)
Definition count_detections (frames : list (Frame * list Detection)) : Z :=
  fold_right Z.add 0%Z (map (fun fd => Z.of_nat (List.length (snd fd))) frames).

Definition frames_read (max_frames : option Z) (frame_num : Z) (n : nat) : nat :=
  match max_frames with
  | Some m =>
      if (m =? 0)%Z then n else Nat.min n (Z.to_nat (Z.max 1 (m - frame_num)))
  | None => n
  end.

(* ================================================================= *)
(** ** Invariants of a run *)

(** Whether a person is present after a list of calls, given whether
    the person was present before them: an entry record makes an absent
    person present, an exit record makes a present person absent.  The
    result is [None] when an entry record is saved for a person who is
    present, or an exit record for a person who is absent. *)
Fixpoint presence_after (person_id : PersonId) (present : bool) (calls : list Call)
  : option bool :=
  match calls with
  | [] => Some present
  | c :: rest =>
      match saved_visit c with
      | Some (p, action) =>
          if String.eqb p person_id then
            match action, present with
            | Entry, false => presence_after person_id true rest
            | Exit, true => presence_after person_id false rest
            | _, _ => None
            end
          else presence_after person_id present rest
      | None => presence_after person_id present rest
      end
  end.

(** The visit records saved so far alternate for every person, starting
    with an entry, and the persons whose last record is an entry are the
    tracked ones. *)
Definition presence_recorded (s : State) : Prop :=
  forall person_id,
    presence_after person_id false (trace s)
    = Some (dict_mem person_id (tracked_people s)).

(** Store [d'] holds what store [d] holds, and possibly more: the
    persons of [d] with their first-seen times, followed by new persons;
    the embeddings and the visit records of [d], followed by new ones;
    a counter that is not lower.  If no two person documents of [d]
    have the same identifier, none of [d'] have. *)
Definition db_grows (d d' : Db) : Prop :=
  (exists l, map (fun p => (p_person_id p, p_first_seen p)) (people d')
             = map (fun p => (p_person_id p, p_first_seen p)) (people d) ++ l)
  /\ (exists l, face_data d' = face_data d ++ l)
  /\ (exists l, visit_records d' = visit_records d ++ l)
  /\ match counter d, counter d' with
     | Some n, Some m => (n <= m)%Z
     | Some _, None => False
     | None, _ => True
     end
  /\ (NoDup (map p_person_id (people d)) -> NoDup (map p_person_id (people d'))).

(** An operation on the store that lets it grow. *)
Definition growing {A} (op : Db -> option (A * Db)) : Prop :=
  forall d a d', op d = Some (a, d') -> db_grows d d'.

(** State [s'] is a later state of the run than [s]: the store has
    grown, and the gallery and the trace have been extended. *)
Definition grows (s s' : State) : Prop :=
  db_grows (db s) (db s')
  /\ (exists l, known_embeddings s' = known_embeddings s ++ l)
  /\ (exists l, trace s' = trace s ++ l).

(** The embedding model returns embeddings of length [n] only. *)
Definition model_of_length (n : nat) : Prop :=
  forall crop emb, extract_embedding env crop = Some emb -> List.length emb = n.

(** The embeddings in the store all have length [n]. *)
Definition store_of_length (n : nat) (d : Db) : Prop :=
  Forall (fun f => List.length (f_face_vector f) = n) (face_data d).

(** The invariant of the resolver: [well_formed], and the embeddings of
    the in-memory gallery all have length [n]. *)
Definition sound (n : nat) (s : State) : Prop :=
  well_formed s /\ gallery_of_length n (known_embeddings s).

(** The invariant of the frame loop, with the record of presences. *)
Definition run_invariant (s : State) : Prop :=
  well_formed s /\ presence_recorded s.


(* ================================================================= *)
(** ** FaceDetector (face_detector.py) *)

(** A box of the YOLO result: its class, its corners [xyxy] after
    [astype(int)], and its confidence. *)
Record YoloBox := mkYoloBox {
  cls : Z;
  xyxy : Z * Z * Z * Z;
  box_conf : R }.

(** The detection [(x1, y1, w, h, conf)] appended for a box.  The width
    and the height are computed before the corner is clamped. *)
Definition to_detection (b : YoloBox) : Detection :=
  let '(x1, y1, x2, y2) := xyxy b in
  let w := (x2 - x1)%Z in
  let h := (y2 - y1)%Z in
  (Z.max 0 x1, Z.max 0 y1, w, h, box_conf b).

(** The loop of [detect_faces] over [r.boxes]. *)
Fixpoint detect_loop (boxes : list YoloBox) (detections : list Detection)
  : list Detection :=
  match boxes with
  | [] => detections
  | b :: rest =>
      if negb (cls b =? 0)%Z then detect_loop rest detections
      else if Rltb (box_conf b) (detection_conf_threshold config) then
        detect_loop rest detections
      else detect_loop rest (detections ++ [to_detection b])
  end.

(** [detect_faces(frame)], on the list [results] that [yolo.predict]
    returns for the frame.  A result without the attribute [boxes] is
    [None]. *)
Definition detect_faces (results : list (option (list YoloBox))) : list Detection :=
  match results with
  | [] => []
  | r :: _ =>
      match r with
      | Some boxes => detect_loop boxes []
      | None => []
      end
  end.

(** A face that the embedding model finds in a crop: its detection
    score and its embedding, if it has one. *)
Record Face := mkFace {
  det_score : R;
  embedding : option Embedding }.

(** [sorted(faces, key=lambda f: f.det_score, reverse=True)]: highest
    score first; the sort is stable, faces of equal score keep their
    order. *)
Fixpoint insert_by_score (x : Face) (l : list Face) : list Face :=
  match l with
  | [] => [x]
  | y :: rest =>
      if Rltb (det_score x) (det_score y) then y :: insert_by_score x rest
      else x :: y :: rest
  end.

Fixpoint sorted_by_score (l : list Face) : list Face :=
  match l with
  | [] => []
  | x :: rest => insert_by_score x (sorted_by_score rest)
  end.

(** [FaceDetector.extract_embedding(crop)], on what [face_app.get(crop)]
    returns: a list of faces or [None]. *)
Definition face_detector_extract_embedding (found : option (list Face))
  : option Embedding :=
  let faces := match found with Some l => l | None => [] end in
  match faces with
  | [] => None
  | _ :: _ =>
      match sorted_by_score faces with
      | best_face :: _ => embedding best_face
      | [] => None
      end
  end.

(* ================================================================= *)
(** ** The configuration file (config.py) *)

(** A JSON value.  Arrays and objects, which no parameter of the
    program holds, are kept as their text. *)
Inductive Json :=
| JNull
| JBool (b : bool)
| JInt (n : Z)
| JFloat (x : R)
| JString (s : string)
| JCompound (text : string).

Definition DEFAULT_CONFIG : list (string * Json) :=
  [("detection_skip_frames"%string, JInt 5);
   ("detection_conf_threshold"%string, JFloat (6 / 10));
   ("embedding_similarity_threshold"%string, JFloat (5 / 10));
   ("embedding_diversity_threshold"%string, JFloat (8 / 10));
   ("exit_frame_threshold"%string, JInt 30);
   ("save_cropped"%string, JBool true);
   ("logs_folder"%string, JString "logs");
   ("mongodb_uri"%string, JString "mongodb://localhost:27017/");
   ("database_name"%string, JString "face_tracker");
   ("model_yolo"%string, JString "yolov8n-face.pt");
   ("det_size"%string, JInt 640);
   ("visualize"%string, JBool true);
   ("camera_source"%string, JInt 0)].

(** The loop that adds the missing default parameters to [cfg]. *)
Fixpoint merge_defaults (defaults cfg : list (string * Json))
  : list (string * Json) :=
  match defaults with
  | [] => cfg
  | (k, v) :: rest =>
      merge_defaults rest (if dict_mem k cfg then cfg else dict_set k v cfg)
  end.

(** [load_or_create_config(path)].  The argument is the JSON object in
    the file at [path], [None] when the file does not exist; the result
    is the configuration returned and the content of the file
    afterwards. *)
Definition load_or_create_config (file : option (list (string * Json)))
  : list (string * Json) * option (list (string * Json)) :=
  match file with
  | Some cfg => (merge_defaults DEFAULT_CONFIG cfg, Some cfg)
  | None => (DEFAULT_CONFIG, Some DEFAULT_CONFIG)
  end.

(* ================================================================= *)
(** ** The progress report (main.py) *)

(** The global [current_progress]. *)
Record Progress := mkProgress {
  pr_current_frame : Z;
  pr_total_frames : Z;
  pr_progress : R }.

Definition reset_progress : Progress := mkProgress 0 0 0.

(** [progress_callback(current_frame, total_frames)]; [None] is an
    uncaught exception. *)
Definition progress_callback (current_frame total_frames : Z) (p : Progress)
  : option Progress :=
  if (total_frames >? 0)%Z then
    match py_div (IZR current_frame) (IZR total_frames) with
    | Some q => Some (mkProgress current_frame total_frames (q * 100))
    | None => None
    end
  else Some p.

(** The value of [total_frames] in [process_video], from the frame
    count that the capture reports. *)
Definition estimate_total_frames (reported : Z) (max_frames : option Z) : Z :=
  let given := match max_frames with
               | Some m => negb (m =? 0)%Z
               | None => false
               end in
  if (reported =? 0)%Z && given then
    match max_frames with Some m => m | None => reported end
  else if (reported =? 0)%Z then 1000%Z
  else reported.


(* ================================================================= *)
(** ** Example data *)

Open Scope string_scope.
Open Scope Z_scope.

(** [DEFAULT_CONFIG] of config.py. *)
Definition default_config : Config :=
  mkConfig 5 (6 / 10)%R (5 / 10)%R (8 / 10)%R 30 true true.

(** The default configuration with the diversity threshold set to 0. *)
Definition zero_diversity_config : Config :=
  mkConfig 5 (6 / 10)%R (5 / 10)%R 0%R 30 true true.

(** Three unit embeddings: two orthogonal ones and the opposite of the
    first. *)
Definition e_front : Embedding := [1; 0]%R.
Definition e_side : Embedding := [0; 1]%R.
Definition e_back : Embedding := [-1; 0]%R.

(** A unit embedding of another length. *)
Definition e_long : Embedding := [1; 0; 0]%R.

(** An environment whose store raises exactly at the oracle indices
    selected by [fails], with a clock that counts the oracle reads and
    nobody pressing the quit key. *)
Definition example_env (fails : nat -> bool) (embed : Crop -> option Embedding)
  : Env :=
  mkEnv fails (fun _ => "0a1b2c3d"%string) (fun n => Z.of_nat n) embed
        (fun _ => false).

Definition never : nat -> bool := fun _ => false.

(** The embedding model of the examples: a face in the left half of the
    frame looks like [e_front], one in the right half like [e_side]. *)
Definition embed_by_side (c : Crop) : option Embedding :=
  if (crop_xa c <? 320)%Z then Some e_front else Some e_side.

Definition example_frame (n : nat) : Frame := mkFrame 480 640 n.

(** A store that knows nobody, with its counter at 0. *)
Definition empty_db : Db := mkDb [] [] [] (Some 0%Z).

(** Two detections: a face on the left, and one on the right, 240 px
    apart. *)
Definition det_left : Detection := (100, 100, 50, 50, (9 / 10)%R)%Z.
Definition det_right : Detection := (340, 100, 50, 50, (9 / 10)%R)%Z.

(** Two detections 30 px apart around the middle of the frame: the
    padded crop of the first starts at x = 298, that of the second at
    x = 328, so the embedding model tells the two faces apart. *)
Definition det_a : Detection := (303, 100, 50, 50, (9 / 10)%R)%Z.
Definition det_b : Detection := (333, 100, 50, 50, (9 / 10)%R)%Z.

(** A store that knows two persons, each with one embedding. *)
Definition two_person_db : Db :=
  mkDb [mkPersonDoc "person1" 0 3 3; mkPersonDoc "person2" 1 4 3]
       [mkFaceDoc "person1" e_front 0; mkFaceDoc "person2" e_side 1]
       [mkVisitDoc "person1" Entry 0 None; mkVisitDoc "person2" Entry 1 None]
       (Some 2%Z).

(** A track at the box of a detection, last matched in [frame_num]. *)
Definition track_at (d : Detection) (frame_num : Z) (crop_of : Frame) : Track :=
  mkTrack frame_num (Some (det_box d)) (Some (det_box d))
          (Some (crop_face crop_of d)) (det_conf d) 4.

(** Both persons tracked at frame 4, 30 px apart: person2, registered
    further to the right, has been followed by the tracker towards
    person1 since the last recognition frame. *)
Definition two_tracked_state : State :=
  mkState two_person_db
          [("person1"%string, track_at det_a 4 (example_frame 4));
           ("person2"%string, track_at det_b 4 (example_frame 4))]
          [("person1"%string, e_front); ("person2"%string, e_side)]
          (Some 4) 20%nat [].

(** The same state once the tracker has matched the two detections of
    frame 5. *)
Definition two_matched_state : State :=
  mkState two_person_db
          [("person1"%string,
            mkTrack 5 (Some (det_box det_a)) (Some (det_box det_a))
                    (Some (crop_face (example_frame 4) det_a)) (9 / 10)%R 4);
           ("person2"%string,
            mkTrack 5 (Some (det_box det_b)) (Some (det_box det_b))
                    (Some (crop_face (example_frame 4) det_b)) (9 / 10)%R 4)]
          [("person1"%string, e_front); ("person2"%string, e_side)]
          (Some 4) 20%nat [].

(** One person tracked, last matched in frame [last_seen]. *)
Definition one_tracked_state (last_seen : Z) : State :=
  mkState (mkDb [mkPersonDoc "person1" 0 3 3] [mkFaceDoc "person1" e_front 0]
                [mkVisitDoc "person1" Entry 0 None] (Some 1%Z))
          [("person1"%string, track_at det_left last_seen (example_frame 4))]
          [("person1"%string, e_front)]
          (Some 4) 20%nat [].

(** Two persons tracked at frame 40: the first last matched in frame 1,
    the second in frame 28. *)
Definition stale_and_recent_state : State :=
  mkState two_person_db
          [("person1"%string, track_at det_left 1 (example_frame 1));
           ("person2"%string, track_at det_right 28 (example_frame 28))]
          [("person1"%string, e_front); ("person2"%string, e_side)]
          (Some 4) 20%nat [].

(** A store in which person1 has one embedding, [e_back] or [e_front]. *)
Definition one_embedding_state (e : Embedding) : State :=
  mkState (mkDb [mkPersonDoc "person1" 0 0 1] [mkFaceDoc "person1" e 0] []
                (Some 1%Z))
          [] [("person1"%string, e)] None 0%nat [].

Close Scope Z_scope.
Close Scope string_scope.

(* ================================================================= *)
(** ** Statements of the specification, in its words *)

(** Spatial precedence: a resolved detection whose center lies within
    50 px of a tracked person's last known center is resolved to that
    person. *)
Definition spatial_precedence_claim (frame : Frame) (frame_num : Z)
    (d : Detection) (s : State) : Prop :=
  forall person_id pdata box,
    In (person_id, pdata) (tracked_people s) ->
    last_known_bbox pdata = Some box ->
    within_px 50 box (det_box d) = true ->
    forall r s',
      resolve_detection frame frame_num d s = Some (Some r, s') ->
      fst r = person_id.

(** A detection resolved by the position match leaves the gallery
    untouched: no best-match query, no offer to the retention decision,
    no new embedding. *)
Definition gallery_untouched_claim (frame : Frame) (frame_num : Z)
    (d : Detection) (s : State) : Prop :=
  forall person_id r s',
    position_match (tracked_people s) d = Some person_id ->
    resolve_detection frame frame_num d s = Some (Some r, s') ->
    known_embeddings s' = known_embeddings s
    /\ exists calls,
         trace s' = trace s ++ calls
         /\ existsb is_find_best_match calls = false
         /\ existsb is_should_store calls = false.

(** The retention decision is the rule of the specification: retained
    without stored embeddings, and otherwise exactly when the maximum
    similarity is below the diversity threshold. *)
Definition retention_claim (person_id : PersonId) (new_embedding : Embedding)
    (s : State) : Prop :=
  forall retain s',
    should_store_embedding person_id new_embedding s = Some (retain, s') ->
    let existing := recent_face_data (db s) person_id in
    (existing = [] -> retain = true)
    /\ forall m, max_similarity new_embedding existing = Some m ->
         (retain = true <-> (m < embedding_diversity_threshold config)%R).



(* ================================================================= *)
(** * Properties *)

Lemma Rltb_true (a b : R) : Rltb a b = true <-> (a < b)%R.
Proof.
  unfold Rltb. destruct (Rlt_dec a b); split; intros; auto; discriminate.
Qed.

Lemma Rltb_false (a b : R) : Rltb a b = false <-> (b <= a)%R.
Proof.
  unfold Rltb. destruct (Rlt_dec a b); split; intros; auto; try discriminate; lra.
Qed.

Lemma Reqb_true (a b : R) : Reqb a b = true <-> a = b.
Proof.
  unfold Reqb. destruct (Req_dec_T a b); split; intros; auto; discriminate.
Qed.

Lemma Reqb_false (a b : R) : Reqb a b = false <-> a <> b.
Proof.
  unfold Reqb. destruct (Req_dec_T a b); split; intros; auto; try discriminate.
  contradiction.
Qed.

(** *** Cosine similarity *)

(** [np.dot] has a value exactly on arrays of one length. *)
Lemma dot_defined (a : Embedding) :
  forall b, List.length a = List.length b -> exists d, dot a b = Some d.
Proof.
  induction a as [| x a IH]; intros [| y b] Hlen; simpl in *; try discriminate.
  - eauto.
  - injection Hlen as Hlen. destruct (IH b Hlen) as [d ->]. eauto.
Qed.

Lemma dot_raises (a : Embedding) :
  forall b, List.length a <> List.length b -> dot a b = None.
Proof.
  induction a as [| x a IH]; intros [| y b] Hlen; simpl in *;
    try reflexivity; try congruence.
  rewrite (IH b); [reflexivity | congruence].
Qed.

Lemma dot_some_length (a b : Embedding) (d : R) :
  dot a b = Some d -> List.length a = List.length b.
Proof.
  intros H. destruct (Nat.eq_dec (List.length a) (List.length b)) as [E | E]; [exact E|].
  rewrite (dot_raises a b E) in H. discriminate.
Qed.

Lemma cosine_similarity_zero (a b : Embedding) :
  norm a = 0%R \/ norm b = 0%R -> cosine_similarity a b = Some 0%R.
Proof.
  unfold cosine_similarity. intros [H | H]; apply Reqb_true in H; rewrite H.
  - reflexivity.
  - rewrite orb_true_r. reflexivity.
Qed.

Lemma cosine_similarity_nonzero (a b : Embedding) (d : R) :
  norm a <> 0%R -> norm b <> 0%R -> dot a b = Some d ->
  (norm a * norm b)%R <> 0%R /\
  cosine_similarity a b = Some (d / (norm a * norm b))%R.
Proof.
  intros Ha Hb Hd.
  assert (Hprod : (norm a * norm b)%R <> 0%R)
    by (apply Rmult_integral_contrapositive; auto).
  split; [exact Hprod|].
  unfold cosine_similarity, py_div. rewrite Hd.
  apply Reqb_false in Ha, Hb, Hprod. rewrite Ha, Hb, Hprod. reflexivity.
Qed.

(** Between vectors of non-zero norm and of different lengths the
    similarity raises. *)
Lemma cosine_similarity_raises (a b : Embedding) :
  norm a <> 0%R -> norm b <> 0%R -> List.length a <> List.length b ->
  cosine_similarity a b = None.
Proof.
  intros Ha Hb Hlen. unfold cosine_similarity.
  apply Reqb_false in Ha, Hb. rewrite Ha, Hb, (dot_raises a b Hlen). reflexivity.
Qed.

(** On vectors of one List.length the similarity has a value. *)
Lemma cosine_similarity_defined (a b : Embedding) :
  List.length a = List.length b -> exists r, cosine_similarity a b = Some r.
Proof.
  intros Hlen.
  destruct (Req_dec_T (norm a) 0) as [Ha | Ha].
  { exists 0%R. apply cosine_similarity_zero. now left. }
  destruct (Req_dec_T (norm b) 0) as [Hb | Hb].
  { exists 0%R. apply cosine_similarity_zero. now right. }
  destruct (dot_defined a b Hlen) as [d Hd].
  eexists. apply (cosine_similarity_nonzero a b d); assumption.
Qed.


(** *** find_best_match *)


(** The loop returns when every similarity has a value. *)
Lemma find_best_match_loop_defined (new_embedding : Embedding)
    (known : list (PersonId * Embedding)) :
  Forall (fun e => exists r, cosine_similarity new_embedding (snd e) = Some r) known ->
  forall best_id best second,
  exists id b s,
    find_best_match_loop new_embedding known best_id best second = Some (id, b, s).
Proof.
  induction 1 as [| [pid e] rest [sim Hsim] _ IH]; intros best_id best second; simpl.
  - eauto.
  - simpl in Hsim. rewrite Hsim.
    destruct (Rgtb sim best); [apply IH|].
    destruct (Rgtb sim second); apply IH.
Qed.

(** The loop raises when one similarity does. *)
Lemma find_best_match_loop_raises (new_embedding : Embedding)
    (known : list (PersonId * Embedding)) (e : PersonId * Embedding) :
  In e known -> cosine_similarity new_embedding (snd e) = None ->
  forall best_id best second,
    find_best_match_loop new_embedding known best_id best second = None.
Proof.
  intros Hin Hnone.
  induction known as [| [pid e'] rest IH]; intros best_id best second; simpl.
  - destruct Hin.
  - destruct Hin as [E | Hin].
    + subst e. simpl in Hnone. rewrite Hnone. reflexivity.
    + destruct (cosine_similarity new_embedding e') as [sim|]; [|reflexivity].
      destruct (Rgtb sim best); [apply IH; exact Hin|].
      destruct (Rgtb sim second); apply IH; exact Hin.
Qed.

Lemma gallery_of_length_defined (new_embedding : Embedding)
    (known : list (PersonId * Embedding)) :
  gallery_of_length (List.length new_embedding) known ->
  Forall (fun e => exists r, cosine_similarity new_embedding (snd e) = Some r) known.
Proof.
  unfold gallery_of_length. intros H. eapply Forall_impl; [|exact H].
  intros e He. apply cosine_similarity_defined. symmetry. exact He.
Qed.


(** *** Dict operations *)

Lemma dict_get_set_same {V} (k : PersonId) (v : V) (d : list (PersonId * V)) :
  dict_get k (dict_set k v d) = Some v.
Proof.
  induction d as [| [k' v'] rest IH]; simpl.
  - rewrite String.eqb_refl. reflexivity.
  - destruct (String.eqb k k') eqn:E; simpl; rewrite E; auto.
Qed.

Lemma dict_get_set_other {V} (k k0 : PersonId) (v : V) (d : list (PersonId * V)) :
  k0 <> k -> dict_get k0 (dict_set k v d) = dict_get k0 d.
Proof.
  intros Hne. induction d as [| [k' v'] rest IH]; simpl.
  - apply String.eqb_neq in Hne. rewrite Hne. reflexivity.
  - destruct (String.eqb k k') eqn:E; simpl.
    + apply String.eqb_eq in E. subst k'.
      apply String.eqb_neq in Hne. rewrite Hne. reflexivity.
    + rewrite IH. reflexivity.
Qed.

Lemma dict_set_keys {V} (k : PersonId) (v : V) (d : list (PersonId * V)) :
  map fst (dict_set k v d) =
  if dict_mem k d then map fst d else map fst d ++ [k].
Proof.
  unfold dict_mem. induction d as [| [k' v'] rest IH]; simpl.
  - reflexivity.
  - destruct (String.eqb k k') eqn:E; simpl.
    + reflexivity.
    + rewrite IH. destruct (dict_get k rest); reflexivity.
Qed.

Lemma dict_mem_In {V} (k : PersonId) (d : list (PersonId * V)) :
  dict_mem k d = true <-> In k (map fst d).
Proof.
  unfold dict_mem. induction d as [| [k' v'] rest IH]; simpl.
  - split; [discriminate | tauto].
  - destruct (String.eqb k k') eqn:E.
    + apply String.eqb_eq in E. subst. split; auto.
    + apply String.eqb_neq in E. rewrite IH. split; [auto|].
      intros [H | H]; [congruence | exact H].
Qed.

Lemma dict_get_In {V} (k : PersonId) (v : V) (d : list (PersonId * V)) :
  NoDup (map fst d) -> In (k, v) d -> dict_get k d = Some v.
Proof.
  induction d as [| [k' v'] rest IH]; simpl; intros Hnd Hin; [tauto|].
  inversion Hnd as [| ? ? Hnotin Hnd']; subst.
  destruct Hin as [Heq | Hin].
  - injection Heq as -> ->. rewrite String.eqb_refl. reflexivity.
  - destruct (String.eqb k k') eqn:E.
    + apply String.eqb_eq in E. subst k'. exfalso. apply Hnotin.
      apply in_map_iff. exists (k, v). auto.
    + auto.
Qed.

Lemma dict_get_filter_out {V} (P : PersonId * V -> bool) (k : PersonId) (v : V)
    (d : list (PersonId * V)) :
  NoDup (map fst d) -> In (k, v) d -> P (k, v) = false ->
  dict_get k (filter P d) = None.
Proof.
  induction d as [| [k' v'] rest IH]; simpl; intros Hnd Hin HP; [tauto|].
  inversion Hnd as [| ? ? Hnotin Hnd']; subst.
  destruct Hin as [Heq | Hin].
  - injection Heq as -> ->. rewrite HP.
    destruct (dict_get k (filter P rest)) eqn:G; [|reflexivity].
    exfalso. apply Hnotin.
    assert (Hm : dict_mem k (filter P rest) = true) by (unfold dict_mem; now rewrite G).
    apply dict_mem_In in Hm. apply in_map_iff in Hm. destruct Hm as [[k1 v1] [Hk Hin]].
    simpl in Hk. subst k1. apply filter_In in Hin. destruct Hin as [Hin _].
    apply in_map_iff. exists (k, v1). auto.
  - assert (Hne : k <> k').
    { intros ->. apply Hnotin. apply in_map_iff. exists (k', v). auto. }
    destruct (P (k', v')); simpl; [|auto].
    apply String.eqb_neq in Hne. rewrite Hne. auto.
Qed.

Lemma dict_get_filter_in {V} (P : PersonId * V -> bool) (k : PersonId) (v : V)
    (d : list (PersonId * V)) :
  NoDup (map fst d) -> In (k, v) d -> P (k, v) = true ->
  dict_get k (filter P d) = Some v.
Proof.
  intros Hnd Hin HP. apply dict_get_In.
  - clear Hin HP. induction d as [| [k' v'] rest IH]; simpl; [constructor|].
    inversion Hnd as [| ? ? Hnotin Hnd']; subst.
    destruct (P (k', v')); simpl; [|auto].
    constructor; [|auto]. intros Hin. apply Hnotin.
    apply in_map_iff in Hin. destruct Hin as [[k0 v0] [Hk Hin]]. simpl in Hk. subst k0.
    apply filter_In in Hin. apply in_map_iff. exists (k', v0). tauto.
  - apply filter_In. auto.
Qed.

(** Popping the keys of the entries selected by [P] leaves the entries
    that [P] rejects, when keys are distinct. *)
Lemma fold_dict_pop {V} (rm : list PersonId) (d : list (PersonId * V)) :
  fold_left (fun d' person_id => dict_pop person_id d') rm d =
  filter (fun kv => negb (existsb (fun k => String.eqb k (fst kv)) rm)) d.
Proof.
  revert d. induction rm as [| k rm IH]; intros d; simpl.
  - induction d as [| kv d IHd]; simpl; [reflexivity | now rewrite <- IHd].
  - rewrite IH. unfold dict_pop. clear IH.
    induction d as [| [k' v'] d IHd]; simpl; [reflexivity|].
    destruct (String.eqb k k') eqn:E; simpl; [exact IHd|].
    destruct (existsb (fun k0 => String.eqb k0 k') rm) eqn:E'; simpl;
      [exact IHd | now rewrite IHd].
Qed.

Lemma pop_selected {V} (P : PersonId * V -> bool) (d : list (PersonId * V)) :
  NoDup (map fst d) ->
  fold_left (fun d' person_id => dict_pop person_id d') (map fst (filter P d)) d =
  filter (fun kv => negb (P kv)) d.
Proof.
  intros Hnd. rewrite fold_dict_pop. apply filter_ext_in.
  intros [k v] Hin. simpl. f_equal.
  destruct (P (k, v)) eqn:HP.
  - apply existsb_exists. exists k. split; [|apply String.eqb_refl].
    apply in_map_iff. exists (k, v). split; [reflexivity|]. apply filter_In. auto.
  - destruct (existsb _ _) eqn:E; [|reflexivity].
    apply existsb_exists in E. destruct E as [k' [Hk' Heq]].
    apply String.eqb_eq in Heq. subst k'.
    apply in_map_iff in Hk'. destruct Hk' as [[k0 v0] [Hk Hin0]]. simpl in Hk. subst k0.
    apply filter_In in Hin0. destruct Hin0 as [Hin0 HP0].
    assert (v0 = v).
    { pose proof (dict_get_In k v d Hnd Hin) as G1.
      pose proof (dict_get_In k v0 d Hnd Hin0) as G2.
      congruence. }
    subst. congruence.
Qed.

(** *** The effect of each store method on the run state *)

Lemma pymongo_run {A} (op : Db -> option (A * Db)) (s : State) :
  pymongo op s =
  Some (if db_fails env (tick s) then None else option_map fst (op (db s)),
        mkState (db_after op s) (tracked_people s) (known_embeddings s)
                (timestamp_now s) (S (tick s)) (trace s)).
Proof.
  unfold pymongo, db_after, bind, next_tick, gets, modify, ret, set_tick, set_db.
  destruct (db_fails env (tick s)); cbn; [reflexivity|].
  destruct (op (db s)) as [[a d']|]; reflexivity.
Qed.

Lemma timestamp_iso_run (s : State) :
  timestamp_iso s = Some (clock env (tick s), set_tick (S (tick s)) s).
Proof. reflexivity. Qed.

Lemma init_mongodb_run (s : State) :
  init_mongodb s =
  if db_fails env (tick s) then None else Some (tt, set_tick (S (tick s)) s).
Proof.
  unfold init_mongodb, bind, next_tick. simpl.
  destruct (db_fails env (tick s)); reflexivity.
Qed.

Lemma save_cropped_face_run (img : Crop) (prefix : string) (s : State) :
  save_cropped_face img prefix s =
  if save_cropped config then Some (Some (prefix, tick s), set_tick (S (tick s)) s)
  else Some (None, s).
Proof.
  unfold save_cropped_face. destruct (save_cropped config); reflexivity.
Qed.

Lemma update_last_seen_run (person_id : PersonId) (ts : Timestamp) (s : State) :
  update_last_seen person_id ts s =
  Some (tt, mkState (db_after (op_update_last_seen person_id ts) s)
                    (tracked_people s) (known_embeddings s) (timestamp_now s)
                    (S (tick s)) (trace s ++ [CUpdateLastSeen person_id ts])).
Proof.
  unfold update_last_seen, log, modify. unfold bind at 1 2.
  rewrite pymongo_run. reflexivity.
Qed.

Lemma save_visit_record_run (person_id : PersonId) (action : Action)
    (ts : Timestamp) (img_path : option Path) (s : State) :
  save_visit_record person_id action ts img_path s =
  Some (tt, mkState
              (db_after (op_insert_visit (mkVisitDoc person_id action ts img_path)) s)
              (tracked_people s) (known_embeddings s) (timestamp_now s)
              (S (tick s))
              (trace s ++ [CSaveVisitRecord person_id action ts img_path])).
Proof.
  unfold save_visit_record, log, modify. unfold bind at 1 2.
  rewrite pymongo_run. reflexivity.
Qed.

(** *** handle_exits *)

Lemma exits_loop_run (current_frame_num exit_thresh : Z)
    (items : list (PersonId * Track)) :
  forall (to_remove : list PersonId) (s : State),
  exists s' calls,
    exits_loop current_frame_num exit_thresh items to_remove s =
      Some (to_remove ++ exiting current_frame_num exit_thresh items, s')
    /\ tracked_people s' = tracked_people s
    /\ known_embeddings s' = known_embeddings s
    /\ timestamp_now s' = timestamp_now s
    /\ trace s' = trace s ++ calls
    /\ map saved_visit calls =
       map (fun p => Some (p, Exit)) (exiting current_frame_num exit_thresh items)
    /\ ((forall n, db_fails env n = false) ->
        exists docs,
          db s' = set_visit_records (visit_records (db s) ++ docs) (db s)
          /\ visits_of docs =
             map (fun p => (p, Exit)) (exiting current_frame_num exit_thresh items)).
Proof.
  unfold exiting.
  induction items as [| [pid pdata] rest IH]; intros to_remove s; simpl.
  - exists s, []. rewrite !app_nil_r. repeat split; auto.
    intros _. exists []. rewrite app_nil_r. destruct s as [[] ? ? ? ? ?]. auto.
  - destruct (exits current_frame_num exit_thresh pdata) eqn:E; simpl.
    + unfold bind at 1.
      assert (Hsave : exists path s1,
                 match last_crop pdata with
                 | Some crop => save_cropped_face crop "exits"
                 | None => ret None
                 end s = Some (path, s1)
                 /\ tracked_people s1 = tracked_people s
                 /\ known_embeddings s1 = known_embeddings s
                 /\ timestamp_now s1 = timestamp_now s
                 /\ trace s1 = trace s
                 /\ db s1 = db s).
      { destruct (last_crop pdata).
        - rewrite save_cropped_face_run. destruct (save_cropped config); eauto 10.
        - unfold ret. eauto 10. }
      destruct Hsave as (path & s1 & -> & T1 & K1 & N1 & C1 & D1).
      unfold bind at 1. rewrite timestamp_iso_run.
      unfold bind at 1. rewrite save_visit_record_run.
      match goal with
      | |- context [exits_loop _ _ rest ?r ?s2] =>
          destruct (IH r s2) as (s' & calls & Hrun & T' & K' & N' & C' & V' & S')
      end.
      exists s'. eexists (_ :: calls).
      rewrite Hrun. simpl in *. rewrite <- app_assoc. simpl.
      repeat split; try congruence.
      * rewrite C', C1, <- app_assoc. reflexivity.
      * simpl. rewrite V'. reflexivity.
      * intros Hok. destruct (S' Hok) as (docs & Hdb & Hdocs).
        eexists (_ :: docs). rewrite Hdb. unfold db_after. simpl.
        rewrite Hok, D1. simpl. rewrite <- app_assoc. simpl.
        split; [reflexivity|]. simpl. rewrite Hdocs. reflexivity.
    + apply IH.
Qed.

Lemma exit_count_of_visits (person_id : PersonId) (calls : list Call) :
  forall ps,
  map saved_visit calls = map (fun p => Some (p, Exit)) ps ->
  exit_count person_id calls =
  List.length (filter (fun p => String.eqb p person_id) ps).
Proof.
  unfold exit_count.
  induction calls as [| c calls IH]; intros [| p ps] H; simpl in H; try discriminate.
  - reflexivity.
  - injection H as Hc Hrest. simpl. unfold is_exit_of at 1. rewrite Hc.
    destruct (String.eqb p person_id); simpl; rewrite (IH ps Hrest); reflexivity.
Qed.

Lemma all_exit_records (calls : list Call) :
  forall ps,
  map saved_visit calls = map (fun p => Some (p, Exit)) ps ->
  Forall (fun c => exists p, saved_visit c = Some (p, Exit)) calls.
Proof.
  induction calls as [| c calls IH]; intros [| p ps] H; simpl in H; try discriminate.
  - constructor.
  - injection H as Hc Hrest. constructor; [eauto | eapply IH; eauto].
Qed.

Lemma count_absent_key {V} (P : PersonId * V -> bool) (k : PersonId)
    (d : list (PersonId * V)) :
  ~ In k (map fst d) ->
  filter (fun p => String.eqb p k) (map fst (filter P d)) = [].
Proof.
  induction d as [| [k' v'] rest IH]; simpl; intros Hnotin; [reflexivity|].
  destruct (P (k', v')); simpl; [|tauto].
  destruct (String.eqb k' k) eqn:E; [|tauto].
  apply String.eqb_eq in E. tauto.
Qed.

Lemma count_selected {V} (P : PersonId * V -> bool) (k : PersonId) (v : V)
    (d : list (PersonId * V)) :
  NoDup (map fst d) -> In (k, v) d ->
  List.length (filter (fun p => String.eqb p k) (map fst (filter P d))) =
  if P (k, v) then 1%nat else 0%nat.
Proof.
  induction d as [| [k' v'] rest IH]; simpl; intros Hnd Hin; [tauto|].
  inversion Hnd as [| ? ? Hnotin Hnd']; subst.
  destruct Hin as [Heq | Hin].
  - injection Heq as -> ->.
    destruct (P (k, v)); simpl.
    + rewrite String.eqb_refl. simpl. now rewrite count_absent_key.
    + now rewrite count_absent_key.
  - assert (Hne : k' <> k).
    { intros ->. apply Hnotin. apply in_map_iff. exists (k, v). auto. }
    apply String.eqb_neq in Hne.
    destruct (P (k', v')); simpl; [rewrite Hne|]; auto.
Qed.

Lemma handle_exits_run (F T : Z) (s : State) :
  NoDup (map fst (tracked_people s)) ->
  exists s' calls,
    handle_exits F T s = Some (tt, s')
    /\ trace s' = trace s ++ calls
    /\ map saved_visit calls =
       map (fun p => Some (p, Exit)) (exiting F T (tracked_people s))
    /\ tracked_people s' =
       filter (fun kv => negb (exits F T (snd kv))) (tracked_people s)
    /\ known_embeddings s' = known_embeddings s
    /\ timestamp_now s' = timestamp_now s
    /\ ((forall n, db_fails env n = false) ->
        exists docs,
          db s' = set_visit_records (visit_records (db s) ++ docs) (db s)
          /\ visits_of docs = map (fun p => (p, Exit)) (exiting F T (tracked_people s))).
Proof.
  intros Hnd. unfold handle_exits. unfold bind at 1. unfold gets at 1.
  destruct (exits_loop_run F T (tracked_people s) [] s)
    as (s1 & calls & Hrun & T1 & K1 & N1 & C1 & V1 & S1).
  unfold bind at 1. rewrite Hrun. simpl app. unfold modify.
  eexists. exists calls. split; [reflexivity|]. simpl.
  assert (Htracked :
    fold_left (fun d person_id => dict_pop person_id d)
              (exiting F T (tracked_people s)) (tracked_people s1) =
    filter (fun kv => negb (exits F T (snd kv))) (tracked_people s)).
  { rewrite T1. unfold exiting. now apply pop_selected. }
  rewrite Htracked. auto 10.
Qed.

(** C5. A call of the exit check with current frame [F] and threshold
    [T] always returns.  The calls it makes on the store are exit
    records and nothing else.  A tracked person with
    [F - last_seen_frame > T] gets exactly one exit record and is no
    longer tracked afterwards; a tracked person with
    [F - last_seen_frame <= T] gets no exit record and stays tracked
    with unchanged data.  When the store accepts every write, the exit
    records appended to it are those of the persons that exit. *)
Theorem handle_exits_exactly_overdue (F T : Z) (s : State) :
  NoDup (map fst (tracked_people s)) ->
  exists s' calls,
    handle_exits F T s = Some (tt, s')
    /\ trace s' = trace s ++ calls
    /\ Forall (fun c => exists p, saved_visit c = Some (p, Exit)) calls
    /\ List.length calls = List.length (exiting F T (tracked_people s))
    /\ tracked_people s' =
       filter (fun kv => negb (exits F T (snd kv))) (tracked_people s)
    /\ (forall person_id pdata,
          In (person_id, pdata) (tracked_people s) ->
          ((F - last_seen_frame pdata > T)%Z ->
             exit_count person_id calls = 1%nat
             /\ dict_get person_id (tracked_people s') = None)
          /\ ((F - last_seen_frame pdata <= T)%Z ->
             exit_count person_id calls = 0%nat
             /\ dict_get person_id (tracked_people s') = Some pdata))
    /\ ((forall n, db_fails env n = false) ->
        exists docs,
          db s' = set_visit_records (visit_records (db s) ++ docs) (db s)
          /\ visits_of docs = map (fun p => (p, Exit)) (exiting F T (tracked_people s))).
Proof.
  intros Hnd.
  destruct (handle_exits_run F T s Hnd)
    as (s' & calls & Hrun & C1 & V1 & Htracked & _ & _ & S1).
  exists s', calls. split; [exact Hrun|]. rewrite Htracked.
  split; [exact C1|].
  split; [eapply all_exit_records; eauto|].
  split.
  { rewrite <- (length_map saved_visit), V1, length_map. reflexivity. }
  split; [reflexivity|].
  split; [|exact S1].
  intros person_id pdata Hin.
  rewrite (exit_count_of_visits person_id calls _ V1). unfold exiting.
  rewrite (count_selected (fun kv => exits F T (snd kv)) person_id pdata _ Hnd Hin).
  simpl. unfold exits. split; intros Hcmp.
  - assert (E : (F - last_seen_frame pdata >? T)%Z = true) by lia.
    rewrite E. split; [reflexivity|].
    apply (dict_get_filter_out _ person_id pdata); auto. simpl. now rewrite E.
  - assert (E : (F - last_seen_frame pdata >? T)%Z = false) by lia.
    rewrite E. split; [reflexivity|].
    apply dict_get_filter_in; auto. simpl. now rewrite E.
Qed.

(** *** The run state after each method, in closed form *)

Lemma log_run (c : Call) (s : State) : log c s = Some (tt, logged c s).
Proof. reflexivity. Qed.

Lemma update_last_seen_st (person_id : PersonId) (ts : Timestamp) (s : State) :
  update_last_seen person_id ts s = Some (tt, st_update_last_seen person_id ts s).
Proof. apply update_last_seen_run. Qed.

Lemma save_visit_record_st (person_id : PersonId) (action : Action)
    (ts : Timestamp) (img_path : option Path) (s : State) :
  save_visit_record person_id action ts img_path s =
  Some (tt, st_save_visit_record person_id action ts img_path s).
Proof. apply save_visit_record_run. Qed.

Lemma save_cropped_face_st (img : Crop) (prefix : string) (s : State) :
  save_cropped_face img prefix s =
  Some (saved_path prefix s, st_save_cropped_face s).
Proof.
  unfold save_cropped_face, saved_path, st_save_cropped_face.
  destruct (save_cropped config); reflexivity.
Qed.

Lemma register_person_st (person_id : PersonId) (emb : Embedding)
    (ts : Timestamp) (s : State) :
  register_person person_id emb ts s =
  Some (tt, st_register_person person_id emb ts s).
Proof.
  unfold register_person, st_register_person. unfold bind at 1. rewrite log_run.
  unfold bind at 1. rewrite pymongo_run. simpl.
  destruct (db_fails env (tick s)); [reflexivity|].
  unfold op_insert_person at 1. simpl.
  destruct (existsb _ (people (db s))); simpl; [reflexivity|].
  unfold bind at 1. rewrite pymongo_run. reflexivity.
Qed.

Lemma get_next_person_id_st (s : State) :
  get_next_person_id s = Some (next_person_id s, st_get_next_person_id s).
Proof.
  unfold get_next_person_id, next_person_id, st_get_next_person_id.
  unfold bind at 1. rewrite log_run.
  unfold bind at 1. rewrite pymongo_run. simpl.
  destruct (db_fails env (tick s)); [reflexivity|].
  unfold op_inc_counter at 1. destruct (counter (db s)); reflexivity.
Qed.

Lemma should_store_embedding_st (person_id : PersonId) (new_embedding : Embedding)
    (s : State) :
  should_store_embedding person_id new_embedding s =
  Some (retention_decision person_id new_embedding s,
        st_should_store_embedding person_id new_embedding s).
Proof.
  unfold should_store_embedding, retention_decision, st_should_store_embedding.
  unfold bind at 1. rewrite log_run. unfold bind at 1. rewrite pymongo_run.
  unfold db_after. simpl.
  destruct (db_fails env (tick s)); simpl; [reflexivity|].
  destruct (recent_face_data (db s) person_id) as [| f rest]; [reflexivity|].
  cbn [max_sim_loop].
  destruct (cosine_similarity new_embedding (f_face_vector f)); [|reflexivity].
  destruct (max_sim_loop new_embedding rest _); reflexivity.
Qed.

Lemma store_embedding_st (assigned_id : PersonId) (emb : Embedding) (s : State) :
  store_embedding assigned_id emb s =
  Some (tt, st_store_embedding assigned_id emb s).
Proof.
  unfold store_embedding, st_store_embedding. unfold bind at 1. unfold gets at 1.
  destruct (timestamp_now s) as [ts|]; [|reflexivity].
  unfold bind at 1. rewrite log_run. unfold bind at 1. rewrite pymongo_run.
  simpl. destruct (db_fails env (tick s)); reflexivity.
Qed.

(** *** Recognition and the steps after the assignment *)

Lemma find_best_match_defined (emb : Embedding) (known : list (PersonId * Embedding)) :
  gallery_of_length (List.length emb) known ->
  exists id b s, find_best_match emb known = Some (id, b, s).
Proof.
  intros Hlen.
  apply (find_best_match_loop_defined emb known (gallery_of_length_defined _ _ Hlen)).
Qed.

(** The best-match query is outside every [try]: when it raises, the
    recognition raises. *)
Lemma recognize_raises (emb : Embedding) (s : State) :
  find_best_match emb (known_embeddings s) = None -> recognize emb s = None.
Proof.
  intros Hfind. unfold recognize. unfold bind at 1. unfold gets at 1.
  unfold bind at 1. rewrite log_run. simpl known_embeddings. rewrite Hfind.
  reflexivity.
Qed.

Lemma recognize_run (emb : Embedding) (s : State)
    (best_id : option PersonId) (best_sim second_best_sim : R) :
  find_best_match emb (known_embeddings s) = Some (best_id, best_sim, second_best_sim) ->
  recognize emb s =
  if Rgeb best_sim (embedding_similarity_threshold config) && truthy best_id then
    match best_id with
    | Some assigned_id => Some ((assigned_id, false), st_recognize_start emb s)
    | None => None
    end
  else Some ((new_person_id emb s, true), st_register_new emb s).
Proof.
  intros Hfind. unfold recognize. unfold bind at 1. unfold gets at 1.
  unfold bind at 1. rewrite log_run. simpl known_embeddings. rewrite Hfind.
  unfold bind at 1. rewrite timestamp_iso_run.
  unfold bind at 1. unfold modify at 1.
  change (set_timestamp_now (Some (clock env (tick (logged (CFindBestMatch emb) s))))
            (set_tick (S (tick (logged (CFindBestMatch emb) s)))
                      (logged (CFindBestMatch emb) s)))
    with (st_recognize_start emb s).
  destruct (Rgeb best_sim (embedding_similarity_threshold config) && truthy best_id).
  - destruct best_id; reflexivity.
  - unfold bind at 1. rewrite get_next_person_id_st.
    unfold bind at 1. rewrite register_person_st.
    reflexivity.
Qed.

Lemma commit_identity_run (frame : Frame) (frame_num : Z) (d : Detection)
    (emb : Embedding) (assigned_id : PersonId) (is_new_person : bool)
    (now : Timestamp) (s : State) :
  timestamp_now s = Some now ->
  commit_identity frame frame_num d emb (assigned_id, is_new_person) s =
  Some (Some (assigned_id, is_new_person),
        st_commit frame frame_num d emb assigned_id is_new_person now s).
Proof.
  intros Hnow. unfold commit_identity, st_commit.
  unfold bind at 1. unfold gets at 1.
  assert (Hentry :
    (if negb (dict_mem assigned_id (tracked_people s)) then
       cropped_path <- save_cropped_face (crop_face frame d) "entries" ;;
       now0 <- read_timestamp_now ;;
       save_visit_record assigned_id Entry now0 cropped_path
     else ret tt) s = Some (tt, st_entry assigned_id now s)
    /\ timestamp_now (st_entry assigned_id now s) = Some now).
  { unfold st_entry. destruct (negb (dict_mem assigned_id (tracked_people s))).
    - unfold bind at 1. rewrite save_cropped_face_st.
      unfold bind at 1. unfold read_timestamp_now at 1.
      assert (H1 : timestamp_now (st_save_cropped_face s) = Some now).
      { unfold st_save_cropped_face. destruct (save_cropped config); exact Hnow. }
      rewrite H1. rewrite save_visit_record_st. split; [reflexivity | exact H1].
    - split; [reflexivity | exact Hnow]. }
  destruct Hentry as [Hentry Hnow1].
  unfold bind at 1. rewrite Hentry.
  set (s1 := st_entry assigned_id now s) in *.
  assert (Hret :
    (if negb is_new_person then
       store <- should_store_embedding assigned_id emb ;;
       if store then store_embedding assigned_id emb else ret tt
     else ret tt) s1 = Some (tt, st_retention assigned_id emb is_new_person s1)
    /\ timestamp_now (st_retention assigned_id emb is_new_person s1) = Some now).
  { unfold st_retention. destruct (negb is_new_person).
    - unfold bind at 1. rewrite should_store_embedding_st.
      destruct (retention_decision assigned_id emb s1).
      + rewrite store_embedding_st. split; [reflexivity|].
        unfold st_store_embedding. simpl. rewrite Hnow1.
        destruct (db_fails env (S (tick s1))); exact Hnow1.
      + split; [reflexivity | exact Hnow1].
    - split; [reflexivity | exact Hnow1]. }
  destruct Hret as [Hret Hnow2].
  unfold bind at 1. rewrite Hret.
  unfold bind at 1. unfold read_timestamp_now at 1. rewrite Hnow2.
  unfold bind at 1. rewrite update_last_seen_st.
  reflexivity.
Qed.

(** *** What each step leaves unchanged *)

Lemma st_entry_fields (assigned_id : PersonId) (now : Timestamp) (s : State) :
  tracked_people (st_entry assigned_id now s) = tracked_people s
  /\ known_embeddings (st_entry assigned_id now s) = known_embeddings s
  /\ timestamp_now (st_entry assigned_id now s) = timestamp_now s
  /\ trace (st_entry assigned_id now s) = trace s ++ entry_calls assigned_id now s.
Proof.
  unfold st_entry, entry_calls, st_save_cropped_face, saved_path.
  destruct (negb (dict_mem assigned_id (tracked_people s))).
  - destruct (save_cropped config); simpl; auto.
  - rewrite app_nil_r. auto.
Qed.

Lemma st_retention_fields (assigned_id : PersonId) (emb : Embedding)
    (is_new_person : bool) (now : Timestamp) (s : State) :
  timestamp_now s = Some now ->
  tracked_people (st_retention assigned_id emb is_new_person s) = tracked_people s
  /\ known_embeddings (st_retention assigned_id emb is_new_person s) =
     (if retention_appends assigned_id emb is_new_person s
      then known_embeddings s ++ [(assigned_id, emb)] else known_embeddings s)
  /\ timestamp_now (st_retention assigned_id emb is_new_person s) = Some now
  /\ trace (st_retention assigned_id emb is_new_person s) =
     trace s ++ retention_calls assigned_id emb is_new_person now s.
Proof.
  intros Hnow.
  unfold st_retention, retention_appends, retention_calls, st_store_embedding.
  destruct is_new_person; simpl.
  - rewrite app_nil_r. auto.
  - destruct (retention_decision assigned_id emb s); simpl.
    + rewrite Hnow. destruct (db_fails env (S (tick s))); simpl;
        rewrite <- app_assoc; auto.
    + auto.
Qed.

Lemma st_commit_fields (frame : Frame) (frame_num : Z) (d : Detection)
    (emb : Embedding) (assigned_id : PersonId) (is_new_person : bool)
    (now : Timestamp) (s : State) :
  timestamp_now s = Some now ->
  let s' := st_commit frame frame_num d emb assigned_id is_new_person now s in
  let s1 := st_entry assigned_id now s in
  tracked_people s' =
    dict_set assigned_id
      (mkTrack frame_num (Some (det_box d)) (Some (det_box d))
               (Some (crop_face frame d)) (det_conf d) now)
      (tracked_people s)
  /\ known_embeddings s' =
     (if retention_appends assigned_id emb is_new_person s1
      then known_embeddings s ++ [(assigned_id, emb)] else known_embeddings s)
  /\ timestamp_now s' = Some now
  /\ trace s' =
     trace s ++ entry_calls assigned_id now s
       ++ retention_calls assigned_id emb is_new_person now s1
       ++ [CUpdateLastSeen assigned_id now].
Proof.
  intros Hnow s' s1.
  destruct (st_entry_fields assigned_id now s) as (T1 & K1 & N1 & C1).
  fold s1 in T1, K1, N1, C1. rewrite Hnow in N1.
  destruct (st_retention_fields assigned_id emb is_new_person now s1 N1)
    as (T2 & K2 & N2 & C2).
  unfold s', st_commit. fold s1. simpl.
  rewrite T2, T1, K2, K1, N2, C2, C1, <- !app_assoc. auto.
Qed.

Lemma st_get_next_person_id_fields (s : State) :
  tracked_people (st_get_next_person_id s) = tracked_people s
  /\ known_embeddings (st_get_next_person_id s) = known_embeddings s
  /\ timestamp_now (st_get_next_person_id s) = timestamp_now s
  /\ trace (st_get_next_person_id s) = trace s ++ [CGetNextPersonId].
Proof.
  unfold st_get_next_person_id.
  destruct (if db_fails env (tick s) then None else counter (db s)); simpl; auto.
Qed.

Lemma st_register_person_fields (person_id : PersonId) (emb : Embedding)
    (ts : Timestamp) (s : State) :
  tracked_people (st_register_person person_id emb ts s) = tracked_people s
  /\ known_embeddings (st_register_person person_id emb ts s) = known_embeddings s
  /\ timestamp_now (st_register_person person_id emb ts s) = timestamp_now s
  /\ trace (st_register_person person_id emb ts s) =
     trace s ++ [CRegisterPerson person_id emb ts].
Proof.
  unfold st_register_person.
  destruct (db_fails env (tick s)); simpl; auto.
  destruct (existsb _ (people (db s))); simpl; auto.
Qed.

Lemma st_register_new_fields (emb : Embedding) (s : State) :
  let s' := st_register_new emb s in
  let now := clock env (tick s) in
  tracked_people s' = tracked_people s
  /\ known_embeddings s' = known_embeddings s ++ [(new_person_id emb s, emb)]
  /\ timestamp_now s' = Some now
  /\ trace s' =
     trace s ++ [CFindBestMatch emb; CGetNextPersonId;
                 CRegisterPerson (new_person_id emb s) emb now].
Proof.
  unfold st_register_new.
  set (s1 := st_recognize_start emb s).
  set (id := new_person_id emb s).
  destruct (st_get_next_person_id_fields s1) as (T2 & K2 & N2 & C2).
  destruct (st_register_person_fields id emb (clock env (tick s))
              (st_get_next_person_id s1)) as (T3 & K3 & N3 & C3).
  simpl. rewrite T3, T2, K3, K2, N3, N2, C3, C2. simpl.
  rewrite <- !app_assoc. auto.
Qed.

Lemma assign_identity_position (d : Detection) (emb : Embedding) (s : State)
    (person_id : PersonId) :
  position_match (tracked_people s) d = Some person_id ->
  person_id <> EmptyString ->
  assign_identity d emb s = Some ((person_id, false), s).
Proof.
  intros Hpm Hne. unfold assign_identity. unfold bind at 1. unfold gets at 1.
  rewrite Hpm. simpl. apply String.eqb_neq in Hne. rewrite Hne. reflexivity.
Qed.

Lemma assign_identity_recognize (d : Detection) (emb : Embedding) (s : State) :
  truthy (position_match (tracked_people s) d) = false ->
  assign_identity d emb s = recognize emb s.
Proof.
  intros Hpm. unfold assign_identity. unfold bind at 1. unfold gets at 1.
  rewrite Hpm. reflexivity.
Qed.

(** A detection passes the gates of the resolver: its confidence
    reaches the detection threshold, its crop is not empty and the
    embedding model returns [emb] for it. *)
Lemma resolve_qualifying (frame : Frame) (frame_num : Z) (d : Detection)
    (emb : Embedding) (s : State) :
  (det_conf d >= detection_conf_threshold config)%R ->
  crop_size (crop_face frame d) <> 0%Z ->
  extract_embedding env (crop_face frame d) = Some emb ->
  resolve_detection frame frame_num d s =
  (r <- assign_identity d emb ;; commit_identity frame frame_num d emb r) s.
Proof.
  intros Hconf Hcrop Hemb. unfold resolve_detection.
  replace (Rltb (det_conf d) (detection_conf_threshold config)) with false
    by (symmetry; apply Rltb_false; lra).
  apply Z.eqb_neq in Hcrop. cbv zeta. rewrite Hcrop, Hemb. reflexivity.
Qed.

Lemma empty_gallery_nobody_tracked (s : State) :
  tracked_in_gallery s -> known_embeddings s = [] -> tracked_people s = [].
Proof.
  unfold tracked_in_gallery. intros Hinv Hk. rewrite Hk in Hinv.
  destruct (tracked_people s) as [| [pid t] rest]; [reflexivity|].
  exfalso. apply (Hinv pid). unfold dict_mem. simpl.
  now rewrite String.eqb_refl.
Qed.

Lemma update_one_last_seen_fresh (person_id : PersonId) (ts first last : Timestamp)
    (count : Z) (ps : list PersonDoc) :
  existsb (fun p => String.eqb (p_person_id p) person_id) ps = false ->
  update_one_last_seen person_id ts (ps ++ [mkPersonDoc person_id first last count]) =
  ps ++ [mkPersonDoc person_id first ts (count + 1)].
Proof.
  induction ps as [| p ps IH]; simpl; intros H.
  - rewrite String.eqb_refl. reflexivity.
  - apply orb_false_iff in H. destruct H as [H1 H2].
    rewrite H1, (IH H2). reflexivity.
Qed.

Lemma st_save_cropped_face_db (s : State) : db (st_save_cropped_face s) = db s.
Proof. unfold st_save_cropped_face. destruct (save_cropped config); reflexivity. Qed.

(** The store after the registration of a new person, when every write
    is accepted and the minted identifier is not yet in [people]. *)
Lemma st_register_new_db (emb : Embedding) (s : State) (n : Z) :
  (forall k, db_fails env k = false) ->
  counter (db s) = Some n ->
  existsb (fun p => String.eqb (p_person_id p) (new_person_id emb s))
          (people (db s)) = false ->
  let now := clock env (tick s) in
  db (st_register_new emb s) =
  mkDb (people (db s) ++ [mkPersonDoc (new_person_id emb s) now now 1])
       (face_data (db s) ++ [mkFaceDoc (new_person_id emb s) emb now])
       (visit_records (db s)) (Some (n + 1)%Z).
Proof.
  intros Hok Hn Hfresh.
  unfold st_register_new, st_register_person, st_get_next_person_id.
  set (id := new_person_id emb s) in *.
  simpl. rewrite !Hok, Hn. simpl.
  unfold after_pymongo, db_after. simpl. rewrite !Hok. simpl.
  unfold op_inc_counter. rewrite Hn. simpl. rewrite Hfresh.
  unfold op_insert_person. simpl. rewrite Hfresh. reflexivity.
Qed.

(** The new-person path of the resolver in closed form. *)
Lemma resolve_new_person (frame : Frame) (frame_num : Z) (d : Detection)
    (emb : Embedding) (s : State) (best_id : option PersonId)
    (best_sim second_best_sim : R) :
  (det_conf d >= detection_conf_threshold config)%R ->
  crop_size (crop_face frame d) <> 0%Z ->
  extract_embedding env (crop_face frame d) = Some emb ->
  truthy (position_match (tracked_people s) d) = false ->
  find_best_match emb (known_embeddings s)
    = Some (best_id, best_sim, second_best_sim) ->
  Rgeb best_sim (embedding_similarity_threshold config) && truthy best_id = false ->
  resolve_detection frame frame_num d s =
  Some (Some (new_person_id emb s, true),
        st_commit frame frame_num d emb (new_person_id emb s) true
                  (clock env (tick s)) (st_register_new emb s)).
Proof.
  intros Hconf Hcrop Hemb Hpm Hfind Hbelow.
  rewrite (resolve_qualifying frame frame_num d emb s Hconf Hcrop Hemb).
  unfold bind at 1. rewrite assign_identity_recognize by exact Hpm.
  rewrite (recognize_run emb s best_id best_sim second_best_sim Hfind), Hbelow.
  apply commit_identity_run.
  now destruct (st_register_new_fields emb s) as (_ & _ & N & _).
Qed.

(** C8. With an empty gallery, a qualifying detection is always resolved
    as a new person.  The identifier is the one [get_next_person_id]
    returns, the next number of the counter when the counter update
    succeeds.  The person is registered and exactly one entry record is
    saved: the calls made are the best-match query, the identifier
    mint, the registration, one entry record and the last-seen update.
    Afterwards the gallery holds the new embedding and the person is
    tracked.  When the store accepts every write and does not know the
    identifier yet, it holds the person, the embedding and the entry
    record, and the counter is advanced by one. *)
Theorem empty_gallery_first_detection (frame : Frame) (frame_num : Z)
    (d : Detection) (emb : Embedding) (s : State) :
  tracked_in_gallery s ->
  known_embeddings s = [] ->
  (det_conf d >= detection_conf_threshold config)%R ->
  crop_size (crop_face frame d) <> 0%Z ->
  extract_embedding env (crop_face frame d) = Some emb ->
  exists assigned_id path s',
    let now := clock env (tick s) in
    resolve_detection frame frame_num d s = Some (Some (assigned_id, true), s')
    /\ (exists s2, get_next_person_id (st_recognize_start emb s) = Some (assigned_id, s2))
    /\ (db_fails env (S (tick s)) = false ->
        forall n, counter (db s) = Some n ->
        assigned_id = ("person" ++ string_of_Z (n + 1))%string)
    /\ trace s' = trace s ++
         [CFindBestMatch emb; CGetNextPersonId;
          CRegisterPerson assigned_id emb now;
          CSaveVisitRecord assigned_id Entry now path;
          CUpdateLastSeen assigned_id now]
    /\ known_embeddings s' = [(assigned_id, emb)]
    /\ tracked_people s' =
         [(assigned_id,
           mkTrack frame_num (Some (det_box d)) (Some (det_box d))
                   (Some (crop_face frame d)) (det_conf d) now)]
    /\ ((forall n, db_fails env n = false) ->
        forall n, counter (db s) = Some n ->
        existsb (fun p => String.eqb (p_person_id p) assigned_id) (people (db s)) = false ->
        db s' = mkDb (people (db s) ++ [mkPersonDoc assigned_id now now 2])
                     (face_data (db s) ++ [mkFaceDoc assigned_id emb now])
                     (visit_records (db s) ++ [mkVisitDoc assigned_id Entry now path])
                     (Some (n + 1)%Z)).
Proof.
  intros Hinv Hk Hconf Hcrop Hemb.
  pose proof (empty_gallery_nobody_tracked s Hinv Hk) as Htr.
  set (now := clock env (tick s)).
  set (id := new_person_id emb s).
  set (s1 := st_register_new emb s).
  destruct (st_register_new_fields emb s) as (T1 & K1 & N1 & C1).
  fold s1 id now in T1, K1, N1, C1.
  exists id, (saved_path "entries" s1),
    (st_commit frame frame_num d emb id true now s1).
  destruct (st_commit_fields frame frame_num d emb id true now s1 N1)
    as (T2 & K2 & N2 & C2).
  assert (Hmem : dict_mem id (tracked_people s1) = false)
    by (rewrite T1, Htr; reflexivity).
  cbv zeta. split; [|split; [|split; [|split; [|split; [|split]]]]].
  - apply (resolve_new_person frame frame_num d emb s None (-1)%R (-1)%R);
      auto; try (rewrite Htr; reflexivity); try (rewrite Hk; reflexivity).
    apply andb_false_r.
  - eexists. rewrite get_next_person_id_st. reflexivity.
  - intros Hok n Hn. unfold id, new_person_id, next_person_id. simpl.
    rewrite Hok, Hn. reflexivity.
  - rewrite C2, C1. unfold entry_calls, retention_calls. rewrite Hmem. simpl.
    rewrite <- app_assoc. reflexivity.
  - rewrite K2. unfold retention_appends. cbn [negb andb]. rewrite K1, Hk. reflexivity.
  - rewrite T2, T1, Htr. reflexivity.
  - intros Hok n Hn Hfresh.
    unfold st_commit, st_retention, st_entry. rewrite Hmem. simpl negb. cbv iota.
    unfold st_update_last_seen, st_save_visit_record, after_pymongo, db_after.
    simpl. rewrite !Hok. rewrite st_save_cropped_face_db.
    unfold s1. rewrite (st_register_new_db emb s n Hok Hn Hfresh).
    unfold set_people, set_visit_records. simpl.
    fold id now. rewrite update_one_last_seen_fresh by exact Hfresh.
    reflexivity.
Qed.

(** *** Position match *)

Lemma position_match_first (d : Detection) (before after : list (PersonId * Track))
    (person_id : PersonId) (pdata : Track) :
  Forall (fun kv => near d (snd kv) = false) before ->
  near d pdata = true ->
  position_match (before ++ (person_id, pdata) :: after) d = Some person_id.
Proof.
  unfold near. intros Hbefore Hnear.
  induction before as [| [k t] rest IH]; simpl.
  - destruct (bbox pdata) as [b|]; [|discriminate]. now rewrite Hnear.
  - inversion Hbefore as [| ? ? Hk Hrest]; subst. simpl in Hk.
    destruct (bbox t) as [b|]; [rewrite Hk|]; auto.
Qed.

Lemma position_match_none (d : Detection) (items : list (PersonId * Track)) :
  Forall (fun kv => near d (snd kv) = false) items ->
  position_match items d = None.
Proof.
  unfold near. induction items as [| [k t] rest IH]; simpl; intros H; [reflexivity|].
  inversion H as [| ? ? Hk Hrest]; subst. simpl in Hk.
  destruct (bbox t) as [b|]; [rewrite Hk|]; auto.
Qed.

Lemma position_match_tracked (d : Detection) (items : list (PersonId * Track))
    (person_id : PersonId) :
  position_match items d = Some person_id -> dict_mem person_id items = true.
Proof.
  unfold dict_mem. induction items as [| [k t] rest IH]; simpl; [discriminate|].
  intros H. destruct (String.eqb person_id k) eqn:E; [reflexivity|].
  destruct (bbox t) as [b|]; [destruct (within_px 50 b (det_box d))|]; auto.
  injection H as ->. rewrite String.eqb_refl in E. discriminate.
Qed.

(** The spatial path of the resolver in closed form. *)
Lemma resolve_position_match (frame : Frame) (frame_num : Z) (d : Detection)
    (emb : Embedding) (s : State) (person_id : PersonId) (now : Timestamp) :
  (det_conf d >= detection_conf_threshold config)%R ->
  crop_size (crop_face frame d) <> 0%Z ->
  extract_embedding env (crop_face frame d) = Some emb ->
  position_match (tracked_people s) d = Some person_id ->
  person_id <> EmptyString ->
  timestamp_now s = Some now ->
  resolve_detection frame frame_num d s =
    Some (Some (person_id, false),
          st_commit frame frame_num d emb person_id false now s)
  /\ entry_calls person_id now s = []
  /\ st_entry person_id now s = s.
Proof.
  intros Hconf Hcrop Hemb Hpm Hne Hnow.
  pose proof (position_match_tracked d _ _ Hpm) as Hmem.
  split; [|split].
  - rewrite (resolve_qualifying frame frame_num d emb s Hconf Hcrop Hemb).
    unfold bind at 1. rewrite (assign_identity_position d emb s person_id Hpm Hne).
    apply commit_identity_run. exact Hnow.
  - unfold entry_calls. rewrite Hmem. reflexivity.
  - unfold st_entry. rewrite Hmem. reflexivity.
Qed.

Lemma well_formed_tracked (s : State) (before after : list (PersonId * Track))
    (person_id : PersonId) (pdata : Track) :
  well_formed s ->
  tracked_people s = before ++ (person_id, pdata) :: after ->
  person_id <> EmptyString /\ exists now, timestamp_now s = Some now.
Proof.
  intros (_ & _ & Hne & Hts) Htr. split.
  - rewrite Forall_forall in Hne. apply (Hne (person_id, pdata)).
    rewrite Htr. apply in_or_app. right. now left.
  - destruct (timestamp_now s) as [now|]; [eauto|].
    exfalso. apply Hts; [|reflexivity]. rewrite Htr.
    destruct before; discriminate.
Qed.

(** C1, as the code has it.  In a state of the frame loop, a detection
    that passes the gates of the resolver and has, in the iteration
    order of the tracked set, a first tracked person whose current box
    is set with its center closer than 50 px to the detection's center,
    is resolved to that person, not as a new person; the person's track
    is refreshed with the detection and no track is added. *)
Theorem position_match_resolves_to_first_near (frame : Frame) (frame_num : Z)
    (d : Detection) (emb : Embedding) (s : State)
    (before after : list (PersonId * Track)) (person_id : PersonId)
    (pdata : Track) :
  well_formed s ->
  (det_conf d >= detection_conf_threshold config)%R ->
  crop_size (crop_face frame d) <> 0%Z ->
  extract_embedding env (crop_face frame d) = Some emb ->
  tracked_people s = before ++ (person_id, pdata) :: after ->
  Forall (fun kv => near d (snd kv) = false) before ->
  near d pdata = true ->
  exists now s',
    timestamp_now s = Some now
    /\ resolve_detection frame frame_num d s = Some (Some (person_id, false), s')
    /\ dict_get person_id (tracked_people s') = Some (fresh_track frame frame_num d now)
    /\ map fst (tracked_people s') = map fst (tracked_people s).
Proof.
  intros Hwf Hconf Hcrop Hemb Htr Hbefore Hnear.
  destruct (well_formed_tracked s before after person_id pdata Hwf Htr)
    as (Hne & now & Hnow).
  assert (Hpm : position_match (tracked_people s) d = Some person_id)
    by (rewrite Htr; now apply position_match_first).
  destruct (resolve_position_match frame frame_num d emb s person_id now
              Hconf Hcrop Hemb Hpm Hne Hnow) as (Hrun & _ & _).
  destruct (st_commit_fields frame frame_num d emb person_id false now s Hnow)
    as (T & _ & _ & _).
  exists now. eexists. split; [exact Hnow|]. split; [exact Hrun|]. rewrite T. split.
  - apply dict_get_set_same.
  - rewrite dict_set_keys, (position_match_tracked d _ _ Hpm). reflexivity.
Qed.

(** *** Retention of the embedding of a resolved detection *)

Lemma commit_identity_unbound (frame : Frame) (frame_num : Z) (d : Detection)
    (emb : Embedding) (r : PersonId * bool) (s : State) :
  timestamp_now s = None -> commit_identity frame frame_num d emb r s = None.
Proof.
  intros Hnow. destruct r as [assigned_id is_new_person]. unfold commit_identity.
  unfold bind at 1. unfold gets at 1.
  destruct (negb (dict_mem assigned_id (tracked_people s))).
  - unfold bind at 1. unfold bind at 1. rewrite save_cropped_face_st.
    unfold bind at 1. unfold read_timestamp_now at 1.
    replace (timestamp_now (st_save_cropped_face s)) with (@None Timestamp);
      [reflexivity|].
    unfold st_save_cropped_face. destruct (save_cropped config); now rewrite <- Hnow.
  - unfold bind at 1. unfold ret at 1.
    destruct (negb is_new_person).
    + unfold bind at 1. unfold bind at 1. rewrite should_store_embedding_st.
      destruct (retention_decision assigned_id emb s).
      * rewrite store_embedding_st. unfold st_store_embedding. simpl. rewrite Hnow.
        unfold bind at 1. unfold read_timestamp_now at 1. simpl. now rewrite Hnow.
      * unfold ret at 1. unfold bind at 1. unfold read_timestamp_now at 1. simpl.
        now rewrite Hnow.
    + unfold bind at 1. unfold ret at 1. unfold bind at 1.
      unfold read_timestamp_now at 1. now rewrite Hnow.
Qed.

(** The calls made by the identity assignment never include the
    retention decision. *)
Lemma assign_identity_trace (d : Detection) (emb : Embedding) (s s1 : State)
    (assigned_id : PersonId) (is_new_person : bool) :
  assign_identity d emb s = Some ((assigned_id, is_new_person), s1) ->
  exists calls,
    trace s1 = trace s ++ calls
    /\ existsb is_should_store calls = false.
Proof.
  unfold assign_identity. unfold bind at 1. unfold gets at 1.
  destruct (truthy (position_match (tracked_people s) d)).
  - destruct (position_match (tracked_people s) d); [|discriminate].
    intros H. injection H as _ _ <-. exists []. now rewrite app_nil_r.
  - destruct (find_best_match emb (known_embeddings s)) as [[[bid b] sec]|] eqn:Hf;
      [|rewrite (recognize_raises emb s Hf); discriminate].
    rewrite (recognize_run emb s bid b sec Hf).
    destruct (Rgeb b (embedding_similarity_threshold config) && truthy bid).
    + destruct bid; [|discriminate]. intros H. injection H as _ _ <-.
      eexists. split; [reflexivity | reflexivity].
    + intros H. injection H as _ _ <-.
      destruct (st_register_new_fields emb s) as (_ & _ & _ & C).
      eexists. split; [exact C | reflexivity].
Qed.

Lemma entry_calls_no_retention (assigned_id : PersonId) (now : Timestamp) (s : State) :
  existsb is_should_store (entry_calls assigned_id now s) = false.
Proof.
  unfold entry_calls. destruct (negb (dict_mem assigned_id (tracked_people s)));
    reflexivity.
Qed.

(** C2, as the code has it.  A detection resolved by the position match
    makes no best-match query, but its embedding is offered to the
    retention decision, and is appended to the in-memory gallery when
    the decision is to retain and the insert into the store does not
    raise.  In general the embedding of a resolved detection is offered
    to the retention decision exactly when the detection is not
    resolved as a new person, that is for a position match as well as
    for a re-identification. *)
Theorem retention_offered_unless_new_person :
  (forall (frame : Frame) (frame_num : Z) (d : Detection) (emb : Embedding)
          (s : State) (before after : list (PersonId * Track))
          (person_id : PersonId) (pdata : Track),
     well_formed s ->
     (det_conf d >= detection_conf_threshold config)%R ->
     crop_size (crop_face frame d) <> 0%Z ->
     extract_embedding env (crop_face frame d) = Some emb ->
     tracked_people s = before ++ (person_id, pdata) :: after ->
     Forall (fun kv => near d (snd kv) = false) before ->
     near d pdata = true ->
     exists now s' calls,
       timestamp_now s = Some now
       /\ resolve_detection frame frame_num d s = Some (Some (person_id, false), s')
       /\ trace s' = trace s ++ calls
       /\ calls = CShouldStoreEmbedding person_id emb
                    :: (if retention_decision person_id emb s
                        then [CFaceDataInsert person_id emb now] else [])
                    ++ [CUpdateLastSeen person_id now]
       /\ existsb is_find_best_match calls = false
       /\ known_embeddings s' =
          (if retention_decision person_id emb s && negb (db_fails env (S (tick s)))
           then known_embeddings s ++ [(person_id, emb)]
           else known_embeddings s))
  /\
  (forall (frame : Frame) (frame_num : Z) (d : Detection) (s s' : State)
          (assigned_id : PersonId) (is_new_person : bool),
     resolve_detection frame frame_num d s
       = Some (Some (assigned_id, is_new_person), s') ->
     exists emb calls,
       extract_embedding env (crop_face frame d) = Some emb
       /\ trace s' = trace s ++ calls
       /\ existsb is_should_store calls = negb is_new_person
       /\ (is_new_person = false -> In (CShouldStoreEmbedding assigned_id emb) calls)).
Proof.
  split.
  - intros frame frame_num d emb s before after person_id pdata
           Hwf Hconf Hcrop Hemb Htr Hbefore Hnear.
    destruct (well_formed_tracked s before after person_id pdata Hwf Htr)
      as (Hne & now & Hnow).
    assert (Hpm : position_match (tracked_people s) d = Some person_id)
      by (rewrite Htr; now apply position_match_first).
    destruct (resolve_position_match frame frame_num d emb s person_id now
                Hconf Hcrop Hemb Hpm Hne Hnow) as (Hrun & Hentry & Hst).
    destruct (st_commit_fields frame frame_num d emb person_id false now s Hnow)
      as (_ & K & _ & C).
    rewrite Hentry, Hst in *.
    exists now. eexists. eexists. split; [exact Hnow|].
    split; [exact Hrun|]. split; [exact C|].
    unfold retention_calls, retention_appends in *. simpl in *.
    split; [reflexivity|]. split.
    + destruct (retention_decision person_id emb s); reflexivity.
    + exact K.
  - intros frame frame_num d s s' assigned_id is_new_person.
    unfold resolve_detection.
    destruct (Rltb (det_conf d) (detection_conf_threshold config)); [discriminate|].
    cbv zeta.
    destruct (crop_size (crop_face frame d) =? 0)%Z; [discriminate|].
    destruct (extract_embedding env (crop_face frame d)) as [emb|]; [|discriminate].
    unfold bind at 1.
    destruct (assign_identity d emb s) as [[[id0 new0] s1]|] eqn:Ha; [|discriminate].
    destruct (assign_identity_trace d emb s s1 id0 new0 Ha) as (pre & Cpre & Hpre).
    destruct (timestamp_now s1) as [now|] eqn:Hnow.
    + rewrite (commit_identity_run frame frame_num d emb id0 new0 now s1 Hnow).
      intros H. injection H as -> -> <-.
      destruct (st_commit_fields frame frame_num d emb assigned_id is_new_person
                  now s1 Hnow) as (_ & _ & _ & C).
      exists emb. eexists. split; [reflexivity|].
      split; [rewrite C, Cpre, <- app_assoc; reflexivity|].
      split.
      * rewrite !existsb_app, Hpre, entry_calls_no_retention.
        unfold retention_calls. destruct is_new_person; reflexivity.
      * intros ->. apply in_or_app. right. apply in_or_app. right.
        apply in_or_app. left. unfold retention_calls. simpl. now left.
    + rewrite commit_identity_unbound by exact Hnow. discriminate.
Qed.

(** *** should_store_embedding *)

Lemma fold_left_Rmax_acc (l : list R) (a b : R) :
  fold_left Rmax l (Rmax a b) = Rmax a (fold_left Rmax l b).
Proof.
  revert b. induction l as [| x l IH]; intros b; simpl; [reflexivity|].
  rewrite <- IH. f_equal. symmetry. apply Rmax_assoc.
Qed.

(** The loop raises when one similarity does, and otherwise folds the
    maximum over the similarities. *)
Lemma max_sim_loop_fold (new_embedding : Embedding) (existing : list FaceDoc) :
  forall acc,
  max_sim_loop new_embedding existing acc =
  match similarities new_embedding existing with
  | Some sims => Some (fold_left Rmax sims acc)
  | None => None
  end.
Proof.
  induction existing as [| f rest IH]; intros acc; simpl; [reflexivity|].
  destruct (cosine_similarity new_embedding (f_face_vector f)) as [r|]; [|reflexivity].
  rewrite IH. destruct (similarities new_embedding rest); reflexivity.
Qed.

Lemma similarities_raises (new_embedding : Embedding) (existing : list FaceDoc)
    (f : FaceDoc) :
  In f existing -> cosine_similarity new_embedding (f_face_vector f) = None ->
  similarities new_embedding existing = None.
Proof.
  intros Hin Hnone. induction existing as [| g rest IH]; [destruct Hin|].
  simpl. destruct Hin as [E | Hin].
  - subst g. rewrite Hnone. reflexivity.
  - rewrite (IH Hin). destruct (cosine_similarity new_embedding (f_face_vector g));
      reflexivity.
Qed.

Lemma similarities_defined (new_embedding : Embedding) (existing : list FaceDoc) :
  Forall (fun f => List.length (f_face_vector f) = List.length new_embedding) existing ->
  exists sims, similarities new_embedding existing = Some sims
               /\ List.length sims = List.length existing.
Proof.
  induction 1 as [| f rest Hf _ IH]; simpl.
  - exists []. split; reflexivity.
  - destruct (cosine_similarity_defined new_embedding (f_face_vector f)) as [r ->];
      [symmetry; exact Hf|].
    destruct IH as (sims & -> & Hlen). exists (r :: sims).
    split; [reflexivity | simpl; now rewrite Hlen].
Qed.

(** The decision of the code against the maximum similarity. *)
Lemma retention_decision_max (person_id : PersonId) (new_embedding : Embedding)
    (s : State) :
  db_fails env (tick s) = false ->
  retention_decision person_id new_embedding s =
  match max_similarity new_embedding (recent_face_data (db s) person_id) with
  | None => true
  | Some m => Rltb (Rmax 0 m) (embedding_diversity_threshold config)
  end.
Proof.
  intros Hok. unfold retention_decision, max_similarity. rewrite Hok.
  destruct (recent_face_data (db s) person_id) as [| f rest] eqn:E; [reflexivity|].
  rewrite max_sim_loop_fold.
  destruct (similarities new_embedding (f :: rest)) as [[| x xs]|] eqn:Hs;
    [|simpl; rewrite fold_left_Rmax_acc; reflexivity | reflexivity].
  simpl in Hs. destruct (cosine_similarity new_embedding (f_face_vector f));
    [|discriminate].
  destruct (similarities new_embedding rest); discriminate.
Qed.

(** C6, as the code has it.  The retention decision always returns and
    changes neither the store nor the gallery.  It is to retain when the
    query for the stored embeddings raises, when the person has no
    stored embedding, and when the similarity to one of the 10 most
    recent stored embeddings raises, which a stored embedding of
    another length does.  When the stored embeddings have the length of
    the candidate, the maximum similarity to them has a value.
    Whenever that maximum has a value, an embedding whose maximum
    reaches the diversity threshold is not retained, and for a positive
    threshold the embedding is retained exactly when the maximum is
    below the threshold. *)
Theorem should_store_embedding_decision (person_id : PersonId)
    (new_embedding : Embedding) (s : State) :
  exists retain s',
    should_store_embedding person_id new_embedding s = Some (retain, s')
    /\ db s' = db s
    /\ known_embeddings s' = known_embeddings s
    /\ (db_fails env (tick s) = true -> retain = true)
    /\ (db_fails env (tick s) = false ->
        let existing := recent_face_data (db s) person_id in
        let threshold := embedding_diversity_threshold config in
        (existing = [] -> retain = true)
        /\ (forall f, In f existing ->
              List.length (f_face_vector f) <> List.length new_embedding ->
              norm new_embedding <> 0%R -> norm (f_face_vector f) <> 0%R ->
              retain = true)
        /\ (existing <> [] ->
            Forall (fun f => List.length (f_face_vector f)
                             = List.length new_embedding) existing ->
            exists m, max_similarity new_embedding existing = Some m)
        /\ forall m, max_similarity new_embedding existing = Some m ->
             ((m >= threshold)%R -> retain = false)
             /\ ((0 < threshold)%R -> (retain = true <-> (m < threshold)%R))).
Proof.
  eexists. eexists. split; [apply should_store_embedding_st|].
  split; [reflexivity|]. split; [reflexivity|]. split.
  - intros Hfail. unfold retention_decision. now rewrite Hfail.
  - intros Hok. cbv zeta. rewrite (retention_decision_max _ _ _ Hok).
    split; [|split; [|split]].
    + intros ->. reflexivity.
    + intros f Hin Hlen Hn Hf. unfold max_similarity.
      rewrite (similarities_raises new_embedding _ f Hin); [reflexivity|].
      apply cosine_similarity_raises; auto.
    + intros Hne Hall. unfold max_similarity.
      destruct (similarities_defined new_embedding _ Hall) as (sims & -> & Hlen).
      destruct sims as [| x xs]; [|eauto].
      destruct (recent_face_data (db s) person_id); [congruence | discriminate].
    + intros m Hm. rewrite Hm. split.
      * intros Hge. apply Rltb_false.
        eapply Rle_trans; [apply Rge_le; exact Hge | apply Rmax_r].
      * intros Hpos. rewrite Rltb_true. split.
        -- intros H. eapply Rle_lt_trans; [apply Rmax_r | exact H].
        -- intros H. apply Rmax_lub_lt; assumption.
Qed.

(** *** Distances of centers: the integer test against the source formula *)

Lemma center_distance_sqr (a b : BBox) :
  ((center_x a - center_x b) ^ 2 + (center_y a - center_y b) ^ 2)%R
  = (IZR (dist2x4 a b) / 4)%R.
Proof.
  destruct a as [[[xa ya] wa] ha]. destruct b as [[[xb yb] wb] hb].
  unfold center_x, center_y, dist2x4.
  rewrite plus_IZR, !Z.pow_2_r, !mult_IZR, !minus_IZR, !plus_IZR, !mult_IZR.
  simpl. field.
Qed.

Lemma dist2x4_nonneg (a b : BBox) : (0 <= dist2x4 a b)%Z.
Proof.
  destruct a as [[[xa ya] wa] ha]. destruct b as [[[xb yb] wb] hb].
  unfold dist2x4. nia.
Qed.

(** [distance < px] of the source is the integer test [within_px]. *)
Lemma center_distance_lt (px : Z) (a b : BBox) :
  (0 <= px)%Z ->
  (center_distance a b < IZR px)%R <-> within_px px a b = true.
Proof.
  intros Hpx. unfold center_distance, within_px. rewrite center_distance_sqr.
  rewrite Z.ltb_lt.
  pose proof (dist2x4_nonneg a b) as Hd. apply IZR_le in Hd, Hpx.
  set (q := (IZR (dist2x4 a b) / 4)%R).
  assert (Hq : (0 <= q)%R) by (unfold q; lra).
  assert (Hiff : (q < IZR px * IZR px)%R <-> (dist2x4 a b < 4 * px * px)%Z).
  { split; intros H.
    - apply lt_IZR. rewrite !mult_IZR. unfold q in H. simpl. lra.
    - apply IZR_lt in H. rewrite !mult_IZR in H. unfold q. simpl in H. lra. }
  rewrite <- Hiff. split; intros H.
  - pose proof (sqrt_pos q) as Hs. rewrite <- (sqrt_sqrt q Hq). nra.
  - rewrite <- (sqrt_square (IZR px) Hpx). apply sqrt_lt_1_alt. lra.
Qed.

(** [distance < best_distance] of the source is the comparison of the
    integers. *)
Lemma center_distance_closer (a b c : BBox) :
  (center_distance a b < center_distance a c)%R <->
  (dist2x4 a b < dist2x4 a c)%Z.
Proof.
  unfold center_distance. rewrite !center_distance_sqr.
  pose proof (dist2x4_nonneg a b) as Hb. pose proof (dist2x4_nonneg a c) as Hc.
  apply IZR_le in Hb, Hc. split; intros H.
  - apply lt_IZR. apply sqrt_lt_0_alt in H. lra.
  - apply sqrt_lt_1_alt. apply IZR_lt in H. lra.
Qed.

(** *** update_trackers without detections *)

Lemma refresh_loop_no_box (frame_num : Z) (items : list (PersonId * Track)) :
  forall s,
  Forall (fun kv => bbox (snd kv) = None) items ->
  refresh_loop frame_num items s = Some (tt, s).
Proof.
  induction items as [| [pid pdata] rest IH]; intros s H; simpl; [reflexivity|].
  inversion H as [| ? ? Hb Hrest]; subst. simpl in Hb. rewrite Hb.
  unfold bind at 1. unfold ret at 1. apply IH. exact Hrest.
Qed.

(** Without detections the tracker clears every current box and does
    nothing else: no call on the store, no change of [last_seen_frame]. *)
Lemma update_trackers_no_detections (frame_num : Z)
    (current_detections : option (list Detection)) (s : State) :
  current_detections = None \/ current_detections = Some [] ->
  update_trackers frame_num current_detections s =
  Some (tt, set_tracked_people
              (map (fun kv => (fst kv, set_bbox None (snd kv))) (tracked_people s)) s).
Proof.
  intros H. unfold update_trackers. unfold bind at 1. unfold modify at 1.
  assert (Hloop : forall items s0,
            items = map (fun kv : PersonId * Track => (fst kv, set_bbox None (snd kv)))
                        (tracked_people s) ->
            (items' <- gets tracked_people ;; refresh_loop frame_num items')
              (set_tracked_people items s0) = Some (tt, set_tracked_people items s0)).
  { intros items s0 ->. unfold bind at 1. unfold gets at 1. simpl.
    apply refresh_loop_no_box. apply Forall_forall. intros kv Hin.
    apply in_map_iff in Hin. destruct Hin as [kv0 [<- _]]. reflexivity. }
  destruct H as [-> | ->]; apply Hloop; reflexivity.
Qed.

(** *** The invariant of the frame loop *)

Lemma truthy_nonempty (o : option string) :
  truthy o = true -> exists id, o = Some id /\ id <> EmptyString.
Proof.
  destruct o as [id|]; simpl; [|discriminate].
  intros H. exists id. split; [reflexivity|].
  apply String.eqb_neq. now destruct (String.eqb id ""); [discriminate|].
Qed.

Lemma find_best_match_loop_known (emb : Embedding)
    (known : list (PersonId * Embedding)) :
  forall best_id best second id b sec,
  find_best_match_loop emb known best_id best second = Some (Some id, b, sec) ->
  best_id = Some id \/ In id (map fst known).
Proof.
  induction known as [| [pid e] rest IH]; intros best_id best second id b sec; simpl.
  - intros H. injection H as -> _ _. now left.
  - destruct (cosine_similarity emb e) as [sim|]; [|discriminate].
    destruct (Rgtb sim best).
    + intros H. apply IH in H. destruct H as [H | H]; [|auto].
      injection H as ->. auto.
    + destruct (Rgtb sim second); intros H; apply IH in H; tauto.
Qed.

Lemma find_best_match_known (emb : Embedding) (known : list (PersonId * Embedding))
    (id : PersonId) (b sec : R) :
  find_best_match emb known = Some (Some id, b, sec) -> In id (map fst known).
Proof.
  intros H. apply find_best_match_loop_known in H. destruct H as [H | H];
    [discriminate | exact H].
Qed.

Lemma next_person_id_nonempty (s : State) : next_person_id s <> EmptyString.
Proof.
  unfold next_person_id.
  destruct (if db_fails env (tick s) then None else counter (db s)); discriminate.
Qed.

Lemma dict_set_well_formed (s s' : State) (assigned_id : PersonId) (t : Track)
    (now : Timestamp) :
  well_formed s ->
  assigned_id <> EmptyString ->
  tracked_people s' = dict_set assigned_id t (tracked_people s) ->
  (forall id, In id (map fst (known_embeddings s)) ->
              In id (map fst (known_embeddings s'))) ->
  In assigned_id (map fst (known_embeddings s')) ->
  timestamp_now s' = Some now ->
  well_formed s'.
Proof.
  intros (Hnd & Hgal & Hne & _) Hid Htr Hknown Hin Hnow.
  assert (Hkeys : forall id, In id (map fst (tracked_people s')) ->
                             id = assigned_id \/ In id (map fst (tracked_people s))).
  { intros id. rewrite Htr, dict_set_keys.
    destruct (dict_mem assigned_id (tracked_people s)); [auto|].
    rewrite in_app_iff. simpl. intros [H | [H | []]]; auto. }
  split; [|split; [|split]].
  - rewrite Htr, dict_set_keys.
    destruct (dict_mem assigned_id (tracked_people s)) eqn:E; [exact Hnd|].
    apply NoDup_app; [exact Hnd | repeat constructor; simpl; tauto |].
    intros id H1 [<- | []].
    apply dict_mem_In in H1. congruence.
  - intros id Hmem. apply dict_mem_In in Hmem.
    destruct (Hkeys id Hmem) as [-> | H]; [exact Hin|].
    apply Hknown, Hgal, dict_mem_In, H.
  - apply Forall_forall. intros [k v] Hkv. simpl.
    assert (Hk : In k (map fst (tracked_people s')))
      by (apply in_map_iff; exists (k, v); auto).
    destruct (Hkeys k Hk) as [-> | H]; [exact Hid|].
    apply in_map_iff in H. destruct H as [[k0 v0] [Hk0 Hin0]]. simpl in Hk0. subst k0.
    rewrite Forall_forall in Hne. apply (Hne (k, v0) Hin0).
  - intros _. rewrite Hnow. discriminate.
Qed.

Lemma commit_well_formed (frame : Frame) (frame_num : Z) (d : Detection)
    (emb : Embedding) (assigned_id : PersonId) (is_new_person : bool)
    (now : Timestamp) (s0 s1 : State) :
  well_formed s0 ->
  tracked_people s1 = tracked_people s0 ->
  (forall id, In id (map fst (known_embeddings s0)) ->
              In id (map fst (known_embeddings s1))) ->
  In assigned_id (map fst (known_embeddings s1)) ->
  assigned_id <> EmptyString ->
  timestamp_now s1 = Some now ->
  well_formed (st_commit frame frame_num d emb assigned_id is_new_person now s1).
Proof.
  intros Hwf Htr Hknown Hin Hid Hnow.
  destruct (st_commit_fields frame frame_num d emb assigned_id is_new_person now s1 Hnow)
    as (T & K & N & _).
  assert (Hsup : forall id, In id (map fst (known_embeddings s1)) ->
            In id (map fst (known_embeddings
              (st_commit frame frame_num d emb assigned_id is_new_person now s1)))).
  { intros id H. rewrite K.
    destruct (retention_appends _ _ _ _); [|exact H].
    rewrite map_app. apply in_or_app. now left. }
  eapply dict_set_well_formed with (s := s0); eauto.
  rewrite T, Htr. reflexivity.
Qed.

Lemma gallery_of_length_app (n : nat) (known l : list (PersonId * Embedding)) :
  gallery_of_length n known -> gallery_of_length n l ->
  gallery_of_length n (known ++ l).
Proof. unfold gallery_of_length. intros. apply Forall_app. auto. Qed.

Lemma commit_gallery_of_length (n : nat) (frame : Frame) (frame_num : Z)
    (d : Detection) (emb : Embedding) (assigned_id : PersonId)
    (is_new_person : bool) (now : Timestamp) (s1 : State) :
  timestamp_now s1 = Some now ->
  List.length emb = n ->
  gallery_of_length n (known_embeddings s1) ->
  gallery_of_length n (known_embeddings
    (st_commit frame frame_num d emb assigned_id is_new_person now s1)).
Proof.
  intros Hnow Hemb Hlen.
  destruct (st_commit_fields frame frame_num d emb assigned_id is_new_person now s1 Hnow)
    as (_ & K & _ & _).
  rewrite K. destruct (retention_appends _ _ _ _); [|exact Hlen].
  apply gallery_of_length_app; [exact Hlen|].
  constructor; [exact Hemb | constructor].
Qed.

(** With an embedding model and a gallery of one embedding length, the
    resolver does not end with an uncaught exception, and keeps the
    invariant. *)
Lemma resolve_detection_well_formed (n : nat) (frame : Frame) (frame_num : Z)
    (d : Detection) (s : State) :
  model_of_length n ->
  sound n s ->
  exists r s', resolve_detection frame frame_num d s = Some (r, s') /\ sound n s'.
Proof.
  intros Hmodel [Hwf Hlen]. unfold resolve_detection.
  destruct (Rltb (det_conf d) (detection_conf_threshold config)) eqn:Hconf;
    [exists None, s; split; [reflexivity | split; assumption]|].
  cbv zeta.
  destruct (crop_size (crop_face frame d) =? 0)%Z eqn:Hcrop;
    [exists None, s; split; [reflexivity | split; assumption]|].
  destruct (extract_embedding env (crop_face frame d)) as [emb|] eqn:Hemb;
    [|exists None, s; split; [reflexivity | split; assumption]].
  pose proof (Hmodel _ _ Hemb) as Hdim.
  unfold bind at 1.
  destruct (truthy (position_match (tracked_people s) d)) eqn:Hpm.
  - destruct (truthy_nonempty _ Hpm) as (pid & Hpid & Hne).
    pose proof (position_match_tracked d _ _ Hpid) as Hmem.
    destruct Hwf as (Hnd & Hgal & Hkeys & Hts).
    destruct (timestamp_now s) as [now|] eqn:Hnow.
    + rewrite (assign_identity_position d emb s pid Hpid Hne).
      rewrite (commit_identity_run frame frame_num d emb pid false now s Hnow).
      eexists. eexists. split; [reflexivity|]. split.
      * apply commit_well_formed with (s0 := s); auto.
        repeat split; auto. rewrite Hnow. discriminate.
      * apply commit_gallery_of_length; assumption.
    + exfalso. apply Hts; [|reflexivity].
      intros Hnil. rewrite Hnil in Hmem. discriminate.
  - rewrite (assign_identity_recognize d emb s Hpm).
    destruct (find_best_match_defined emb (known_embeddings s)) as (bid & b & sec & Hf);
      [rewrite Hdim; exact Hlen|].
    rewrite (recognize_run emb s bid b sec Hf).
    destruct (Rgeb b (embedding_similarity_threshold config) && truthy bid) eqn:Hc.
    + apply andb_true_iff in Hc. destruct Hc as [_ Hb].
      destruct (truthy_nonempty _ Hb) as (id & -> & Hne).
      rewrite (commit_identity_run frame frame_num d emb id false
                 (clock env (tick s)) (st_recognize_start emb s) eq_refl).
      eexists. eexists. split; [reflexivity|]. split.
      * apply commit_well_formed with (s0 := s); auto.
        eapply find_best_match_known. exact Hf.
      * apply commit_gallery_of_length; [reflexivity | exact Hdim | exact Hlen].
    + destruct (st_register_new_fields emb s) as (T & K & N & _).
      rewrite (commit_identity_run frame frame_num d emb _ true
                 (clock env (tick s)) (st_register_new emb s) N).
      eexists. eexists. split; [reflexivity|]. split.
      * apply commit_well_formed with (s0 := s); auto.
        -- intros id H. rewrite K, map_app. apply in_or_app. now left.
        -- rewrite K, map_app. apply in_or_app. right. simpl. now left.
        -- apply next_person_id_nonempty.
      * apply commit_gallery_of_length; [exact N | exact Hdim |].
        rewrite K. apply gallery_of_length_app; [exact Hlen|].
        constructor; [exact Hdim | constructor].
Qed.

Lemma recognition_loop_well_formed (n : nat) (frame : Frame) (frame_num : Z)
    (detections : list Detection) :
  model_of_length n ->
  forall s, sound n s ->
  exists s', recognition_loop frame frame_num detections s = Some (tt, s')
             /\ sound n s'.
Proof.
  intros Hmodel.
  induction detections as [| d rest IH]; intros s Hwf; simpl.
  - exists s. auto.
  - destruct (resolve_detection_well_formed n frame frame_num d s Hmodel Hwf)
      as (r & s1 & Hrun & Hwf1).
    unfold bind at 1. rewrite Hrun. apply IH. exact Hwf1.
Qed.

Lemma assign_loop_keys (items : list (PersonId * Track)) (detections : list Detection)
    (frame_num : Z) :
  forall assigned,
  map fst (assign_loop items detections frame_num assigned) = map fst items.
Proof.
  induction items as [| [pid pdata] rest IH]; intros assigned; simpl; [reflexivity|].
  destruct (last_known_bbox pdata) as [b|]; simpl; [|now rewrite IH].
  destruct (best_detection b detections 0 assigned None None) as [idx|]; simpl;
    [|now rewrite IH].
  destruct (nth_error detections idx); simpl; now rewrite IH.
Qed.

Lemma well_formed_same_keys (s s' : State) :
  map fst (tracked_people s') = map fst (tracked_people s) ->
  known_embeddings s' = known_embeddings s ->
  timestamp_now s' = timestamp_now s ->
  well_formed s -> well_formed s'.
Proof.
  intros Hkeys Hk Hn (Hnd & Hgal & Hne & Hts).
  split; [|split; [|split]].
  - rewrite Hkeys. exact Hnd.
  - intros id Hmem. rewrite Hk. apply Hgal.
    apply dict_mem_In. rewrite <- Hkeys. apply dict_mem_In. exact Hmem.
  - apply Forall_forall. intros [k v] Hin.
    assert (Hk' : In k (map fst (tracked_people s))).
    { rewrite <- Hkeys. apply in_map_iff. exists (k, v). auto. }
    apply in_map_iff in Hk'. destruct Hk' as [[k0 v0] [E Hin0]]. simpl in E. subst k0.
    rewrite Forall_forall in Hne. apply (Hne (k, v0) Hin0).
  - intros Hnil. rewrite Hn. apply Hts. intros E. apply Hnil.
    rewrite E in Hkeys. destruct (tracked_people s'); [reflexivity | discriminate].
Qed.

Lemma update_trackers_well_formed (frame_num : Z)
    (current_detections : option (list Detection)) (s : State) :
  well_formed s ->
  exists s', update_trackers frame_num current_detections s = Some (tt, s')
             /\ well_formed s'.
Proof.
  intros Hwf.
  assert (Hreset : map fst (map (fun kv : PersonId * Track =>
                                   (fst kv, set_bbox None (snd kv))) (tracked_people s))
                   = map fst (tracked_people s)).
  { rewrite map_map. apply map_ext. reflexivity. }
  destruct current_detections as [[| d ds]|].
  - rewrite update_trackers_no_detections by auto.
    eexists. split; [reflexivity|].
    eapply well_formed_same_keys; [| | | exact Hwf]; simpl; auto.
  - eexists. split; [reflexivity|].
    eapply well_formed_same_keys; [| | | exact Hwf]; simpl; auto.
    rewrite assign_loop_keys. exact Hreset.
  - rewrite update_trackers_no_detections by auto.
    eexists. split; [reflexivity|].
    eapply well_formed_same_keys; [| | | exact Hwf]; simpl; auto.
Qed.

Lemma update_trackers_sound (n : nat) (frame_num : Z)
    (current_detections : option (list Detection)) (s : State) :
  sound n s ->
  exists s', update_trackers frame_num current_detections s = Some (tt, s')
             /\ sound n s'.
Proof.
  intros [Hwf Hlen].
  destruct (update_trackers_well_formed frame_num current_detections s Hwf)
    as (s' & Hrun & Hwf').
  exists s'. split; [exact Hrun|]. split; [exact Hwf'|].
  destruct current_detections as [[| d ds]|].
  - rewrite update_trackers_no_detections in Hrun by auto.
    injection Hrun as <-. exact Hlen.
  - injection Hrun as <-. exact Hlen.
  - rewrite update_trackers_no_detections in Hrun by auto.
    injection Hrun as <-. exact Hlen.
Qed.

Lemma handle_exits_well_formed (F T : Z) (s : State) :
  well_formed s ->
  exists s', handle_exits F T s = Some (tt, s') /\ well_formed s'.
Proof.
  intros (Hnd & Hgal & Hne & Hts).
  destruct (handle_exits_run F T s Hnd)
    as (s' & calls & Hrun & _ & _ & Htr & Hk & Hn & _).
  exists s'. split; [exact Hrun|].
  assert (Hsub : forall kv, In kv (tracked_people s') -> In kv (tracked_people s)).
  { intros kv. rewrite Htr. intros H. apply filter_In in H. tauto. }
  split; [|split; [|split]].
  - rewrite Htr. clear -Hnd.
    induction (tracked_people s) as [| [k v] rest IH]; simpl; [constructor|].
    inversion Hnd as [| ? ? Hnotin Hnd']; subst.
    destruct (negb (exits F T v)); simpl; [|auto].
    constructor; [|auto]. intros Hin. apply Hnotin.
    apply in_map_iff in Hin. destruct Hin as [[k0 v0] [E Hin]]. simpl in E. subst k0.
    apply filter_In in Hin. apply in_map_iff. exists (k, v0). tauto.
  - intros id Hmem. rewrite Hk. apply Hgal. apply dict_mem_In.
    apply dict_mem_In in Hmem. apply in_map_iff in Hmem.
    destruct Hmem as [[k v] [E Hin]]. simpl in E. subst k.
    apply in_map_iff. exists (id, v). auto.
  - apply Forall_forall. intros kv Hin. rewrite Forall_forall in Hne. auto.
  - intros Hnil. rewrite Hn. apply Hts. intros E. apply Hnil.
    rewrite Htr, E. reflexivity.
Qed.

Lemma handle_exits_sound (n : nat) (F T : Z) (s : State) :
  sound n s ->
  exists s', handle_exits F T s = Some (tt, s') /\ sound n s'.
Proof.
  intros [Hwf Hlen].
  destruct (handle_exits_well_formed F T s Hwf) as (s' & Hrun & Hwf').
  exists s'. split; [exact Hrun|]. split; [exact Hwf'|].
  destruct Hwf as (Hnd & _).
  destruct (handle_exits_run F T s Hnd)
    as (s'' & calls & Hrun' & _ & _ & _ & Hk & _).
  rewrite Hrun in Hrun'. injection Hrun' as <-.
  unfold gallery_of_length. rewrite Hk. exact Hlen.
Qed.

(** One frame, and the whole run, do not end with an uncaught exception
    and keep the invariant, when the embeddings have one length. *)
Lemma process_frame_well_formed (n : nat) (frame : Frame)
    (detections : list Detection) (frame_num : Z) (s : State) :
  model_of_length n ->
  sound n s ->
  exists s', process_frame frame detections frame_num s = Some (tt, s')
             /\ sound n s'.
Proof.
  intros Hmodel Hwf. unfold process_frame.
  destruct (update_trackers_sound n frame_num (Some detections) s Hwf)
    as (s1 & Hrun1 & Hwf1).
  unfold bind at 1. rewrite Hrun1. unfold bind at 1. unfold gets at 1.
  assert (Hrec : exists s2,
    (if (frame_num mod Z.max 1 (detection_skip_frames config) =? 0)%Z
        || match tracked_people s1 with [] => true | _ => false end
     then recognition_loop frame frame_num detections
     else ret tt) s1 = Some (tt, s2) /\ sound n s2).
  { destruct (_ || _).
    - apply recognition_loop_well_formed; assumption.
    - exists s1. auto. }
  destruct Hrec as (s2 & Hrun2 & Hwf2).
  unfold bind at 1. rewrite Hrun2.
  apply handle_exits_sound. exact Hwf2.
Qed.

Lemma db_after_read {A} (f : Db -> A) (s : State) :
  db_after (fun d => Some (f d, d)) s = db s.
Proof. unfold db_after. destruct (db_fails env (tick s)); reflexivity. Qed.

Lemma get_unique_visitor_count_reads (s : State) :
  exists n s',
    get_unique_visitor_count s = Some (n, s')
    /\ only_reads s s' [CGetUniqueVisitorCount].
Proof.
  unfold get_unique_visitor_count. unfold bind at 1. rewrite log_run.
  unfold bind at 1. rewrite pymongo_run. rewrite db_after_read.
  destruct (db_fails env (tick (logged CGetUniqueVisitorCount s)));
    cbn [option_map fst]; eexists; eexists; (split; [reflexivity|]);
    repeat split; reflexivity.
Qed.

Lemma get_visit_count_reads (action : Action) (s : State) :
  exists n s',
    get_visit_count action s = Some (n, s')
    /\ only_reads s s' [CGetVisitCount action].
Proof.
  unfold get_visit_count. unfold bind at 1. rewrite log_run.
  unfold bind at 1. rewrite pymongo_run. rewrite db_after_read.
  destruct (db_fails env (tick (logged (CGetVisitCount action) s)));
    cbn [option_map fst]; eexists; eexists; (split; [reflexivity|]);
    repeat split; reflexivity.
Qed.

Lemma only_reads_refl (s : State) : only_reads s s [].
Proof. unfold only_reads. rewrite app_nil_r. auto 10. Qed.

Lemma only_reads_trans (s1 s2 s3 : State) (c1 c2 : list Call) :
  only_reads s1 s2 c1 -> only_reads s2 s3 c2 -> only_reads s1 s3 (c1 ++ c2).
Proof.
  intros (T1 & K1 & N1 & D1 & C1 & V1) (T2 & K2 & N2 & D2 & C2 & V2).
  unfold only_reads, saved_visits in *.
  rewrite T2, K2, N2, D2, C2, C1, flat_map_app, V1, V2, app_assoc. auto 10.
Qed.

Lemma only_reads_well_formed (s s' : State) (calls : list Call) :
  only_reads s s' calls -> well_formed s -> well_formed s'.
Proof.
  intros (T & K & N & _). apply well_formed_same_keys; congruence.
Qed.

Lemma only_reads_sound (n : nat) (s s' : State) (calls : list Call) :
  only_reads s s' calls -> sound n s -> sound n s'.
Proof.
  intros R [Hwf Hlen]. split; [eapply only_reads_well_formed; eassumption|].
  destruct R as (_ & K & _). unfold gallery_of_length. rewrite K. exact Hlen.
Qed.

Lemma draw_on_frame_reads (s : State) :
  exists s' calls, draw_on_frame s = Some (tt, s') /\ only_reads s s' calls.
Proof.
  unfold draw_on_frame.
  destruct (get_unique_visitor_count_reads s) as (n1 & s1 & Hrun1 & R1).
  unfold bind at 1. rewrite Hrun1.
  destruct (get_visit_count_reads Entry s1) as (n2 & s2 & Hrun2 & R2).
  unfold bind at 1. rewrite Hrun2.
  destruct (get_visit_count_reads Exit s2) as (n3 & s3 & Hrun3 & R3).
  unfold bind at 1. rewrite Hrun3.
  exists s3. eexists. split; [reflexivity|].
  eapply only_reads_trans; [eapply only_reads_trans|]; eassumption.
Qed.

Lemma visualizer_visualize_reads (frame_num : Z) (s : State) :
  exists quit s' calls,
    visualizer_visualize frame_num s = Some (quit, s') /\ only_reads s s' calls.
Proof.
  unfold visualizer_visualize. destruct (negb (visualize config)).
  - exists false, s, []. split; [reflexivity | apply only_reads_refl].
  - destruct (draw_on_frame_reads s) as (s1 & calls & Hrun & R).
    unfold bind at 1. rewrite Hrun. eexists. exists s1, calls. split; [reflexivity|].
    exact R.
Qed.

(** The display of a frame, followed by the rest [k] of the loop body. *)
Lemma display_step {A} (frame_num : Z) (k : bool -> M A) (s : State) :
  exists quit s' calls,
    only_reads s s' calls
    /\ (draw_on_frame ;;
        should_quit <- (if visualize config then visualizer_visualize frame_num
                        else ret false) ;;
        k should_quit) s = k quit s'.
Proof.
  destruct (draw_on_frame_reads s) as (s1 & c1 & Hrun1 & R1).
  unfold bind at 1. rewrite Hrun1. unfold bind at 1.
  destruct (visualize config).
  - destruct (visualizer_visualize_reads frame_num s1) as (q & s2 & c2 & Hrun2 & R2).
    rewrite Hrun2. exists q, s2. eexists. split; [|reflexivity].
    eapply only_reads_trans; eassumption.
  - exists false, s1, c1. split; [exact R1 | reflexivity].
Qed.

Lemma frames_loop_well_formed (n : nat) (frames : list (Frame * list Detection))
    (max_frames : option Z) :
  model_of_length n ->
  forall frame_num total s, sound n s ->
  exists r s', frames_loop frames max_frames frame_num total s = Some (r, s')
               /\ sound n s'.
Proof.
  intros Hmodel.
  induction frames as [| [frame detections] rest IH]; intros frame_num total s Hwf;
    simpl.
  - eexists. exists s. split; [reflexivity | exact Hwf].
  - destruct (process_frame_well_formed n frame detections (frame_num + 1) s
                Hmodel Hwf) as (s1 & Hrun & Hwf1).
    unfold bind at 1. rewrite Hrun.
    match goal with
    | |- context [(draw_on_frame ;; should_quit <- _ ;; @?k should_quit) s1] =>
        destruct (display_step (frame_num + 1) k s1) as (q & s2 & calls & R & ->)
    end.
    pose proof (only_reads_sound n s1 s2 calls R Hwf1) as Hwf2.
    destruct q.
    + eexists. exists s2. split; [reflexivity | exact Hwf2].
    + destruct max_frames as [m|]; [|apply IH; exact Hwf2].
      destruct (negb (m =? 0)%Z && (frame_num + 1 >=? m)%Z); [|apply IH; exact Hwf2].
      eexists. exists s2. split; [reflexivity | exact Hwf2].
Qed.

Lemma well_formed_nobody (s : State) : tracked_people s = [] -> well_formed s.
Proof.
  intros H. unfold well_formed, tracked_in_gallery. rewrite H.
  repeat split; try constructor.
  - intros id Hmem. discriminate.
  - intros Hne. now contradiction Hne.
Qed.

Lemma init_counter_run (s : State) :
  exists s', init_counter s = Some (tt, s') /\ tracked_people s' = tracked_people s
             /\ face_data (db s') = face_data (db s).
Proof.
  unfold init_counter. unfold bind at 1. rewrite pymongo_run.
  unfold db_after.
  destruct (db_fails env (tick s)); cbn [option_map fst];
    [eexists; repeat split; reflexivity|].
  destruct (counter (db s)); [eexists; repeat split; reflexivity|].
  unfold bind at 1. rewrite pymongo_run. unfold db_after. simpl.
  destruct (db_fails env (S (tick s))); eexists; repeat split; reflexivity.
Qed.

Lemma get_all_face_data_run (s : State) :
  exists known s',
    get_all_face_data s = Some (known, s') /\ tracked_people s' = tracked_people s
    /\ forall n, store_of_length n (db s) -> gallery_of_length n known.
Proof.
  unfold get_all_face_data. unfold bind at 1. rewrite log_run.
  unfold bind at 1. rewrite pymongo_run.
  destruct (db_fails env (tick (logged CGetAllFaceData s))); cbn [option_map fst];
    eexists; eexists; (split; [reflexivity|]); (split; [reflexivity|]);
    intros n Hn.
  - constructor.
  - unfold gallery_of_length, store_of_length in *. simpl.
    apply Forall_map. exact Hn.
Qed.

(** A run of [process_video] on an opened source returns its summary
    when the connection to the store is established and the stored
    embeddings and those of the embedding model have one length: no
    uncaught exception ends it then, whatever the stream and the other
    oracle reads are. *)
Lemma process_video_returns (n : nat) (frames : list (Frame * list Detection))
    (max_frames : option Z) (d : Db) :
  db_fails env 0 = false ->
  model_of_length n ->
  store_of_length n d ->
  exists results s',
    process_video frames max_frames (initial_state d) = Some (results, s')
    /\ sound n s'.
Proof.
  intros Hconn Hmodel Hstore. unfold process_video.
  unfold bind at 1. rewrite init_mongodb_run.
  change (tick (initial_state d)) with 0%nat. rewrite Hconn.
  set (s0 := set_tick 1 (initial_state d)).
  destruct (init_counter_run s0) as (s1 & Hrun1 & T1 & F1).
  unfold bind at 1. rewrite Hrun1.
  destruct (get_all_face_data_run s1) as (known & s2 & Hrun2 & T2 & Hknown).
  unfold bind at 1. rewrite Hrun2.
  unfold bind at 1. unfold modify at 1.
  assert (Hwf : sound n (set_known_embeddings known s2)).
  { split.
    - apply well_formed_nobody. simpl. rewrite T2, T1. reflexivity.
    - simpl. apply Hknown. unfold store_of_length. rewrite F1. exact Hstore. }
  destruct (frames_loop_well_formed n frames max_frames Hmodel 0 0 _ Hwf)
    as ([frame_num total] & s3 & Hrun3 & Hwf3).
  unfold bind at 1. rewrite Hrun3.
  destruct (handle_exits_sound n frame_num 0 s3 Hwf3) as (s4 & Hrun4 & Hwf4).
  unfold bind at 1. rewrite Hrun4.
  destruct (get_unique_visitor_count_reads s4) as (u & s5 & Hrun5 & R5).
  unfold bind at 1. rewrite Hrun5.
  eexists. exists s5. split; [reflexivity|].
  eapply only_reads_sound; eassumption.
Qed.

(** When the connection to the store fails, the run ends with the
    exception that [_init_mongodb] raises again. *)
Lemma process_video_raises_unconnected (frames : list (Frame * list Detection))
    (max_frames : option Z) (d : Db) :
  db_fails env 0 = true ->
  process_video frames max_frames (initial_state d) = None.
Proof.
  intros Hconn. unfold process_video.
  unfold bind at 1. rewrite init_mongodb_run.
  change (tick (initial_state d)) with 0%nat. rewrite Hconn. reflexivity.
Qed.

(** *** The exit check right after a match *)

Lemma exits_loop_nobody (F T : Z) (items : list (PersonId * Track)) :
  forall to_remove s,
  Forall (fun kv => exits F T (snd kv) = false) items ->
  exits_loop F T items to_remove s = Some (to_remove, s).
Proof.
  induction items as [| [pid pdata] rest IH]; intros to_remove s H; simpl;
    [reflexivity|].
  inversion H as [| ? ? Hk Hrest]; subst. simpl in Hk. rewrite Hk. now apply IH.
Qed.


(** *** The stored embeddings after the resolution of a detection *)

Lemma st_entry_face_data (assigned_id : PersonId) (now : Timestamp) (s : State) :
  face_data (db (st_entry assigned_id now s)) = face_data (db s).
Proof.
  unfold st_entry. destruct (negb (dict_mem assigned_id (tracked_people s)));
    [|reflexivity].
  unfold st_save_visit_record, after_pymongo, db_after. simpl.
  rewrite st_save_cropped_face_db.
  destruct (db_fails env (tick (st_save_cropped_face s))); reflexivity.
Qed.

Lemma st_retention_face_data (assigned_id : PersonId) (emb : Embedding)
    (is_new_person : bool) (now : Timestamp) (s : State) :
  timestamp_now s = Some now ->
  face_data (db (st_retention assigned_id emb is_new_person s)) =
  if retention_appends assigned_id emb is_new_person s
  then face_data (db s) ++ [mkFaceDoc assigned_id emb now]
  else face_data (db s).
Proof.
  intros Hnow. unfold st_retention, retention_appends, st_store_embedding.
  destruct is_new_person; simpl; [reflexivity|].
  destruct (retention_decision assigned_id emb s); simpl; [|reflexivity].
  rewrite Hnow. unfold after_pymongo, db_after. simpl.
  destruct (db_fails env (S (tick s))); reflexivity.
Qed.

Lemma st_commit_face_data (frame : Frame) (frame_num : Z) (d : Detection)
    (emb : Embedding) (assigned_id : PersonId) (is_new_person : bool)
    (now : Timestamp) (s : State) :
  timestamp_now s = Some now ->
  face_data (db (st_commit frame frame_num d emb assigned_id is_new_person now s)) =
  if retention_appends assigned_id emb is_new_person (st_entry assigned_id now s)
  then face_data (db s) ++ [mkFaceDoc assigned_id emb now]
  else face_data (db s).
Proof.
  intros Hnow.
  destruct (st_entry_fields assigned_id now s) as (_ & _ & N1 & _).
  rewrite Hnow in N1.
  pose proof (st_retention_face_data assigned_id emb is_new_person now
                (st_entry assigned_id now s) N1) as Hret.
  rewrite st_entry_face_data in Hret. rewrite <- Hret.
  unfold st_commit, st_update_last_seen, after_pymongo, db_after. simpl.
  match goal with
  | |- context [if db_fails env ?n then _ else _] => destruct (db_fails env n)
  end; reflexivity.
Qed.

(** *** A failed insert of a diverse embedding *)

(** When the insert of a diverse embedding raises, neither the store nor
    the in-memory gallery receives the embedding. *)
Lemma store_embedding_failed_insert (assigned_id : PersonId) (emb : Embedding)
    (s : State) :
  db_fails env (tick s) = true ->
  exists s',
    store_embedding assigned_id emb s = Some (tt, s')
    /\ known_embeddings s' = known_embeddings s
    /\ db s' = db s.
Proof.
  intros Hfail. rewrite store_embedding_st. eexists. split; [reflexivity|].
  unfold st_store_embedding. destruct (timestamp_now s); [|auto].
  cbv zeta. cbn [logged set_trace tick]. rewrite Hfail.
  unfold after_pymongo, db_after. cbn [logged set_trace tick db known_embeddings].
  rewrite Hfail. auto.
Qed.

(** *** A stream of one frame *)

Lemma handle_exits_keeps_recent (F T : Z) (s : State) :
  Forall (fun kv => (F - last_seen_frame (snd kv) <= T)%Z) (tracked_people s) ->
  handle_exits F T s = Some (tt, s).
Proof.
  intros H. unfold handle_exits. unfold bind at 1. unfold gets at 1.
  unfold bind at 1. rewrite exits_loop_nobody.
  - unfold modify. simpl. destruct s; reflexivity.
  - eapply Forall_impl; [|exact H]. intros kv Hkv. unfold exits.
    cbv beta in Hkv. rewrite Z.gtb_ltb. apply Z.ltb_ge. exact Hkv.
Qed.

Lemma init_counter_fields (s : State) :
  exists s',
    init_counter s = Some (tt, s')
    /\ tracked_people s' = tracked_people s
    /\ timestamp_now s' = timestamp_now s
    /\ trace s' = trace s
    /\ face_data (db s') = face_data (db s).
Proof.
  unfold init_counter. unfold bind at 1. rewrite pymongo_run.
  destruct (db_fails env (tick s)) eqn:E; cbn [option_map fst].
  - eexists. split; [reflexivity|]. unfold db_after. rewrite E. auto.
  - destruct (counter (db s)).
    + eexists. split; [reflexivity|]. unfold db_after. rewrite E. auto.
    + unfold bind at 1. rewrite pymongo_run.
      eexists. split; [reflexivity|]. unfold db_after. simpl. rewrite E.
      destruct (db_fails env (S (tick s))); auto.
Qed.

Lemma get_all_face_data_fields (s : State) :
  exists known s',
    get_all_face_data s = Some (known, s')
    /\ (face_data (db s) = [] -> known = [])
    /\ tracked_people s' = tracked_people s
    /\ timestamp_now s' = timestamp_now s
    /\ trace s' = trace s ++ [CGetAllFaceData].
Proof.
  unfold get_all_face_data. unfold bind at 1. rewrite log_run.
  unfold bind at 1. rewrite pymongo_run.
  destruct (db_fails env (tick (logged CGetAllFaceData s))); cbn [option_map fst];
    eexists; eexists; (split; [reflexivity|]); simpl; repeat split; auto.
  intros ->. reflexivity.
Qed.

(** A person first seen in the only frame of a stream, with a
    non-negative exit threshold and the store connected, is still
    tracked when [process_video] returns, and the only visit record that the run has saved is the
    entry of that person: the final exit check with threshold 0 does not
    remove a person matched in the final frame. *)
Lemma single_frame_run (frame : Frame) (d : Detection) (emb : Embedding)
    (max_frames : option Z) (store : Db) :
  db_fails env 0 = false ->
  face_data store = [] ->
  (det_conf d >= detection_conf_threshold config)%R ->
  crop_size (crop_face frame d) <> 0%Z ->
  extract_embedding env (crop_face frame d) = Some emb ->
  (0 <= exit_frame_threshold config)%Z ->
  exists results s' person_id now,
    process_video [(frame, [d])] max_frames (initial_state store)
      = Some (results, s')
    /\ processed_frames results = 1%Z
    /\ tracked_people s' = [(person_id, fresh_track frame 1 d now)]
    /\ saved_visits (trace s') = [(person_id, Entry)].
Proof.
  intros Hconn Hstore Hconf Hcrop Hemb Hthr. unfold process_video.
  unfold bind at 1. rewrite init_mongodb_run.
  change (tick (initial_state store)) with 0%nat. rewrite Hconn.
  destruct (init_counter_fields (set_tick 1 (initial_state store)))
    as (s1 & Hrun1 & T1 & N1 & C1 & F1).
  unfold bind at 1. rewrite Hrun1.
  destruct (get_all_face_data_fields s1) as (known & s2 & Hrun2 & Hknown & T2 & N2 & C2).
  unfold bind at 1. rewrite Hrun2.
  rewrite Hknown by (rewrite F1; exact Hstore).
  unfold bind at 1. unfold modify at 1.
  set (s3 := set_known_embeddings [] s2).
  assert (T3 : tracked_people s3 = []) by (simpl; rewrite T2, T1; reflexivity).
  assert (C3 : trace s3 = [CGetAllFaceData]) by (simpl; rewrite C2, C1; reflexivity).
  assert (Hupd : update_trackers 1 (Some [d]) s3 = Some (tt, s3)).
  { unfold update_trackers, assign_detections_to_tracks. unfold bind at 1.
    unfold modify. simpl. rewrite T2, T1. simpl.
    unfold s3, set_known_embeddings, set_tracked_people. simpl.
    rewrite T2, T1. reflexivity. }
  assert (Hres : resolve_detection frame 1 d s3 =
                 Some (Some (new_person_id emb s3, true),
                       st_commit frame 1 d emb (new_person_id emb s3) true
                                 (clock env (tick s3)) (st_register_new emb s3))).
  { apply (resolve_new_person frame 1 d emb s3 None (-1)%R (-1)%R); auto.
    - rewrite T3. reflexivity.
    - apply andb_false_r. }
  set (id := new_person_id emb s3) in *.
  set (now := clock env (tick s3)) in *.
  set (s4 := st_commit frame 1 d emb id true now (st_register_new emb s3)) in *.
  destruct (st_register_new_fields emb s3) as (Tn & Kn & Nn & Cn).
  fold id now in Tn, Kn, Nn, Cn.
  destruct (st_commit_fields frame 1 d emb id true now (st_register_new emb s3) Nn)
    as (T4 & K4 & N4 & C4).
  fold s4 in T4, K4, N4, C4.
  assert (Hmem : dict_mem id (tracked_people (st_register_new emb s3)) = false)
    by (rewrite Tn, T3; reflexivity).
  assert (T4' : tracked_people s4 = [(id, fresh_track frame 1 d now)])
    by (rewrite T4, Tn, T3; reflexivity).
  assert (C4' : saved_visits (trace s4) = [(id, Entry)]).
  { rewrite C4, Cn, C3. unfold entry_calls, retention_calls. rewrite Hmem.
    reflexivity. }
  assert (Hframe : process_frame frame [d] 1 s3 = Some (tt, s4)).
  { unfold process_frame. unfold bind at 1. rewrite Hupd.
    unfold bind at 1. unfold gets at 1. rewrite T3. rewrite orb_true_r.
    unfold bind at 1. simpl recognition_loop. unfold bind at 1. rewrite Hres.
    unfold ret at 1.
    apply handle_exits_keeps_recent. rewrite T4'. repeat constructor. simpl. lia. }
  assert (Hloop : exists s5 calls,
            frames_loop [(frame, [d])] max_frames 0 0 s3 = Some ((1, 1)%Z, s5)
            /\ only_reads s4 s5 calls).
  { simpl frames_loop. unfold bind at 1. rewrite Hframe.
    match goal with
    | |- context [(draw_on_frame ;; should_quit <- _ ;; @?k should_quit) s4] =>
        destruct (display_step 1 k s4) as (q & s5 & calls & R & E)
    end.
    exists s5, calls. split; [|exact R]. rewrite E.
    destruct q; [reflexivity|].
    destruct max_frames as [n|]; [|reflexivity].
    destruct (negb (n =? 0)%Z && (1 >=? n)%Z); reflexivity. }
  destruct Hloop as (s5 & calls & Hloop & R5).
  unfold bind at 1. fold s3. rewrite Hloop.
  destruct R5 as (T5 & _ & _ & _ & C5 & V5).
  unfold bind at 1.
  rewrite handle_exits_keeps_recent
    by (rewrite T5, T4'; repeat constructor; simpl; lia).
  destruct (get_unique_visitor_count_reads s5) as (n & s6 & Hrun6 & R6).
  unfold bind at 1. rewrite Hrun6.
  destruct R6 as (T6 & _ & _ & _ & C6 & V6).
  eexists. exists s6, id, now.
  split; [reflexivity|]. split; [reflexivity|].
  split; [rewrite T6, T5; exact T4'|].
  rewrite C6, C5. unfold saved_visits in *.
  rewrite !flat_map_app, C4', V5. reflexivity.
Qed.

(* ----------------------------------------------------------------- *)
(** *** Symmetry of the cosine similarity *)

Lemma dot_comm (a b : Embedding) : dot a b = dot b a.
Proof.
  revert b. induction a as [| x a IH]; intros [| y b]; simpl; auto.
  rewrite IH. destruct (dot b a); [|reflexivity]. f_equal. ring.
Qed.

(** X2. The cosine similarity does not depend on the order of its two
    arguments: [find_best_match] and [should_store_embedding], which
    pass the new embedding first, compute the same value as a call with
    the stored embedding first. *)
Theorem cosine_similarity_symmetric (a b : Embedding) :
  cosine_similarity a b = cosine_similarity b a.
Proof.
  unfold cosine_similarity.
  rewrite (dot_comm a b), (Rmult_comm (norm a) (norm b)), orb_comm.
  reflexivity.
Qed.

(* ----------------------------------------------------------------- *)
(** *** The best match is the first maximum of the gallery *)

Lemma find_best_match_loop_first_max (emb : Embedding)
    (known : list (PersonId * Embedding)) :
  forall best_id best second id b sec,
  find_best_match_loop emb known best_id best second = Some (id, b, sec) ->
  (best <= b)%R
  /\ (forall p e r, In (p, e) known -> cosine_similarity emb e = Some r -> (r <= b)%R)
  /\ ((id = best_id /\ b = best)
      \/ (exists l1 p e l2,
            known = l1 ++ (p, e) :: l2
            /\ id = Some p
            /\ cosine_similarity emb e = Some b
            /\ (best < b)%R
            /\ forall p' e' r, In (p', e') l1 ->
                 cosine_similarity emb e' = Some r -> (r < b)%R)).
Proof.
  induction known as [| [p0 e0] rest IH]; intros best_id best second id b sec; simpl.
  - intros H. injection H as <- <- <-. split; [lra|]. split; [tauto | now left].
  - destruct (cosine_similarity emb e0) as [sim|] eqn:Hsim; [|discriminate].
    unfold Rgtb.
    destruct (Rltb best sim) eqn:H1.
    + apply Rltb_true in H1. intros H. apply IH in H.
      destruct H as (Hle & Hall & Hwho).
      split; [lra|]. split.
      * intros p e r [Heq | Hin] Hr.
        -- injection Heq as <- <-. rewrite Hsim in Hr. injection Hr as <-. exact Hle.
        -- eapply Hall; eauto.
      * right. destruct Hwho as [[-> ->] | (l1 & p & e & l2 & -> & -> & Hb & Hlt & Hl1)].
        -- exists [], p0, e0, rest. repeat split; auto. intros ? ? ? [].
        -- exists ((p0, e0) :: l1), p, e, l2. repeat split; auto; [lra|].
           intros p' e' r [Heq | Hin] Hr.
           ++ injection Heq as <- <-. rewrite Hsim in Hr. injection Hr as <-. exact Hlt.
           ++ eapply Hl1; eauto.
    + apply Rltb_false in H1.
      assert (Hstep : forall second',
        find_best_match_loop emb rest best_id best second' = Some (id, b, sec) ->
        (best <= b)%R
        /\ (forall p e r, In (p, e) ((p0, e0) :: rest) ->
              cosine_similarity emb e = Some r -> (r <= b)%R)
        /\ ((id = best_id /\ b = best)
            \/ (exists l1 p e l2,
                  (p0, e0) :: rest = l1 ++ (p, e) :: l2
                  /\ id = Some p
                  /\ cosine_similarity emb e = Some b
                  /\ (best < b)%R
                  /\ forall p' e' r, In (p', e') l1 ->
                       cosine_similarity emb e' = Some r -> (r < b)%R))).
      { intros second' H. apply IH in H. destruct H as (Hle & Hall & Hwho).
        split; [exact Hle|]. split.
        - intros p e r [Heq | Hin] Hr.
          + injection Heq as <- <-. rewrite Hsim in Hr. injection Hr as <-. lra.
          + eapply Hall; eauto.
        - destruct Hwho as [Hsame | (l1 & p & e & l2 & -> & -> & Hb & Hlt & Hl1)];
            [now left|].
          right. exists ((p0, e0) :: l1), p, e, l2. repeat split; auto.
          intros p' e' r [Heq | Hin] Hr.
          + injection Heq as <- <-. rewrite Hsim in Hr. injection Hr as <-. lra.
          + eapply Hl1; eauto. }
      destruct (Rltb second sim); apply Hstep.
Qed.

(** X4. The best match of an embedding against the gallery.  On a
    gallery whose embeddings have the length of the query the query
    returns.  Whenever it returns, on any gallery, the best similarity
    is at least every similarity to a gallery entry, and the identifier
    returned is that of the first entry, in gallery order, that reaches
    it.  No identifier is returned exactly when no entry has a
    similarity above -1; the best similarity is -1 then. *)
Theorem find_best_match_first_maximum (emb : Embedding)
    (known : list (PersonId * Embedding)) :
  (gallery_of_length (List.length emb) known ->
   exists id b sec, find_best_match emb known = Some (id, b, sec))
  /\ forall id b sec,
       find_best_match emb known = Some (id, b, sec) ->
       (forall p e, In (p, e) known ->
          exists r, cosine_similarity emb e = Some r /\ (r <= b)%R)
       /\ match id with
          | Some p =>
              exists l1 e l2,
                known = l1 ++ (p, e) :: l2
                /\ cosine_similarity emb e = Some b
                /\ (-1 < b)%R
                /\ forall p' e' r, In (p', e') l1 ->
                     cosine_similarity emb e' = Some r -> (r < b)%R
          | None => b = (-1)%R
          end.
Proof.
  split; [apply find_best_match_defined|].
  intros id b sec H.
  assert (Hdef : forall p e, In (p, e) known ->
            exists r, cosine_similarity emb e = Some r).
  { intros p e Hin. destruct (cosine_similarity emb e) as [r|] eqn:Hr; [eauto|].
    unfold find_best_match in H.
    rewrite (find_best_match_loop_raises emb known (p, e) Hin Hr) in H.
    discriminate. }
  apply find_best_match_loop_first_max in H. destruct H as (Hle & Hall & Hwho).
  split.
  - intros p e Hin. destruct (Hdef p e Hin) as [r Hr].
    exists r. split; [exact Hr | exact (Hall p e r Hin Hr)].
  - destruct Hwho as [[-> ->] | (l1 & p & e & l2 & -> & -> & Hb & Hlt & Hl1)].
    + reflexivity.
    + exists l1, e, l2. auto.
Qed.

(* ----------------------------------------------------------------- *)
(** *** The assignment of detections to tracks *)

Lemma nth_error_snoc_lt {A} (l : list A) (x : A) (j : nat) (y : A) :
  nth_error (l ++ [x]) j = Some y ->
  (j < List.length l)%nat /\ nth_error l j = Some y
  \/ j = List.length l /\ y = x.
Proof.
  intros H. destruct (Nat.lt_ge_cases j (List.length l)) as [Hlt | Hge].
  - left. split; [exact Hlt|]. now rewrite nth_error_app1 in H.
  - right. rewrite nth_error_app2 in H by exact Hge.
    destruct (j - List.length l)%nat as [| k] eqn:E; simpl in H.
    + injection H as <-. split; [lia | reflexivity].
    + destruct k; discriminate.
Qed.

Lemma best_detection_inv (last_bbox : BBox) (assigned : list nat)
    (suffix : list Detection) :
  forall (prefix : list Detection) (best_match_idx : option nat)
         (best_distance : option Z),
  match best_match_idx with
  | Some k =>
      exists dk, nearest_unassigned last_bbox assigned prefix k dk
                 /\ within_px 100 last_bbox (det_box dk) = true
                 /\ best_distance = Some (dist2x4 last_bbox (det_box dk))
  | None =>
      best_distance = None
      /\ forall j d', nth_error prefix j = Some d' ->
                      existsb (Nat.eqb j) assigned = false ->
                      within_px 100 last_bbox (det_box d') = false
  end ->
  match best_detection last_bbox suffix (List.length prefix) assigned
                       best_match_idx best_distance with
  | Some k =>
      exists dk, nearest_unassigned last_bbox assigned (prefix ++ suffix) k dk
                 /\ within_px 100 last_bbox (det_box dk) = true
  | None =>
      forall j d', nth_error (prefix ++ suffix) j = Some d' ->
                   existsb (Nat.eqb j) assigned = false ->
                   within_px 100 last_bbox (det_box d') = false
  end.
Proof.
  induction suffix as [| d rest IH]; intros prefix bidx bdist Hinv.
  - simpl. rewrite app_nil_r.
    destruct bidx as [k|].
    + destruct Hinv as (dk & Hn & Hw & _). eauto.
    + apply Hinv.
  - replace (prefix ++ d :: rest) with ((prefix ++ [d]) ++ rest)
      by (rewrite <- app_assoc; reflexivity).
    assert (Hlen : S (List.length prefix) = List.length (prefix ++ [d]))
      by (rewrite length_app; simpl; lia).
    cbn [best_detection].
    destruct (existsb (Nat.eqb (List.length prefix)) assigned) eqn:Hass.
    { (* the detection is already assigned *)
      rewrite Hlen. apply IH.
      destruct bidx as [k|].
      - destruct Hinv as (dk & (Hnth & Hun & Hmin) & Hw & Hd).
        exists dk. split; [|auto]. split; [|split; [exact Hun|]].
        + rewrite nth_error_app1; [exact Hnth|].
          apply nth_error_Some. congruence.
        + intros j d' Hj Huj.
          apply nth_error_snoc_lt in Hj. destruct Hj as [[_ Hj] | [-> _]].
          * apply Hmin; assumption.
          * congruence.
      - destruct Hinv as (Hd & Hfar). split; [exact Hd|].
        intros j d' Hj Huj.
        apply nth_error_snoc_lt in Hj. destruct Hj as [[_ Hj] | [-> _]].
        + eapply Hfar; eassumption.
        + congruence. }
    pose proof (dist2x4_nonneg last_bbox (det_box d)) as Hnn.
    destruct (within_px 100 last_bbox (det_box d)
              && match bdist with
                 | Some b => (dist2x4 last_bbox (det_box d) <? b)%Z
                 | None => true
                 end) eqn:Hbetter.
    { (* the detection becomes the best match *)
      apply andb_true_iff in Hbetter. destruct Hbetter as [Hw Hcl].
      rewrite Hlen. apply IH.
      exists d. split; [|auto]. split; [|split; [exact Hass|]].
      - rewrite nth_error_app2 by lia. rewrite Nat.sub_diag. reflexivity.
      - intros j d' Hj Huj.
        apply nth_error_snoc_lt in Hj. destruct Hj as [[Hlt Hj] | [-> ->]].
        + assert (Hstrict : (dist2x4 last_bbox (det_box d)
                             < dist2x4 last_bbox (det_box d'))%Z).
          { destruct bidx as [k|].
            - destruct Hinv as (dk & (_ & _ & Hmin) & _ & ->).
              apply Z.ltb_lt in Hcl.
              destruct (Hmin j d' Hj Huj) as [Hle _]. lia.
            - destruct Hinv as (_ & Hfar).
              pose proof (Hfar j d' Hj Huj) as Hf.
              unfold within_px in Hw, Hf.
              apply Z.ltb_lt in Hw. apply Z.ltb_ge in Hf. lia. }
          split; [lia | intros _; exact Hstrict].
        + split; [lia | intros Hlt; lia]. }
    (* the best match stays *)
    rewrite Hlen. apply IH.
    apply andb_false_iff in Hbetter.
    destruct bidx as [k|].
    + destruct Hinv as (dk & (Hnth & Hun & Hmin) & Hw & ->).
      exists dk. split; [|auto]. split; [|split; [exact Hun|]].
      * rewrite nth_error_app1; [exact Hnth|].
        apply nth_error_Some. congruence.
      * intros j d' Hj Huj.
        apply nth_error_snoc_lt in Hj. destruct Hj as [[_ Hj] | [-> ->]].
        -- apply Hmin; assumption.
        -- assert (Hk : (k < List.length prefix)%nat)
             by (apply nth_error_Some; congruence).
           split; [|intros Hlt; lia].
           destruct Hbetter as [Hf | Hf].
           ++ unfold within_px in Hw, Hf.
              apply Z.ltb_lt in Hw. apply Z.ltb_ge in Hf. lia.
           ++ apply Z.ltb_ge in Hf. exact Hf.
    + destruct Hinv as (-> & Hfar). split; [reflexivity|].
      intros j d' Hj Huj.
      apply nth_error_snoc_lt in Hj. destruct Hj as [[_ Hj] | [-> ->]].
      * eapply Hfar; eassumption.
      * destruct Hbetter as [Hf | Hf]; [exact Hf | discriminate].
Qed.

Lemma best_detection_spec (last_bbox : BBox) (detections : list Detection)
    (assigned : list nat) :
  match best_detection last_bbox detections 0 assigned None None with
  | Some k =>
      exists dk, nearest_unassigned last_bbox assigned detections k dk
                 /\ within_px 100 last_bbox (det_box dk) = true
  | None =>
      forall j d', nth_error detections j = Some d' ->
                   existsb (Nat.eqb j) assigned = false ->
                   within_px 100 last_bbox (det_box d') = false
  end.
Proof.
  apply (best_detection_inv last_bbox assigned detections [] None None).
  split; [reflexivity|]. intros [| j] d' H; discriminate.
Qed.

Lemma center_distance_le (a b c : BBox) :
  (dist2x4 a b <= dist2x4 a c)%Z ->
  (center_distance a b <= center_distance a c)%R.
Proof.
  intros H. destruct (Z.eq_dec (dist2x4 a b) (dist2x4 a c)) as [E | E].
  - unfold center_distance. rewrite !center_distance_sqr, E. lra.
  - apply Rlt_le. apply center_distance_closer. lia.
Qed.

(** X5. The search of [_assign_detections_to_tracks] for one track.
    When it finds a detection, that detection is not yet assigned, its
    center is closer than 100 px to the center of the last known box,
    and no other unassigned detection is closer; of several equally
    near ones it is the first.  It finds none exactly when every
    unassigned detection is 100 px or more away. *)
Theorem best_detection_is_nearest_unassigned (last_bbox : BBox)
    (detections : list Detection) (assigned_detections : list nat) :
  match best_detection last_bbox detections 0 assigned_detections None None with
  | Some idx =>
      exists d,
        nth_error detections idx = Some d
        /\ existsb (Nat.eqb idx) assigned_detections = false
        /\ (center_distance last_bbox (det_box d) < 100)%R
        /\ forall j d',
             nth_error detections j = Some d' ->
             existsb (Nat.eqb j) assigned_detections = false ->
             (center_distance last_bbox (det_box d)
              <= center_distance last_bbox (det_box d'))%R
             /\ ((j < idx)%nat ->
                 (center_distance last_bbox (det_box d)
                  < center_distance last_bbox (det_box d'))%R)
  | None =>
      forall j d',
        nth_error detections j = Some d' ->
        existsb (Nat.eqb j) assigned_detections = false ->
        (100 <= center_distance last_bbox (det_box d'))%R
  end.
Proof.
  pose proof (best_detection_spec last_bbox detections assigned_detections) as H.
  destruct (best_detection last_bbox detections 0 assigned_detections None None)
    as [idx|].
  - destruct H as (d & (Hnth & Hun & Hmin) & Hw).
    exists d. split; [exact Hnth|]. split; [exact Hun|]. split.
    + apply (center_distance_lt 100); [lia | exact Hw].
    + intros j d' Hj Huj. destruct (Hmin j d' Hj Huj) as [Hle Hlt]. split.
      * apply center_distance_le. exact Hle.
      * intros Hji. apply center_distance_closer. auto.
  - intros j d' Hj Huj. pose proof (H j d' Hj Huj) as Hf.
    apply Rnot_lt_le. intros Hlt.
    apply (center_distance_lt 100) in Hlt; [congruence | lia].
Qed.

(** The tracks after the outer loop, against the tracks before it. *)
Lemma assign_loop_tracks (detections : list Detection) (frame_num : Z)
    (items : list (PersonId * Track)) :
  forall assigned,
  Forall2 (fun old new =>
             fst new = fst old
             /\ (snd new = snd old
                 \/ exists det last_bbox,
                      In det detections
                      /\ last_known_bbox (snd old) = Some last_bbox
                      /\ within_px 100 last_bbox (det_box det) = true
                      /\ snd new = match_track det frame_num (snd old)))
          items (assign_loop items detections frame_num assigned).
Proof.
  induction items as [| [pid pdata] rest IH]; intros assigned; simpl; [constructor|].
  destruct (last_known_bbox pdata) as [last_bbox|] eqn:Hlast.
  - pose proof (best_detection_spec last_bbox detections assigned) as Hbest.
    destruct (best_detection last_bbox detections 0 assigned None None) as [idx|].
    + destruct Hbest as (d & (Hnth & _ & _) & Hw). rewrite Hnth.
      constructor; [|apply IH]. simpl. split; [reflexivity|]. right.
      exists d, last_bbox. repeat split; auto.
      eapply nth_error_In. exact Hnth.
    + constructor; [|apply IH]. simpl. auto.
  - constructor; [|apply IH]. simpl. auto.
Qed.

(** X6. The tracker update of a frame with detections makes no call on
    the store and leaves the gallery alone.  It keeps the tracked
    persons and their order.  Each track is either left without a
    current box, with its last known box, last-seen frame, crop and
    time unchanged, or it is matched to one of the detections, whose
    center is closer than 100 px to the center of the last known box:
    then its current and last known box are the box of that detection,
    its last-seen frame is the current frame and its confidence is that
    of the detection; its crop and last-seen time stay as they were. *)
Theorem update_trackers_matches_within_100_px (frame_num : Z)
    (d : Detection) (ds : list Detection) (s : State) :
  exists s',
    update_trackers frame_num (Some (d :: ds)) s = Some (tt, s')
    /\ db s' = db s
    /\ known_embeddings s' = known_embeddings s
    /\ trace s' = trace s
    /\ Forall2 (fun old new =>
                  fst new = fst old
                  /\ (snd new = set_bbox None (snd old)
                      \/ exists det last_bbox,
                           In det (d :: ds)
                           /\ last_known_bbox (snd old) = Some last_bbox
                           /\ (center_distance last_bbox (det_box det) < 100)%R
                           /\ snd new =
                              mkTrack frame_num (Some (det_box det))
                                      (Some (det_box det)) (last_crop (snd old))
                                      (det_conf det) (last_seen_time (snd old))))
               (tracked_people s) (tracked_people s').
Proof.
  eexists. split; [reflexivity|]. simpl.
  split; [reflexivity|]. split; [reflexivity|]. split; [reflexivity|].
  pose proof (assign_loop_tracks (d :: ds) frame_num
                (map (fun kv : PersonId * Track => (fst kv, set_bbox None (snd kv)))
                     (tracked_people s)) []) as H.
  remember (assign_loop _ _ _ _) as after eqn:E. clear E.
  revert after H.
  induction (tracked_people s) as [| [pid pdata] rest IH]; intros after H;
    simpl in H; inversion H as [| ? new ? after' Hhead Htail]; subst;
    constructor.
  - simpl in *. destruct Hhead as [Hk [Hsame | (det & last & Hin & Hl & Hw & Hnew)]].
    + split; [exact Hk | left; exact Hsame].
    + split; [exact Hk|]. right. exists det, last. repeat split; auto.
      apply (center_distance_lt 100); [lia | exact Hw].
  - apply IH. exact Htail.
Qed.

Lemma NoDup_bounded_length (l : list nat) (n : nat) :
  NoDup l -> (forall i, In i l -> (i < n)%nat) -> (List.length l <= n)%nat.
Proof.
  intros Hnd Hb. rewrite <- (length_seq n 0).
  apply NoDup_incl_length; [exact Hnd|].
  intros i Hi. apply in_seq. specialize (Hb i Hi). lia.
Qed.

Lemma existsb_eqb_In (i : nat) (l : list nat) :
  existsb (Nat.eqb i) l = false -> ~ In i l.
Proof.
  intros H Hin.
  assert (Ht : existsb (Nat.eqb i) l = true).
  { apply existsb_exists. exists i. split; [exact Hin | apply Nat.eqb_refl]. }
  congruence.
Qed.

Lemma assign_loop_inframe (detections : list Detection) (frame_num : Z)
    (items : list (PersonId * Track)) :
  forall assigned,
  Forall (fun kv => bbox (snd kv) = None) items ->
  NoDup assigned ->
  (forall i, In i assigned -> (i < List.length detections)%nat) ->
  (inframe_people (assign_loop items detections frame_num assigned)
   + List.length assigned <= List.length detections)%nat.
Proof.
  unfold inframe_people.
  induction items as [| [pid pdata] rest IH]; intros assigned Hnone Hnd Hb; simpl.
  - apply NoDup_bounded_length; assumption.
  - inversion Hnone as [| ? ? Hb0 Hrest]; subst. simpl in Hb0.
    assert (Hskip :
      (List.length
         (filter (fun kv : PersonId * Track =>
                    match bbox (snd kv) with Some _ => true | None => false end)
                 ((pid, pdata) :: assign_loop rest detections frame_num assigned))
       + List.length assigned <= List.length detections)%nat).
    { simpl. rewrite Hb0. apply IH; assumption. }
    destruct (last_known_bbox pdata) as [last_bbox|]; [|exact Hskip].
    pose proof (best_detection_spec last_bbox detections assigned) as Hbest.
    destruct (best_detection last_bbox detections 0 assigned None None) as [idx|];
      [|exact Hskip].
    destruct Hbest as (d & (Hnth & Hun & _) & _). rewrite Hnth. simpl.
    assert (Hidx : (idx < List.length detections)%nat)
      by (apply nth_error_Some; congruence).
    specialize (IH (idx :: assigned) Hrest).
    simpl in IH. rewrite <- Nat.add_succ_comm in IH. apply IH.
    + constructor; [apply existsb_eqb_In; exact Hun | exact Hnd].
    + intros i [<- | Hi]; auto.
Qed.

(** X7. After the tracker update of a frame, the number of tracked
    persons with a current box, which the overlay shows as In-frame, is
    at most the number of detections of the frame: no detection is
    assigned to two tracks.  Without detections it is 0. *)
Theorem update_trackers_inframe_at_most_detections (frame_num : Z)
    (current_detections : option (list Detection)) (s : State) :
  exists s',
    update_trackers frame_num current_detections s = Some (tt, s')
    /\ (inframe_people (tracked_people s')
        <= List.length (match current_detections with
                        | Some detections => detections
                        | None => []
                        end))%nat.
Proof.
  assert (Hreset : Forall (fun kv : PersonId * Track => bbox (snd kv) = None)
            (map (fun kv : PersonId * Track => (fst kv, set_bbox None (snd kv)))
                 (tracked_people s))).
  { apply Forall_forall. intros kv Hin. apply in_map_iff in Hin.
    destruct Hin as (kv0 & <- & _). reflexivity. }
  assert (Hzero : forall items : list (PersonId * Track),
            Forall (fun kv => bbox (snd kv) = None) items ->
            inframe_people items = 0%nat).
  { unfold inframe_people. induction items as [| kv items IH]; intros H;
      [reflexivity|].
    inversion H as [| ? ? Hb Hrest]; subst. simpl. rewrite Hb. auto. }
  destruct current_detections as [[| d ds]|].
  - rewrite update_trackers_no_detections by auto.
    eexists. split; [reflexivity|]. cbn [tracked_people set_tracked_people].
    rewrite (Hzero _ Hreset). apply Nat.le_0_l.
  - eexists. split; [reflexivity|]. cbn [tracked_people set_tracked_people].
    pose proof (assign_loop_inframe (d :: ds) frame_num _ [] Hreset
                  (NoDup_nil nat) (fun i (H : In i []) => False_ind _ H)) as H.
    simpl in H. rewrite Nat.add_0_r in H. exact H.
  - rewrite update_trackers_no_detections by auto.
    eexists. split; [reflexivity|]. cbn [tracked_people set_tracked_people].
    rewrite (Hzero _ Hreset). apply Nat.le_0_l.
Qed.

(* ----------------------------------------------------------------- *)
(** *** The store and the gallery only grow *)

Lemma db_grows_refl (d : Db) : db_grows d d.
Proof.
  unfold db_grows.
  split; [exists []; now rewrite app_nil_r|].
  split; [exists []; now rewrite app_nil_r|].
  split; [exists []; now rewrite app_nil_r|].
  split; [|auto].
  destruct (counter d); [lia | exact I].
Qed.

(** A change of the store that keeps the person identifiers and adds
    embeddings and visit records. *)
Lemma db_grows_same_ids (d d' : Db) (fs : list FaceDoc) (vs : list VisitDoc) :
  map (fun p => (p_person_id p, p_first_seen p)) (people d')
  = map (fun p => (p_person_id p, p_first_seen p)) (people d) ->
  face_data d' = face_data d ++ fs ->
  visit_records d' = visit_records d ++ vs ->
  match counter d, counter d' with
  | Some n, Some m => (n <= m)%Z
  | Some _, None => False
  | None, _ => True
  end ->
  db_grows d d'.
Proof.
  intros P Fd V C. unfold db_grows. rewrite P, Fd, V.
  split; [exists []; now rewrite app_nil_r|].
  split; [eauto|]. split; [eauto|]. split; [exact C|].
  assert (Hids : map p_person_id (people d') = map p_person_id (people d)).
  { transitivity (map fst (map (fun p => (p_person_id p, p_first_seen p))
                               (people d'))).
    - rewrite map_map. reflexivity.
    - rewrite P, map_map. reflexivity. }
  now rewrite Hids.
Qed.

Lemma db_grows_trans (d1 d2 d3 : Db) :
  db_grows d1 d2 -> db_grows d2 d3 -> db_grows d1 d3.
Proof.
  intros ((p1 & P1) & (f1 & F1) & (v1 & V1) & C1 & N1)
         ((p2 & P2) & (f2 & F2) & (v2 & V2) & C2 & N2).
  unfold db_grows. rewrite P2, P1, F2, F1, V2, V1, <- !app_assoc.
  split; [eauto|]. split; [eauto|]. split; [eauto|]. split; [|auto].
  destruct (counter d1), (counter d2), (counter d3); try tauto; lia.
Qed.

Lemma grows_refl (s : State) : grows s s.
Proof.
  unfold grows. split; [apply db_grows_refl|].
  split; exists []; now rewrite app_nil_r.
Qed.

Lemma grows_trans (s1 s2 s3 : State) : grows s1 s2 -> grows s2 s3 -> grows s1 s3.
Proof.
  intros (D1 & (k1 & K1) & (c1 & C1)) (D2 & (k2 & K2) & (c2 & C2)).
  unfold grows. rewrite K2, K1, C2, C1, <- !app_assoc.
  split; [eapply db_grows_trans; eassumption|]. split; eauto.
Qed.

(** A step that only extends the trace. *)
Lemma grows_trace (s s' : State) (calls : list Call) :
  db s' = db s -> known_embeddings s' = known_embeddings s ->
  trace s' = trace s ++ calls -> grows s s'.
Proof.
  intros D K C. unfold grows. rewrite D, K, C.
  split; [apply db_grows_refl|]. split; [exists []; now rewrite app_nil_r | eauto].
Qed.

Lemma update_one_last_seen_keeps (person_id : PersonId) (ts : Timestamp)
    (ps : list PersonDoc) :
  map (fun p => (p_person_id p, p_first_seen p)) (update_one_last_seen person_id ts ps)
  = map (fun p => (p_person_id p, p_first_seen p)) ps.
Proof.
  induction ps as [| p ps IH]; simpl; [reflexivity|].
  destruct (String.eqb (p_person_id p) person_id); simpl; [reflexivity|].
  now rewrite IH.
Qed.

Lemma growing_read {A} (f : Db -> A) : growing (fun d => Some (f d, d)).
Proof. intros d a d' H. injection H as _ <-. apply db_grows_refl. Qed.

Lemma growing_inc_counter : growing op_inc_counter.
Proof.
  intros d a d'. unfold op_inc_counter.
  destruct (counter d) as [n|] eqn:E; [|discriminate].
  intros H. injection H as _ <-.
  apply (db_grows_same_ids _ _ [] []); simpl; rewrite ?app_nil_r; auto.
  rewrite E. lia.
Qed.

Lemma existsb_person_id (person_id : PersonId) (ps : list PersonDoc) :
  existsb (fun p => String.eqb (p_person_id p) person_id) ps = false ->
  ~ In person_id (map p_person_id ps).
Proof.
  intros H Hin. apply in_map_iff in Hin. destruct Hin as (p & Hp & Hin).
  assert (Ht : existsb (fun p => String.eqb (p_person_id p) person_id) ps = true).
  { apply existsb_exists. exists p. split; [exact Hin|]. now apply String.eqb_eq. }
  congruence.
Qed.

Lemma growing_insert_person (doc : PersonDoc) : growing (op_insert_person doc).
Proof.
  intros d a d'. unfold op_insert_person.
  destruct (existsb _ (people d)) eqn:E; [discriminate|].
  intros H. injection H as _ <-. unfold db_grows. simpl.
  rewrite !map_app.
  split; [eauto|].
  split; [exists []; now rewrite app_nil_r|].
  split; [exists []; now rewrite app_nil_r|].
  split; [destruct (counter d); [lia | exact I]|].
  intros Hnd. apply NoDup_app; [exact Hnd | repeat constructor; simpl; tauto |].
  intros id Hin [<- | []]. revert Hin. apply existsb_person_id. exact E.
Qed.

Lemma growing_insert_face (doc : FaceDoc) : growing (op_insert_face doc).
Proof.
  intros d a d' H. injection H as _ <-.
  apply (db_grows_same_ids _ _ [doc] []); simpl; rewrite ?app_nil_r; auto.
  destruct (counter d); [lia | exact I].
Qed.

Lemma growing_insert_visit (doc : VisitDoc) : growing (op_insert_visit doc).
Proof.
  intros d a d' H. injection H as _ <-.
  apply (db_grows_same_ids _ _ [] [doc]); simpl; rewrite ?app_nil_r; auto.
  destruct (counter d); [lia | exact I].
Qed.

Lemma growing_update_last_seen (person_id : PersonId) (ts : Timestamp) :
  growing (op_update_last_seen person_id ts).
Proof.
  intros d a d' H. injection H as _ <-.
  apply (db_grows_same_ids _ _ [] []); simpl; rewrite ?app_nil_r; auto.
  - apply update_one_last_seen_keeps.
  - destruct (counter d); [lia | exact I].
Qed.

Lemma db_after_grows {A} (op : Db -> option (A * Db)) (s : State) :
  growing op -> db_grows (db s) (db_after op s).
Proof.
  intros Hop. unfold db_after.
  destruct (db_fails env (tick s)); [apply db_grows_refl|].
  destruct (op (db s)) as [[a d']|] eqn:E; [|apply db_grows_refl].
  eapply Hop. exact E.
Qed.

Lemma st_update_last_seen_db (person_id : PersonId) (ts : Timestamp) (s : State) :
  db_grows (db s) (db (st_update_last_seen person_id ts s)).
Proof.
  apply (db_after_grows (op_update_last_seen person_id ts)
           (logged (CUpdateLastSeen person_id ts) s)).
  apply growing_update_last_seen.
Qed.

Lemma st_save_visit_record_db (person_id : PersonId) (action : Action)
    (ts : Timestamp) (img_path : option Path) (s : State) :
  db_grows (db s) (db (st_save_visit_record person_id action ts img_path s)).
Proof.
  apply (db_after_grows (op_insert_visit (mkVisitDoc person_id action ts img_path))
           (logged (CSaveVisitRecord person_id action ts img_path) s)).
  apply growing_insert_visit.
Qed.

Lemma st_entry_db (assigned_id : PersonId) (now : Timestamp) (s : State) :
  db_grows (db s) (db (st_entry assigned_id now s)).
Proof.
  unfold st_entry. destruct (negb (dict_mem assigned_id (tracked_people s)));
    [|apply db_grows_refl].
  rewrite <- (st_save_cropped_face_db s) at 1. apply st_save_visit_record_db.
Qed.

Lemma st_store_embedding_db (assigned_id : PersonId) (emb : Embedding) (s : State) :
  db_grows (db s) (db (st_store_embedding assigned_id emb s)).
Proof.
  unfold st_store_embedding. destruct (timestamp_now s) as [ts|];
    [|apply db_grows_refl].
  assert (H : db_grows (db s)
                (db (after_pymongo (op_insert_face (mkFaceDoc assigned_id emb ts))
                                   (logged (CFaceDataInsert assigned_id emb ts) s)))).
  { apply (db_after_grows (op_insert_face (mkFaceDoc assigned_id emb ts))
             (logged (CFaceDataInsert assigned_id emb ts) s)).
    apply growing_insert_face. }
  cbv zeta. destruct (db_fails env (tick s)); exact H.
Qed.

Lemma st_retention_db (assigned_id : PersonId) (emb : Embedding)
    (is_new_person : bool) (s : State) :
  db_grows (db s) (db (st_retention assigned_id emb is_new_person s)).
Proof.
  unfold st_retention. destruct (negb is_new_person); [|apply db_grows_refl].
  destruct (retention_decision assigned_id emb s); [|apply db_grows_refl].
  apply (st_store_embedding_db assigned_id emb
           (st_should_store_embedding assigned_id emb s)).
Qed.

Lemma st_commit_db (frame : Frame) (frame_num : Z) (d : Detection)
    (emb : Embedding) (assigned_id : PersonId) (is_new_person : bool)
    (now : Timestamp) (s : State) :
  db_grows (db s)
           (db (st_commit frame frame_num d emb assigned_id is_new_person now s)).
Proof.
  unfold st_commit. cbv zeta. cbn [db set_tracked_people].
  eapply db_grows_trans; [apply (st_entry_db assigned_id now s)|].
  eapply db_grows_trans; [apply st_retention_db|].
  apply st_update_last_seen_db.
Qed.

Lemma st_get_next_person_id_db (s : State) :
  db_grows (db s) (db (st_get_next_person_id s)).
Proof.
  assert (H : db_grows (db s)
                (db (after_pymongo op_inc_counter (logged CGetNextPersonId s)))).
  { apply (db_after_grows op_inc_counter (logged CGetNextPersonId s)).
    apply growing_inc_counter. }
  unfold st_get_next_person_id. cbv zeta.
  destruct (if db_fails env (tick s) then None else counter (db s)); exact H.
Qed.

Lemma st_register_person_db (person_id : PersonId) (emb : Embedding)
    (ts : Timestamp) (s : State) :
  db_grows (db s) (db (st_register_person person_id emb ts s)).
Proof.
  set (s1 := after_pymongo (op_insert_person (mkPersonDoc person_id ts ts 1))
                           (logged (CRegisterPerson person_id emb ts) s)).
  assert (H1 : db_grows (db s) (db s1)).
  { apply (db_after_grows (op_insert_person (mkPersonDoc person_id ts ts 1))
             (logged (CRegisterPerson person_id emb ts) s)).
    apply growing_insert_person. }
  unfold st_register_person. cbv zeta. fold s1.
  destruct (db_fails env (tick s)); [exact H1|].
  destruct (existsb _ (people (db s))); [exact H1|].
  eapply db_grows_trans; [exact H1|].
  apply (db_after_grows (op_insert_face (mkFaceDoc person_id emb ts)) s1).
  apply growing_insert_face.
Qed.

Lemma st_register_new_db_grows (emb : Embedding) (s : State) :
  db_grows (db s) (db (st_register_new emb s)).
Proof.
  unfold st_register_new. cbv zeta. cbn [db set_known_embeddings].
  eapply db_grows_trans; [|apply st_register_person_db].
  apply (st_get_next_person_id_db (st_recognize_start emb s)).
Qed.

Lemma st_commit_grows (frame : Frame) (frame_num : Z) (d : Detection)
    (emb : Embedding) (assigned_id : PersonId) (is_new_person : bool)
    (now : Timestamp) (s : State) :
  timestamp_now s = Some now ->
  grows s (st_commit frame frame_num d emb assigned_id is_new_person now s).
Proof.
  intros Hnow.
  destruct (st_commit_fields frame frame_num d emb assigned_id is_new_person now s Hnow)
    as (_ & K & _ & C).
  split; [apply st_commit_db|]. split.
  - rewrite K. destruct (retention_appends _ _ _ _); eauto.
    exists []. now rewrite app_nil_r.
  - rewrite C. eauto.
Qed.

Lemma st_recognize_start_grows (emb : Embedding) (s : State) :
  grows s (st_recognize_start emb s).
Proof. apply (grows_trace _ _ [CFindBestMatch emb]); reflexivity. Qed.

Lemma st_register_new_grows (emb : Embedding) (s : State) :
  grows s (st_register_new emb s).
Proof.
  destruct (st_register_new_fields emb s) as (_ & K & _ & C).
  split; [apply st_register_new_db_grows|]. split; [rewrite K | rewrite C]; eauto.
Qed.

(* ----------------------------------------------------------------- *)
(** *** The record of presences *)

Lemma presence_after_app (person_id : PersonId) (l1 l2 : list Call) :
  forall present,
  presence_after person_id present (l1 ++ l2) =
  match presence_after person_id present l1 with
  | Some present' => presence_after person_id present' l2
  | None => None
  end.
Proof.
  induction l1 as [| c l1 IH]; intros present; simpl; [reflexivity|].
  destruct (saved_visit c) as [[q a]|]; [|apply IH].
  destruct (String.eqb q person_id); [|apply IH].
  destruct a, present; auto.
Qed.

Lemma presence_after_reads (person_id : PersonId) (present : bool)
    (calls : list Call) :
  saved_visits calls = [] -> presence_after person_id present calls = Some present.
Proof.
  unfold saved_visits. induction calls as [| c calls IH]; simpl; [reflexivity|].
  destruct (saved_visit c) as [v|]; [discriminate|]. exact IH.
Qed.

Lemma dict_mem_cons {V} (p k : PersonId) (v : V) (d : list (PersonId * V)) :
  dict_mem p ((k, v) :: d) = String.eqb p k || dict_mem p d.
Proof. unfold dict_mem. simpl. destruct (String.eqb p k); reflexivity. Qed.

Lemma dict_mem_set {V} (p k : PersonId) (v : V) (d : list (PersonId * V)) :
  dict_mem p (dict_set k v d) = String.eqb p k || dict_mem p d.
Proof.
  induction d as [| [k' v'] rest IH]; simpl.
  - rewrite dict_mem_cons. reflexivity.
  - destruct (String.eqb k k') eqn:E.
    + apply String.eqb_eq in E. subst k'. rewrite !dict_mem_cons.
      destruct (String.eqb p k); reflexivity.
    + rewrite !dict_mem_cons, IH.
      destruct (String.eqb p k), (String.eqb p k'); reflexivity.
Qed.

Lemma dict_mem_keys {V W} (p : PersonId) (d : list (PersonId * V))
    (d' : list (PersonId * W)) :
  map fst d' = map fst d -> dict_mem p d' = dict_mem p d.
Proof.
  intros H.
  destruct (dict_mem p d') eqn:E1, (dict_mem p d) eqn:E2; auto.
  - apply dict_mem_In in E1. rewrite H in E1. apply dict_mem_In in E1. congruence.
  - apply dict_mem_In in E2. rewrite <- H in E2. apply dict_mem_In in E2. congruence.
Qed.

(** A step that saves no visit record and keeps the tracked persons. *)
Lemma presence_recorded_step (s s' : State) (calls : list Call) :
  map fst (tracked_people s') = map fst (tracked_people s) ->
  trace s' = trace s ++ calls ->
  saved_visits calls = [] ->
  presence_recorded s -> presence_recorded s'.
Proof.
  intros T C V H p.
  rewrite C, presence_after_app, (H p), (presence_after_reads _ _ _ V).
  now rewrite (dict_mem_keys p _ _ T).
Qed.

Lemma retention_calls_no_visit (assigned_id : PersonId) (emb : Embedding)
    (is_new_person : bool) (now : Timestamp) (s : State) :
  saved_visits (retention_calls assigned_id emb is_new_person now s
                ++ [CUpdateLastSeen assigned_id now]) = [].
Proof.
  unfold retention_calls. destruct (negb is_new_person); [|reflexivity].
  destruct (retention_decision assigned_id emb s); reflexivity.
Qed.

Lemma st_commit_presence (frame : Frame) (frame_num : Z) (d : Detection)
    (emb : Embedding) (assigned_id : PersonId) (is_new_person : bool)
    (now : Timestamp) (s : State) :
  timestamp_now s = Some now ->
  presence_recorded s ->
  presence_recorded (st_commit frame frame_num d emb assigned_id is_new_person now s).
Proof.
  intros Hnow H p.
  destruct (st_commit_fields frame frame_num d emb assigned_id is_new_person now s Hnow)
    as (T & _ & _ & C).
  rewrite C, T, presence_after_app, (H p), presence_after_app, dict_mem_set.
  unfold entry_calls.
  destruct (dict_mem assigned_id (tracked_people s)) eqn:M; simpl.
  - rewrite presence_after_reads by apply retention_calls_no_visit.
    destruct (String.eqb p assigned_id) eqn:E; [|reflexivity].
    apply String.eqb_eq in E. subst p. now rewrite M.
  - rewrite String.eqb_sym.
    destruct (String.eqb p assigned_id) eqn:E.
    + apply String.eqb_eq in E. subst p. rewrite M.
      apply presence_after_reads, retention_calls_no_visit.
    + apply presence_after_reads, retention_calls_no_visit.
Qed.

(** Exit records of persons other than [person_id] leave the presence
    of [person_id] as it is. *)
Lemma presence_after_other_exits (person_id : PersonId) (calls : list Call) :
  forall ps present,
  map saved_visit calls = map (fun p => Some (p, Exit)) ps ->
  ~ In person_id ps ->
  presence_after person_id present calls = Some present.
Proof.
  induction calls as [| c calls IH]; intros [| q ps] present H Hnotin;
    simpl in H; try discriminate; [reflexivity|].
  injection H as Hc Hrest. simpl. rewrite Hc.
  destruct (String.eqb q person_id) eqn:E.
  - apply String.eqb_eq in E. subst q. exfalso. apply Hnotin. now left.
  - apply (IH ps); [exact Hrest|]. intros Hin. apply Hnotin. now right.
Qed.

Lemma presence_after_exits {V} (P : PersonId * V -> bool) (person_id : PersonId)
    (items : list (PersonId * V)) :
  forall calls,
  NoDup (map fst items) ->
  map saved_visit calls = map (fun p => Some (p, Exit)) (map fst (filter P items)) ->
  presence_after person_id (dict_mem person_id items) calls
  = Some (dict_mem person_id (filter (fun kv => negb (P kv)) items)).
Proof.
  induction items as [| [k v] rest IH]; intros calls Hnd H; simpl in *.
  - destruct calls; [reflexivity | discriminate].
  - inversion Hnd as [| ? ? Hnotin Hnd']; subst.
    assert (Habsent : String.eqb person_id k = true ->
                      ~ In person_id (map fst (filter P rest))).
    { intros E Hin. apply String.eqb_eq in E. subst k. apply Hnotin.
      apply in_map_iff in Hin. destruct Hin as ([k0 v0] & <- & Hin).
      apply filter_In in Hin. apply in_map_iff. exists (k0, v0). tauto. }
    assert (Hrest : String.eqb person_id k = true -> dict_mem person_id rest = false).
    { intros E. apply String.eqb_eq in E. subst k.
      destruct (dict_mem person_id rest) eqn:M; [|reflexivity].
      apply dict_mem_In in M. contradiction. }
    rewrite dict_mem_cons.
    destruct (P (k, v)) eqn:EP; simpl in *.
    + destruct calls as [| c calls]; [discriminate|].
      injection H as Hc Hcalls. simpl. rewrite Hc, (String.eqb_sym k person_id).
      destruct (String.eqb person_id k) eqn:E; simpl.
      * rewrite <- (Hrest eq_refl). apply IH; assumption.
      * apply IH; assumption.
    + rewrite dict_mem_cons.
      destruct (String.eqb person_id k) eqn:E; simpl.
      * eapply presence_after_other_exits; [exact H | auto].
      * apply IH; assumption.
Qed.

(* ----------------------------------------------------------------- *)
(** *** The steps of a run keep the invariants *)

(** The outcomes of the resolver in a state of the frame loop. *)
Lemma resolve_detection_cases (frame : Frame) (frame_num : Z) (d : Detection)
    (s : State) :
  well_formed s ->
  resolve_detection frame frame_num d s = None
  \/ resolve_detection frame frame_num d s = Some (None, s)
  \/ exists emb assigned_id is_new_person now s1,
       resolve_detection frame frame_num d s =
         Some (Some (assigned_id, is_new_person),
               st_commit frame frame_num d emb assigned_id is_new_person now s1)
       /\ extract_embedding env (crop_face frame d) = Some emb
       /\ timestamp_now s1 = Some now
       /\ ((s1 = s /\ is_new_person = false
            /\ position_match (tracked_people s) d = Some assigned_id)
           \/ (truthy (position_match (tracked_people s) d) = false
               /\ now = clock env (tick s)
               /\ ((s1 = st_recognize_start emb s /\ is_new_person = false
                    /\ exists b sec,
                         find_best_match emb (known_embeddings s)
                           = Some (Some assigned_id, b, sec)
                         /\ (b >= embedding_similarity_threshold config)%R)
                   \/ (s1 = st_register_new emb s /\ is_new_person = true
                       /\ assigned_id = new_person_id emb s
                       /\ exists best_id b sec,
                            find_best_match emb (known_embeddings s)
                              = Some (best_id, b, sec)
                            /\ Rgeb b (embedding_similarity_threshold config)
                               && truthy best_id = false)))).
Proof.
  intros Hwf.
  destruct (resolve_detection frame frame_num d s) as [[r s']|] eqn:Hrun;
    [right | now left].
  revert Hrun. unfold resolve_detection.
  destruct (Rltb (det_conf d) (detection_conf_threshold config)) eqn:Hconf;
    [intros H; injection H as <- <-; now left|].
  cbv zeta.
  destruct (crop_size (crop_face frame d) =? 0)%Z eqn:Hcrop;
    [intros H; injection H as <- <-; now left|].
  destruct (extract_embedding env (crop_face frame d)) as [emb|] eqn:Hemb;
    [|intros H; injection H as <- <-; now left].
  unfold bind at 1.
  destruct (truthy (position_match (tracked_people s) d)) eqn:Hpm.
  - destruct (truthy_nonempty _ Hpm) as (pid & Hpid & Hne).
    pose proof (position_match_tracked d _ _ Hpid) as Hmem.
    destruct Hwf as (Hnd & Hgal & Hkeys & Hts).
    destruct (timestamp_now s) as [now|] eqn:Hnow.
    + rewrite (assign_identity_position d emb s pid Hpid Hne).
      rewrite (commit_identity_run frame frame_num d emb pid false now s Hnow).
      intros H. injection H as <- <-. right.
      exists emb, pid, false, now, s. auto 10.
    + exfalso. apply Hts; [|reflexivity].
      intros Hnil. rewrite Hnil in Hmem. discriminate.
  - rewrite (assign_identity_recognize d emb s Hpm).
    destruct (find_best_match emb (known_embeddings s)) as [[[bid b] sec]|] eqn:Hf;
      [|rewrite (recognize_raises emb s Hf); discriminate].
    rewrite (recognize_run emb s bid b sec Hf).
    destruct (Rgeb b (embedding_similarity_threshold config) && truthy bid) eqn:Hc.
    + apply andb_true_iff in Hc. destruct Hc as [Hb Hbid].
      destruct (truthy_nonempty _ Hbid) as (id & -> & Hne).
      rewrite (commit_identity_run frame frame_num d emb id false
                 (clock env (tick s)) (st_recognize_start emb s) eq_refl).
      intros H. injection H as <- <-. right.
      exists emb, id, false, (clock env (tick s)), (st_recognize_start emb s).
      split; [reflexivity|]. split; [reflexivity|]. split; [reflexivity|].
      right. split; [reflexivity|]. split; [reflexivity|]. left.
      split; [reflexivity|]. split; [reflexivity|]. exists b, sec.
      split; [exact Hf|]. unfold Rgeb in Hb. apply negb_true_iff in Hb.
      apply Rltb_false in Hb. lra.
    + destruct (st_register_new_fields emb s) as (T & K & N & _).
      rewrite (commit_identity_run frame frame_num d emb _ true
                 (clock env (tick s)) (st_register_new emb s) N).
      intros H. injection H as <- <-. right.
      exists emb, (new_person_id emb s), true, (clock env (tick s)),
        (st_register_new emb s).
      split; [reflexivity|]. split; [reflexivity|]. split; [exact N|].
      right. split; [reflexivity|]. split; [reflexivity|]. right.
      split; [reflexivity|]. split; [reflexivity|]. split; [reflexivity|].
      exists bid, b, sec. auto.
Qed.

Lemma resolve_detection_step (n : nat) (frame : Frame) (frame_num : Z)
    (d : Detection) (s : State) :
  model_of_length n ->
  sound n s ->
  exists r s',
    resolve_detection frame frame_num d s = Some (r, s')
    /\ sound n s'
    /\ grows s s'
    /\ (presence_recorded s -> presence_recorded s').
Proof.
  intros Hmodel Hsound.
  destruct (resolve_detection_well_formed n frame frame_num d s Hmodel Hsound)
    as (r & s' & Hrun & Hwf').
  exists r, s'. split; [exact Hrun|]. split; [exact Hwf'|].
  destruct (resolve_detection_cases frame frame_num d s (proj1 Hsound))
    as [Hraise | [Hskip | (emb & id & is_new & now & s1 & Hres & _ & Hnow & Hcase)]].
  - rewrite Hraise in Hrun. discriminate.
  - rewrite Hskip in Hrun. injection Hrun as _ <-. split; [apply grows_refl | auto].
  - rewrite Hres in Hrun. injection Hrun as _ <-.
    assert (H1 : grows s s1
                 /\ (presence_recorded s -> presence_recorded s1)).
    { destruct Hcase as [(-> & _) | (_ & _ & [(-> & _) | (-> & _)])].
      - split; [apply grows_refl | auto].
      - split; [apply st_recognize_start_grows|].
        apply (presence_recorded_step _ _ [CFindBestMatch emb]); reflexivity.
      - destruct (st_register_new_fields emb s) as (T & _ & _ & C).
        split; [apply st_register_new_grows|].
        eapply presence_recorded_step; [now rewrite T | exact C | reflexivity]. }
    destruct H1 as [G1 P1]. split.
    + eapply grows_trans; [exact G1 | apply st_commit_grows; exact Hnow].
    + intros HP. apply st_commit_presence; auto.
Qed.

Lemma recognition_loop_step (n : nat) (frame : Frame) (frame_num : Z)
    (detections : list Detection) :
  model_of_length n ->
  forall s, sound n s ->
  exists s',
    recognition_loop frame frame_num detections s = Some (tt, s')
    /\ sound n s'
    /\ grows s s'
    /\ (presence_recorded s -> presence_recorded s').
Proof.
  intros Hmodel.
  induction detections as [| d rest IH]; intros s Hwf; simpl.
  - exists s. split; [reflexivity|]. split; [exact Hwf|].
    split; [apply grows_refl | auto].
  - destruct (resolve_detection_step n frame frame_num d s Hmodel Hwf)
      as (r & s1 & Hrun & Hwf1 & G1 & P1).
    unfold bind at 1. rewrite Hrun.
    destruct (IH s1 Hwf1) as (s2 & Hrun2 & Hwf2 & G2 & P2).
    exists s2. split; [exact Hrun2|]. split; [exact Hwf2|].
    split; [eapply grows_trans; eassumption | auto].
Qed.

(** The tracker update changes the tracks and nothing else. *)
Lemma update_trackers_only_tracks (frame_num : Z)
    (current_detections : option (list Detection)) (s : State) :
  exists s',
    update_trackers frame_num current_detections s = Some (tt, s')
    /\ db s' = db s
    /\ known_embeddings s' = known_embeddings s
    /\ timestamp_now s' = timestamp_now s
    /\ trace s' = trace s
    /\ map fst (tracked_people s') = map fst (tracked_people s).
Proof.
  assert (Hreset : map fst (map (fun kv : PersonId * Track =>
                                   (fst kv, set_bbox None (snd kv))) (tracked_people s))
                   = map fst (tracked_people s)).
  { rewrite map_map. apply map_ext. reflexivity. }
  destruct current_detections as [[| d ds]|].
  - rewrite update_trackers_no_detections by auto.
    eexists. split; [reflexivity|]. simpl. auto 10.
  - eexists. split; [reflexivity|]. simpl. rewrite assign_loop_keys. auto 10.
  - rewrite update_trackers_no_detections by auto.
    eexists. split; [reflexivity|]. simpl. auto 10.
Qed.

Lemma update_trackers_step (frame_num : Z)
    (current_detections : option (list Detection)) (s : State) :
  well_formed s ->
  exists s',
    update_trackers frame_num current_detections s = Some (tt, s')
    /\ well_formed s'
    /\ grows s s'
    /\ (presence_recorded s -> presence_recorded s').
Proof.
  intros Hwf.
  destruct (update_trackers_only_tracks frame_num current_detections s)
    as (s' & Hrun & D & K & N & C & T).
  exists s'. split; [exact Hrun|]. split.
  - eapply well_formed_same_keys; eauto.
  - split.
    + apply (grows_trace _ _ []); auto. now rewrite app_nil_r.
    + apply (presence_recorded_step _ _ []); auto. now rewrite app_nil_r.
Qed.

(** The exit check adds visit records to the store and changes nothing
    else in it. *)
Lemma exits_loop_db (F T : Z) (items : list (PersonId * Track)) :
  forall to_remove s r s',
  exits_loop F T items to_remove s = Some (r, s') ->
  people (db s') = people (db s)
  /\ face_data (db s') = face_data (db s)
  /\ counter (db s') = counter (db s)
  /\ exists l, visit_records (db s') = visit_records (db s) ++ l.
Proof.
  induction items as [| [pid pdata] rest IH]; intros to_remove s r s'; simpl.
  - intros H. injection H as _ <-. repeat split. exists []. now rewrite app_nil_r.
  - destruct (exits F T pdata); [|apply IH].
    unfold bind at 1.
    assert (Hsave : exists path s1,
               match last_crop pdata with
               | Some crop => save_cropped_face crop "exits"
               | None => ret None
               end s = Some (path, s1) /\ db s1 = db s).
    { destruct (last_crop pdata).
      - rewrite save_cropped_face_st. eexists. eexists.
        split; [reflexivity | apply st_save_cropped_face_db].
      - eexists. eexists. split; reflexivity. }
    destruct Hsave as (path & s1 & -> & D1).
    unfold bind at 1. rewrite timestamp_iso_run.
    unfold bind at 1. rewrite save_visit_record_st.
    intros H. apply IH in H. destruct H as (P & Fd & Cn & (l & V)).
    unfold st_save_visit_record, after_pymongo, db_after in *.
    cbn [db tick logged set_trace set_tick] in *.
    rewrite D1 in *.
    destruct (db_fails env (S (tick s1))); cbn [op_insert_visit] in *.
    + repeat split; auto. eauto.
    + cbn [people face_data counter visit_records set_visit_records] in *.
      repeat split; auto. rewrite V, <- app_assoc. eauto.
Qed.

Lemma handle_exits_db (F T : Z) (s s' : State) :
  handle_exits F T s = Some (tt, s') ->
  people (db s') = people (db s)
  /\ face_data (db s') = face_data (db s)
  /\ counter (db s') = counter (db s)
  /\ exists l, visit_records (db s') = visit_records (db s) ++ l.
Proof.
  unfold handle_exits. unfold bind at 1. unfold gets at 1. unfold bind at 1.
  destruct (exits_loop F T (tracked_people s) [] s) as [[r s1]|] eqn:E;
    [|discriminate].
  unfold modify. intros H. injection H as <-. simpl.
  eapply exits_loop_db. exact E.
Qed.

Lemma handle_exits_step (F T : Z) (s : State) :
  well_formed s ->
  exists s',
    handle_exits F T s = Some (tt, s')
    /\ well_formed s'
    /\ grows s s'
    /\ (presence_recorded s -> presence_recorded s').
Proof.
  intros Hwf.
  destruct (handle_exits_well_formed F T s Hwf) as (s' & Hrun & Hwf').
  exists s'. split; [exact Hrun|]. split; [exact Hwf'|].
  destruct Hwf as (Hnd & _).
  destruct (handle_exits_run F T s Hnd)
    as (s'' & calls & Hrun' & C & V & Tr & K & _ & _).
  rewrite Hrun in Hrun'. injection Hrun' as <-.
  destruct (handle_exits_db F T s s' Hrun) as (P & Fd & Cn & (l & Vr)).
  split.
  - split; [|split; [rewrite K; exists []; now rewrite app_nil_r | eauto]].
    apply (db_grows_same_ids _ _ [] l); rewrite ?app_nil_r; auto.
    + now rewrite P.
    + rewrite Cn. destruct (counter (db s)); [lia | exact I].
  - intros HP p. rewrite C, presence_after_app, (HP p), Tr.
    apply presence_after_exits; assumption.
Qed.

Lemma process_frame_step (n : nat) (frame : Frame) (detections : list Detection)
    (frame_num : Z) (s : State) :
  model_of_length n ->
  sound n s ->
  exists s',
    process_frame frame detections frame_num s = Some (tt, s')
    /\ sound n s'
    /\ grows s s'
    /\ (presence_recorded s -> presence_recorded s').
Proof.
  intros Hmodel Hwf. unfold process_frame.
  destruct (update_trackers_step frame_num (Some detections) s (proj1 Hwf))
    as (s1 & Hrun1 & _ & G1 & P1).
  destruct (update_trackers_sound n frame_num (Some detections) s Hwf)
    as (s1' & Hrun1' & Hwf1).
  rewrite Hrun1 in Hrun1'. injection Hrun1' as <-.
  unfold bind at 1. rewrite Hrun1. unfold bind at 1. unfold gets at 1.
  assert (Hrec : exists s2,
    (if (frame_num mod Z.max 1 (detection_skip_frames config) =? 0)%Z
        || match tracked_people s1 with [] => true | _ => false end
     then recognition_loop frame frame_num detections
     else ret tt) s1 = Some (tt, s2)
    /\ sound n s2 /\ grows s1 s2
    /\ (presence_recorded s1 -> presence_recorded s2)).
  { destruct (_ || _).
    - apply recognition_loop_step; assumption.
    - exists s1. split; [reflexivity|]. split; [exact Hwf1|].
      split; [apply grows_refl | auto]. }
  destruct Hrec as (s2 & Hrun2 & Hwf2 & G2 & P2).
  unfold bind at 1. rewrite Hrun2.
  destruct (handle_exits_step frame_num (exit_frame_threshold config) s2 (proj1 Hwf2))
    as (s3 & Hrun3 & _ & G3 & P3).
  destruct (handle_exits_sound n frame_num (exit_frame_threshold config) s2 Hwf2)
    as (s3' & Hrun3' & Hwf3).
  rewrite Hrun3 in Hrun3'. injection Hrun3' as <-.
  exists s3. split; [exact Hrun3|]. split; [exact Hwf3|]. split.
  - eapply grows_trans; [eapply grows_trans|]; eassumption.
  - auto.
Qed.

Lemma only_reads_step (s s' : State) (calls : list Call) :
  only_reads s s' calls ->
  grows s s' /\ (presence_recorded s -> presence_recorded s').
Proof.
  intros (T & K & N & D & C & V). split.
  - eapply grows_trace; eassumption.
  - eapply presence_recorded_step; eauto. now rewrite T.
Qed.

Lemma frames_loop_step (n : nat) (frames : list (Frame * list Detection))
    (max_frames : option Z) :
  model_of_length n ->
  forall frame_num total s, sound n s ->
  exists r s',
    frames_loop frames max_frames frame_num total s = Some (r, s')
    /\ sound n s'
    /\ grows s s'
    /\ (presence_recorded s -> presence_recorded s').
Proof.
  intros Hmodel.
  induction frames as [| [frame detections] rest IH]; intros frame_num total s Hwf;
    simpl.
  - eexists. exists s. split; [reflexivity|]. split; [exact Hwf|].
    split; [apply grows_refl | auto].
  - destruct (process_frame_step n frame detections (frame_num + 1) s Hmodel Hwf)
      as (s1 & Hrun & Hwf1 & G1 & P1).
    unfold bind at 1. rewrite Hrun.
    match goal with
    | |- context [(draw_on_frame ;; should_quit <- _ ;; @?k should_quit) s1] =>
        destruct (display_step (frame_num + 1) k s1) as (q & s2 & calls & R & ->)
    end.
    pose proof (only_reads_sound n s1 s2 calls R Hwf1) as Hwf2.
    destruct (only_reads_step s1 s2 calls R) as [G2 P2].
    assert (Hstop : forall r : Z * Z,
      exists r' s', Some (r, s2) = Some (r', s')
                    /\ sound n s' /\ grows s s'
                    /\ (presence_recorded s -> presence_recorded s')).
    { intros r. exists r, s2. split; [reflexivity|]. split; [exact Hwf2|].
      split; [eapply grows_trans; eassumption | auto]. }
    assert (Hnext :
      exists r' s',
        frames_loop rest max_frames (frame_num + 1)
                    (total + Z.of_nat (List.length detections)) s2 = Some (r', s')
        /\ sound n s' /\ grows s s'
        /\ (presence_recorded s -> presence_recorded s')).
    { destruct (IH (frame_num + 1)%Z (total + Z.of_nat (List.length detections))%Z
                   s2 Hwf2) as (r' & s3 & Hrun3 & Hwf3 & G3 & P3).
      exists r', s3. split; [exact Hrun3|]. split; [exact Hwf3|]. split; [|auto].
      eapply grows_trans; [eapply grows_trans|]; eassumption. }
    destruct q; [apply Hstop|].
    destruct max_frames as [m|]; [|exact Hnext].
    destruct (negb (m =? 0)%Z && (frame_num + 1 >=? m)%Z); [apply Hstop | exact Hnext].
Qed.

(* ----------------------------------------------------------------- *)
(** *** A whole run *)

Lemma init_counter_step (s : State) :
  exists s',
    init_counter s = Some (tt, s')
    /\ tracked_people s' = tracked_people s
    /\ known_embeddings s' = known_embeddings s
    /\ trace s' = trace s
    /\ face_data (db s') = face_data (db s)
    /\ db_grows (db s) (db s').
Proof.
  unfold init_counter. unfold bind at 1. rewrite pymongo_run.
  destruct (db_fails env (tick s)) eqn:E; cbn [option_map fst].
  - eexists. split; [reflexivity|]. unfold db_after. rewrite E. cbn.
    repeat (split; [reflexivity|]). apply db_grows_refl.
  - destruct (counter (db s)) eqn:Ec.
    + eexists. split; [reflexivity|]. unfold db_after. rewrite E. cbn.
      repeat (split; [reflexivity|]). apply db_grows_refl.
    + unfold bind at 1. rewrite pymongo_run.
      eexists. split; [reflexivity|]. unfold db_after. cbn. rewrite E.
      destruct (db_fails env (S (tick s))); cbn;
        repeat (split; [reflexivity|]); [apply db_grows_refl|].
      apply (db_grows_same_ids _ _ [] []); cbn; rewrite ?app_nil_r; auto.
      now rewrite Ec.
Qed.

Lemma get_all_face_data_step (s : State) :
  exists known s',
    get_all_face_data s = Some (known, s')
    /\ (known = []
        \/ known = map (fun f => (f_person_id f, f_face_vector f)) (face_data (db s)))
    /\ tracked_people s' = tracked_people s
    /\ trace s' = trace s ++ [CGetAllFaceData]
    /\ db s' = db s.
Proof.
  unfold get_all_face_data. unfold bind at 1. rewrite log_run.
  unfold bind at 1. rewrite pymongo_run. rewrite db_after_read.
  destruct (db_fails env (tick (logged CGetAllFaceData s))); cbn [option_map fst];
    eexists; eexists; (split; [reflexivity|]); cbn; auto.
Qed.

(** A run of [process_video] with the store connected and embeddings
    of one length, with what holds of its final state. *)
Lemma process_video_run (n : nat) (frames : list (Frame * list Detection))
    (max_frames : option Z) (d : Db) :
  db_fails env 0 = false ->
  model_of_length n ->
  store_of_length n d ->
  exists results s' loaded added,
    process_video frames max_frames (initial_state d) = Some (results, s')
    /\ sound n s'
    /\ presence_recorded s'
    /\ db_grows d (db s')
    /\ known_embeddings s' = loaded ++ added
    /\ (loaded = []
        \/ loaded = map (fun f => (f_person_id f, f_face_vector f)) (face_data d)).
Proof.
  intros Hconn Hmodel Hstore. unfold process_video.
  unfold bind at 1. rewrite init_mongodb_run.
  change (tick (initial_state d)) with 0%nat. rewrite Hconn.
  set (s0 := set_tick 1 (initial_state d)).
  destruct (init_counter_step s0) as (s1 & Hrun1 & T1 & K1 & C1 & F1 & D1).
  unfold bind at 1. rewrite Hrun1.
  destruct (get_all_face_data_step s1) as (known & s2 & Hrun2 & Hknown & T2 & C2 & D2).
  unfold bind at 1. rewrite Hrun2.
  unfold bind at 1. unfold modify at 1.
  set (s3 := set_known_embeddings known s2).
  assert (T3 : tracked_people s3 = []) by (simpl; rewrite T2, T1; reflexivity).
  assert (Hwf : sound n s3).
  { split; [apply well_formed_nobody; exact T3|]. simpl.
    destruct Hknown as [-> | ->]; [constructor|].
    unfold gallery_of_length. apply Forall_map. simpl. rewrite F1. exact Hstore. }
  assert (HP : presence_recorded s3).
  { intros p. rewrite T3. simpl. rewrite C2, C1. reflexivity. }
  destruct (frames_loop_step n frames max_frames Hmodel 0 0 s3 Hwf)
    as ([frame_num total] & s4 & Hrun4 & Hwf4 & G4 & P4).
  unfold bind at 1. rewrite Hrun4.
  destruct (handle_exits_step frame_num 0 s4 (proj1 Hwf4))
    as (s5 & Hrun5 & _ & G5 & P5).
  destruct (handle_exits_sound n frame_num 0 s4 Hwf4) as (s5' & Hrun5' & Hwf5).
  rewrite Hrun5 in Hrun5'. injection Hrun5' as <-.
  unfold bind at 1. rewrite Hrun5.
  destruct (get_unique_visitor_count_reads s5) as (u & s6 & Hrun6 & R6).
  unfold bind at 1. rewrite Hrun6.
  destruct (only_reads_step s5 s6 _ R6) as [G6 P6].
  destruct (grows_trans _ _ _ (grows_trans _ _ _ G4 G5) G6) as (Dg & (added & Kg) & _).
  eexists. exists s6, known, added.
  split; [reflexivity|].
  split; [eapply only_reads_sound; eassumption|].
  split; [auto|].
  split; [|split].
  - eapply db_grows_trans; [exact D1|]. rewrite <- D2. exact Dg.
  - exact Kg.
  - simpl in F1. rewrite <- F1. exact Hknown.
Qed.

(** X8. A run of [process_video] on an opened source, when the
    embeddings in the store and those of the embedding model all have
    one length.  When the connection to the store fails, the run ends
    with the exception that [_init_mongodb] raises again.  When it is
    established, the run returns its summary, whatever the stream and
    the detector deliver and whichever later calls of the store fail:
    no exception is left uncaught; in particular the local variable
    [timestamp_now], which only the recognition branch binds, is bound
    whenever a position match reads it.  When the run returns, the
    tracked persons are distinct and each of them has an embedding in
    the in-memory gallery. *)
Theorem process_video_returns_iff_connected (n : nat)
    (frames : list (Frame * list Detection)) (max_frames : option Z) (d : Db) :
  model_of_length n ->
  store_of_length n d ->
  (db_fails env 0 = true ->
   process_video frames max_frames (initial_state d) = None)
  /\ (db_fails env 0 = false ->
      exists results s',
        process_video frames max_frames (initial_state d) = Some (results, s')
        /\ NoDup (map fst (tracked_people s'))
        /\ forall person_id,
             In person_id (map fst (tracked_people s')) ->
             In person_id (map fst (known_embeddings s'))).
Proof.
  intros Hmodel Hstore. split.
  - apply process_video_raises_unconnected.
  - intros Hconn.
    destruct (process_video_run n frames max_frames d Hconn Hmodel Hstore)
      as (results & s' & _ & _ & Hrun & ((Hnd & Hgal & _) & _) & _).
    exists results, s'. split; [exact Hrun|]. split; [exact Hnd|].
    intros p Hin. apply Hgal, dict_mem_In, Hin.
Qed.

(** X9. Over a whole run with the store connected and embeddings of one
    length, the calls of [save_visit_record] that [process_video] makes
    (the records it asks the store to save, whether or not the store
    accepts them) alternate for every person, starting with an entry:
    no person gets two entry calls without an exit call in between, and
    nobody gets an exit call without being present.  When the run
    returns, the persons whose last call is an entry are exactly the
    persons still tracked. *)
Theorem process_video_entries_and_exits_alternate (n : nat)
    (frames : list (Frame * list Detection)) (max_frames : option Z) (d : Db) :
  db_fails env 0 = false ->
  model_of_length n ->
  store_of_length n d ->
  exists results s',
    process_video frames max_frames (initial_state d) = Some (results, s')
    /\ forall person_id,
         presence_after person_id false (trace s')
         = Some (dict_mem person_id (tracked_people s')).
Proof.
  intros Hconn Hmodel Hstore.
  destruct (process_video_run n frames max_frames d Hconn Hmodel Hstore)
    as (results & s' & _ & _ & Hrun & _ & HP & _).
  exists results, s'. split; [exact Hrun | exact HP].
Qed.

(** X10. A run of [process_video], with the store connected and
    embeddings of one length, returns and has removed nothing from the
    store: the person documents it found are still there, in order and
    with their first-seen times, possibly followed by new persons; the
    embeddings and the visit records it found are still there,
    unchanged and in order, possibly followed by new ones; a person
    counter that was present is still present and has not decreased.
    If no two person documents had the same identifier before the run,
    none have after it. *)
Theorem process_video_store_only_grows (n : nat)
    (frames : list (Frame * list Detection)) (max_frames : option Z) (d : Db) :
  db_fails env 0 = false ->
  model_of_length n ->
  store_of_length n d ->
  exists results s' new_people new_faces new_visits,
    process_video frames max_frames (initial_state d) = Some (results, s')
    /\ map (fun p => (p_person_id p, p_first_seen p)) (people (db s'))
       = map (fun p => (p_person_id p, p_first_seen p)) (people d) ++ new_people
    /\ face_data (db s') = face_data d ++ new_faces
    /\ visit_records (db s') = visit_records d ++ new_visits
    /\ (forall c, counter d = Some c ->
          exists m, counter (db s') = Some m /\ (c <= m)%Z)
    /\ (NoDup (map p_person_id (people d)) ->
        NoDup (map p_person_id (people (db s')))).
Proof.
  intros Hconn Hmodel Hstore.
  destruct (process_video_run n frames max_frames d Hconn Hmodel Hstore)
    as (results & s' & _ & _ & Hrun & _ & _ & Hdb & _).
  destruct Hdb as ((ps & P) & (fs & Fd) & (vs & V) & C & N).
  exists results, s', ps, fs, vs.
  split; [exact Hrun|]. split; [exact P|]. split; [exact Fd|].
  split; [exact V|]. split; [|exact N].
  intros c Hc. rewrite Hc in C.
  destruct (counter (db s')) as [m|]; [|contradiction]. eauto.
Qed.

(** X11. The in-memory gallery of a run is append-only.  With the store
    connected and embeddings of one length, [process_video] returns,
    and the gallery is then what was loaded from the store at the
    start, that is every stored embedding in store order, or nothing
    when the load raised, followed by the embeddings added during the
    run; all of them have that one length. *)
Theorem process_video_gallery_extends_loaded (n : nat)
    (frames : list (Frame * list Detection)) (max_frames : option Z) (d : Db) :
  db_fails env 0 = false ->
  model_of_length n ->
  store_of_length n d ->
  exists results s' loaded added,
    process_video frames max_frames (initial_state d) = Some (results, s')
    /\ known_embeddings s' = loaded ++ added
    /\ (loaded = []
        \/ loaded = map (fun f => (f_person_id f, f_face_vector f)) (face_data d))
    /\ gallery_of_length n (known_embeddings s').
Proof.
  intros Hconn Hmodel Hstore.
  destruct (process_video_run n frames max_frames d Hconn Hmodel Hstore)
    as (results & s' & loaded & added & Hrun & [_ Hlen] & _ & _ & K & L).
  exists results, s', loaded, added. auto.
Qed.

(* ----------------------------------------------------------------- *)
(** *** The frames that a run reads *)

(** The display of a frame, with the answer of the quit key. *)
Lemma display_step_quit {A} (frame_num : Z) (k : bool -> M A) (s : State) :
  exists s' calls,
    only_reads s s' calls
    /\ (draw_on_frame ;;
        should_quit <- (if visualize config then visualizer_visualize frame_num
                        else ret false) ;;
        k should_quit) s
       = k (visualize config && quit_requested env frame_num) s'.
Proof.
  destruct (draw_on_frame_reads s) as (s1 & c1 & Hrun1 & R1).
  unfold bind at 1. rewrite Hrun1. unfold bind at 1.
  unfold visualizer_visualize.
  destruct (visualize config); cbn [negb andb].
  - destruct (draw_on_frame_reads s1) as (s2 & c2 & Hrun2 & R2).
    unfold bind at 1. rewrite Hrun2. exists s2. eexists.
    split; [eapply only_reads_trans; eassumption | reflexivity].
  - exists s1, c1. split; [exact R1 | reflexivity].
Qed.

Lemma frames_loop_counts (n : nat) (max_frames : option Z)
    (frames : list (Frame * list Detection)) :
  model_of_length n ->
  (forall f, visualize config && quit_requested env f = false) ->
  forall frame_num total s, sound n s ->
  exists s',
    let k := frames_read max_frames frame_num (List.length frames) in
    frames_loop frames max_frames frame_num total s
    = Some ((frame_num + Z.of_nat k,
             total + count_detections (firstn k frames))%Z, s')
    /\ sound n s'.
Proof.
  intros Hmodel Hquit.
  assert (Hpair : forall (a b a' b' : Z) (s0 : State),
            a = a' -> b = b' -> Some ((a, b), s0) = Some ((a', b'), s0))
    by (intros; subst; reflexivity).
  induction frames as [| [frame detections] rest IH]; intros frame_num total s Hwf.
  - exists s. cbv zeta.
    assert (Hk : frames_read max_frames frame_num (List.length (@nil (Frame * list Detection))) = 0%nat).
    { unfold frames_read. destruct max_frames as [m|]; [|reflexivity].
      destruct (m =? 0)%Z; reflexivity. }
    rewrite Hk. unfold count_detections. simpl. split; [|exact Hwf].
    unfold ret. apply Hpair; lia.
  - destruct (process_frame_well_formed n frame detections (frame_num + 1) s
                Hmodel Hwf) as (s1 & Hrun & Hwf1).
    cbn [frames_loop]. cbv zeta. unfold bind at 1. rewrite Hrun.
    match goal with
    | |- context [(draw_on_frame ;; should_quit <- _ ;; @?k should_quit) s1] =>
        destruct (display_step_quit (frame_num + 1) k s1) as (s2 & calls & R & ->)
    end.
    rewrite Hquit.
    pose proof (only_reads_sound n s1 s2 calls R Hwf1) as Hwf2.
    destruct (IH (frame_num + 1)%Z
                 (total + Z.of_nat (List.length detections))%Z s2 Hwf2)
      as (s3 & Hrun3 & Hwf3).
    cbv zeta in Hrun3.
    assert (Hall : frames_read max_frames (frame_num + 1) (List.length rest)
                   = List.length rest ->
                   frames_read max_frames frame_num
                               (List.length ((frame, detections) :: rest))
                   = S (List.length rest) ->
                   exists s',
                     frames_loop rest max_frames (frame_num + 1)
                       (total + Z.of_nat (List.length detections)) s2
                     = Some ((frame_num
                              + Z.of_nat (frames_read max_frames frame_num
                                  (List.length ((frame, detections) :: rest))),
                              total
                              + count_detections
                                  (firstn (frames_read max_frames frame_num
                                     (List.length ((frame, detections) :: rest)))
                                     ((frame, detections) :: rest)))%Z, s')
                     /\ sound n s').
    { intros E1 E2. exists s3. split; [|exact Hwf3].
      rewrite Hrun3, E1, E2. cbn [firstn]. unfold count_detections.
      cbn [map fold_right snd]. apply Hpair; lia. }
    destruct max_frames as [m|]; [|apply Hall; reflexivity].
    destruct (m =? 0)%Z eqn:Em; cbn [negb andb].
    { apply Hall; unfold frames_read; rewrite Em; reflexivity. }
    destruct (frame_num + 1 >=? m)%Z eqn:Ege.
    + (* the loop stops after this frame *)
      exists s2. split; [|exact Hwf2].
      assert (Hk : frames_read (Some m) frame_num
                     (List.length ((frame, detections) :: rest)) = 1%nat).
      { unfold frames_read. rewrite Em. cbn [List.length].
        apply Z.geb_le in Ege.
        replace (Z.max 1 (m - frame_num)) with 1%Z by lia. lia. }
      rewrite Hk. cbn [firstn]. unfold count_detections, ret.
      cbn [map fold_right snd]. apply Hpair; lia.
    + (* the loop goes on *)
      exists s3. split; [|exact Hwf3]. rewrite Hrun3.
      assert (Ege' : (frame_num + 1 < m)%Z).
      { destruct (Z.geb_spec (frame_num + 1) m); [discriminate | lia]. }
      assert (Hk : frames_read (Some m) frame_num
                     (List.length ((frame, detections) :: rest))
                   = S (frames_read (Some m) (frame_num + 1) (List.length rest))).
      { unfold frames_read. rewrite Em. cbn [List.length]. lia. }
      rewrite Hk. cbn [firstn]. unfold count_detections.
      cbn [map fold_right snd]. apply Hpair; lia.
Qed.

(** X12. The frames that a run reads when nobody presses the quit
    key, the store is connected and the embeddings have one length.
    Without [max_frames], and also with [max_frames = 0], the loop reads
    the whole stream.  With a [max_frames] other than 0 it stops after
    frame [max_frames], but never before the first frame: a negative
    [max_frames] stops the run after one frame.  The summary counts the
    frames read, and the detections of exactly those frames, whether or
    not they were resolved. *)
Theorem process_video_counts_frames_read (n : nat)
    (frames : list (Frame * list Detection)) (max_frames : option Z) (d : Db) :
  db_fails env 0 = false ->
  model_of_length n ->
  store_of_length n d ->
  (forall f, visualize config && quit_requested env f = false) ->
  exists results s',
    process_video frames max_frames (initial_state d) = Some (results, s')
    /\ let len := List.length frames in
       let k := match max_frames with
                | Some m => if (m =? 0)%Z then len
                            else Nat.min len (Z.to_nat (Z.max 1 m))
                | None => len
                end in
       processed_frames results = Z.of_nat k
       /\ total_detections results = count_detections (firstn k frames).
Proof.
  intros Hconn Hmodel Hstore Hquit. unfold process_video.
  unfold bind at 1. rewrite init_mongodb_run.
  change (tick (initial_state d)) with 0%nat. rewrite Hconn.
  set (s0 := set_tick 1 (initial_state d)).
  destruct (init_counter_step s0) as (s1 & Hrun1 & T1 & _ & _ & F1 & _).
  unfold bind at 1. rewrite Hrun1.
  destruct (get_all_face_data_step s1) as (known & s2 & Hrun2 & Hknown & T2 & _).
  unfold bind at 1. rewrite Hrun2.
  unfold bind at 1. unfold modify at 1.
  assert (Hwf : sound n (set_known_embeddings known s2)).
  { split; [apply well_formed_nobody; simpl; rewrite T2, T1; reflexivity|]. simpl.
    destruct Hknown as [-> | ->]; [constructor|].
    unfold gallery_of_length. apply Forall_map. simpl. rewrite F1. exact Hstore. }
  destruct (frames_loop_counts n max_frames frames Hmodel Hquit 0 0 _ Hwf)
    as (s4 & Hrun4 & Hwf4).
  cbv zeta in Hrun4. unfold bind at 1. rewrite Hrun4.
  destruct (handle_exits_well_formed
              (0 + Z.of_nat (frames_read max_frames 0 (List.length frames))) 0 s4
              (proj1 Hwf4))
    as (s5 & Hrun5 & _).
  unfold bind at 1. rewrite Hrun5.
  destruct (get_unique_visitor_count_reads s5) as (u & s6 & Hrun6 & _).
  unfold bind at 1. rewrite Hrun6.
  eexists. exists s6. split; [reflexivity|]. cbv zeta. cbn [processed_frames total_detections].
  assert (Hk : frames_read max_frames 0 (List.length frames)
               = match max_frames with
                 | Some m => if (m =? 0)%Z then List.length frames
                             else Nat.min (List.length frames) (Z.to_nat (Z.max 1 m))
                 | None => List.length frames
                 end).
  { unfold frames_read. destruct max_frames as [m|]; [|reflexivity].
    now rewrite Z.sub_0_r. }
  rewrite <- Hk. split; lia.
Qed.

(* ----------------------------------------------------------------- *)
(** *** A frame between two samples *)

(** X13. On a frame that is not on the sampling cadence, while somebody
    is tracked, no detection is resolved: the gallery, the persons and
    the embeddings of the store stay as they are, nobody becomes
    tracked, and the only calls on the store are the exit records of
    the persons that the exit check removes. *)
Theorem frame_between_samples_resolves_nobody (frame : Frame)
    (detections : list Detection) (frame_num : Z) (s : State) :
  NoDup (map fst (tracked_people s)) ->
  tracked_people s <> [] ->
  (frame_num mod Z.max 1 (detection_skip_frames config) <> 0)%Z ->
  exists s' calls,
    process_frame frame detections frame_num s = Some (tt, s')
    /\ known_embeddings s' = known_embeddings s
    /\ people (db s') = people (db s)
    /\ face_data (db s') = face_data (db s)
    /\ trace s' = trace s ++ calls
    /\ Forall (fun c => exists p, saved_visit c = Some (p, Exit)) calls
    /\ incl (map fst (tracked_people s')) (map fst (tracked_people s)).
Proof.
  intros Hnd Hne Hmod. unfold process_frame.
  destruct (update_trackers_only_tracks frame_num (Some detections) s)
    as (s1 & Hrun1 & D1 & K1 & N1 & C1 & T1).
  unfold bind at 1. rewrite Hrun1. unfold bind at 1. unfold gets at 1.
  apply Z.eqb_neq in Hmod. rewrite Hmod.
  assert (Hsome : match tracked_people s1 with [] => true | _ :: _ => false end = false).
  { destruct (tracked_people s1); [|reflexivity].
    destruct (tracked_people s); [contradiction | discriminate]. }
  rewrite Hsome. cbn [orb]. unfold bind at 1. unfold ret at 1.
  assert (Hnd1 : NoDup (map fst (tracked_people s1))) by (rewrite T1; exact Hnd).
  destruct (handle_exits_run frame_num (exit_frame_threshold config) s1 Hnd1)
    as (s' & calls & Hrun & C & V & Tr & K & _ & _).
  destruct (handle_exits_db _ _ _ _ Hrun) as (P & Fd & _).
  exists s', calls. split; [exact Hrun|].
  split; [congruence|]. split; [congruence|]. split; [congruence|].
  split; [congruence|]. split; [eapply all_exit_records; exact V|].
  rewrite <- T1, Tr. intros p Hin. apply in_map_iff in Hin.
  destruct Hin as (kv & <- & Hin). apply filter_In in Hin.
  apply in_map. tauto.
Qed.

(* ----------------------------------------------------------------- *)
(** *** Re-identification of a known person *)

(** X14. A detection that passes the gates of the resolver, matches no
    tracked person by position and has a best match in the gallery with
    a similarity that reaches the similarity threshold, is resolved to
    the identifier of that best match, not as a new person.  No
    identifier is minted and nobody is registered: the calls on the
    store are the best-match query, an entry record exactly when the
    person is not tracked at that moment, the retention decision with
    the insert it may ask for, and the last-seen update.  Afterwards
    the person is tracked at the box of the detection. *)
Theorem known_person_is_reidentified (frame : Frame) (frame_num : Z)
    (d : Detection) (emb : Embedding) (s : State) (best_id : PersonId)
    (best_sim second_best_sim : R) :
  (det_conf d >= detection_conf_threshold config)%R ->
  crop_size (crop_face frame d) <> 0%Z ->
  extract_embedding env (crop_face frame d) = Some emb ->
  position_match (tracked_people s) d = None ->
  find_best_match emb (known_embeddings s)
    = Some (Some best_id, best_sim, second_best_sim) ->
  best_id <> EmptyString ->
  (best_sim >= embedding_similarity_threshold config)%R ->
  exists (s' : State) (path : option Path) (retain : bool),
    let now := clock env (tick s) in
    resolve_detection frame frame_num d s = Some (Some (best_id, false), s')
    /\ trace s' =
       trace s
       ++ [CFindBestMatch emb]
       ++ (if dict_mem best_id (tracked_people s) then []
           else [CSaveVisitRecord best_id Entry now path])
       ++ [CShouldStoreEmbedding best_id emb]
       ++ (if retain then [CFaceDataInsert best_id emb now] else [])
       ++ [CUpdateLastSeen best_id now]
    /\ dict_get best_id (tracked_people s')
       = Some (fresh_track frame frame_num d now)
    /\ (forall p, p <> best_id ->
          dict_get p (tracked_people s') = dict_get p (tracked_people s)).
Proof.
  intros Hconf Hcrop Hemb Hpm Hfind Hne Hsim. cbv zeta.
  set (now := clock env (tick s)).
  set (s1 := st_recognize_start emb s).
  assert (Hrun : resolve_detection frame frame_num d s =
                 Some (Some (best_id, false),
                       st_commit frame frame_num d emb best_id false now s1)).
  { rewrite (resolve_qualifying frame frame_num d emb s Hconf Hcrop Hemb).
    unfold bind at 1.
    rewrite assign_identity_recognize by (rewrite Hpm; reflexivity).
    rewrite (recognize_run emb s _ _ _ Hfind).
    replace (Rgeb best_sim (embedding_similarity_threshold config)) with true
      by (symmetry; unfold Rgeb; apply negb_true_iff, Rltb_false; lra).
    cbn [andb truthy].
    apply String.eqb_neq in Hne. rewrite Hne. cbn [negb].
    apply commit_identity_run. reflexivity. }
  destruct (st_commit_fields frame frame_num d emb best_id false now s1 eq_refl)
    as (T & _ & _ & C).
  exists (st_commit frame frame_num d emb best_id false now s1),
    (saved_path "entries" s1),
    (retention_decision best_id emb (st_entry best_id now s1)).
  split; [exact Hrun|]. split; [|split].
  - rewrite C. unfold entry_calls, retention_calls. cbn [negb].
    change (tracked_people s1) with (tracked_people s).
    change (trace s1) with (trace s ++ [CFindBestMatch emb]).
    destruct (dict_mem best_id (tracked_people s)); cbn [negb];
      rewrite <- !app_assoc; reflexivity.
  - rewrite T. apply dict_get_set_same.
  - intros p Hp. rewrite T. now apply dict_get_set_other.
Qed.

(* ----------------------------------------------------------------- *)
(** *** The exit check, repeated *)

(** X15. After the exit check, no tracked person is overdue: every
    remaining person satisfies [F - last_seen_frame <= T].  A second
    exit check with the same frame number and threshold therefore does
    nothing: it saves no record and removes nobody. *)
Theorem handle_exits_twice_is_once (F T : Z) (s : State) :
  NoDup (map fst (tracked_people s)) ->
  exists s',
    handle_exits F T s = Some (tt, s')
    /\ Forall (fun kv => (F - last_seen_frame (snd kv) <= T)%Z) (tracked_people s')
    /\ handle_exits F T s' = Some (tt, s').
Proof.
  intros Hnd.
  destruct (handle_exits_run F T s Hnd) as (s' & calls & Hrun & _ & _ & Tr & _).
  exists s'. split; [exact Hrun|].
  assert (Hrecent : Forall (fun kv => (F - last_seen_frame (snd kv) <= T)%Z)
                           (tracked_people s')).
  { rewrite Tr. apply Forall_forall. intros kv Hin. apply filter_In in Hin.
    destruct Hin as [_ Hkeep]. unfold exits in Hkeep.
    apply negb_true_iff in Hkeep. rewrite Z.gtb_ltb in Hkeep.
    apply Z.ltb_ge in Hkeep. exact Hkeep. }
  split; [exact Hrecent | apply handle_exits_keeps_recent; exact Hrecent].
Qed.

(* ----------------------------------------------------------------- *)
(** *** Person identifiers *)

Lemma string_of_Z_inj (n m : Z) : string_of_Z n = string_of_Z m -> n = m.
Proof.
  unfold string_of_Z. intros H. apply DecimalZ.to_int_inj.
  assert (Hnn : forall z, Z.to_int z <> Decimal.Pos Decimal.Nil
                          /\ Z.to_int z <> Decimal.Neg Decimal.Nil).
  { intros [| p | p]; simpl; split; try discriminate; intros E; injection E as E;
      revert E; apply DecimalPos.Unsigned.to_uint_nonnil. }
  destruct (Hnn n) as [A B]. destruct (Hnn m) as [C D].
  pose proof (NilZero.isi _ A B) as E1. pose proof (NilZero.isi _ C D) as E2.
  rewrite H in E1. rewrite E1 in E2. now injection E2.
Qed.

Lemma string_of_Z_not_underscore (n : Z) (u : string) :
  string_of_Z n <> String "_"%char u.
Proof.
  unfold string_of_Z. destruct (Z.to_int n) as [d | d]; [|discriminate].
  destruct d; discriminate.
Qed.

(** X16. An identifier minted from the person counter is never minted
    again.  When the counter update succeeds on a counter at [n], the
    identifier is ["person"] followed by [n + 1] and the counter is at
    [n + 1].  In every later state of the store, the next identifier is
    different: it is built from a higher number or, when the counter
    update fails, it is a fallback identifier, which starts with
    ["person_"]. *)
Theorem get_next_person_id_never_repeats (s : State) (n : Z) :
  counter (db s) = Some n ->
  db_fails env (tick s) = false ->
  exists s1,
    get_next_person_id s = Some (("person" ++ string_of_Z (n + 1))%string, s1)
    /\ counter (db s1) = Some (n + 1)%Z
    /\ forall s2 id2 s3,
         db_grows (db s1) (db s2) ->
         get_next_person_id s2 = Some (id2, s3) ->
         id2 <> ("person" ++ string_of_Z (n + 1))%string.
Proof.
  intros Hn Hok. exists (st_get_next_person_id s).
  assert (Hc : counter (db (st_get_next_person_id s)) = Some (n + 1)%Z).
  { unfold st_get_next_person_id, after_pymongo, db_after. cbn. rewrite Hok, Hn.
    cbn. unfold op_inc_counter. rewrite Hn. reflexivity. }
  split; [|split; [exact Hc|]].
  - rewrite get_next_person_id_st. unfold next_person_id. rewrite Hok, Hn. reflexivity.
  - intros s2 id2 s3 (_ & _ & _ & Hcount & _) Hrun.
    rewrite get_next_person_id_st in Hrun. injection Hrun as <- _.
    rewrite Hc in Hcount. unfold next_person_id.
    destruct (db_fails env (tick s2)).
    + intros E. cbn in E. injection E as E.
      symmetry in E. revert E. apply string_of_Z_not_underscore.
    + destruct (counter (db s2)) as [m|]; [|contradiction].
      intros E. cbn in E. injection E as E. apply string_of_Z_inj in E. lia.
Qed.

(** X17. The initialisation of the person counter never resets it.  It
    always returns and leaves persons, embeddings and visit records
    alone.  On a store that has a counter the store is unchanged,
    whether the calls succeed or fail.  On a store without a counter,
    the counter is created at 0 when the lookup and the insert both
    succeed, and is still missing otherwise. *)
Theorem init_counter_never_resets_counter (s : State) :
  exists s',
    init_counter s = Some (tt, s')
    /\ people (db s') = people (db s)
    /\ face_data (db s') = face_data (db s)
    /\ visit_records (db s') = visit_records (db s)
    /\ (forall n, counter (db s) = Some n -> db s' = db s)
    /\ (counter (db s) = None ->
        counter (db s') =
        if db_fails env (tick s) || db_fails env (S (tick s)) then None
        else Some 0%Z).
Proof.
  unfold init_counter. unfold bind at 1. rewrite pymongo_run.
  destruct (db_fails env (tick s)) eqn:E; cbn [option_map fst].
  - eexists. split; [reflexivity|]. unfold db_after. rewrite E. cbn. auto 10.
  - destruct (counter (db s)) as [n|] eqn:Ec.
    + eexists. split; [reflexivity|]. unfold db_after. rewrite E. cbn.
      do 3 (split; [reflexivity|]). split; [auto | discriminate].
    + unfold bind at 1. rewrite pymongo_run.
      eexists. split; [reflexivity|]. unfold db_after. cbn. rewrite E.
      destruct (db_fails env (S (tick s))); cbn;
        do 3 (split; [reflexivity|]); (split; [discriminate | auto]).
Qed.

(** X18. Registering an identifier that the store already knows changes
    nothing in the store: the unique index on [person_id] rejects the
    person document, the exception is swallowed, and the embedding is
    not inserted either. *)
Theorem register_person_known_id_changes_nothing (person_id : PersonId)
    (embedding_vector : Embedding) (timestamp : Timestamp) (s : State) :
  In person_id (map p_person_id (people (db s))) ->
  exists s',
    register_person person_id embedding_vector timestamp s = Some (tt, s')
    /\ db s' = db s
    /\ known_embeddings s' = known_embeddings s.
Proof.
  intros Hin. rewrite register_person_st. eexists. split; [reflexivity|].
  split; [|now destruct (st_register_person_fields person_id embedding_vector
                           timestamp s) as (_ & K & _)].
  assert (Hdup : existsb (fun p => String.eqb (p_person_id p) person_id)
                         (people (db s)) = true).
  { apply in_map_iff in Hin. destruct Hin as (p & Hp & Hin).
    apply existsb_exists. exists p. split; [exact Hin | now apply String.eqb_eq]. }
  unfold st_register_person, after_pymongo, db_after, op_insert_person. cbn.
  rewrite Hdup. destruct (db_fails env (tick s)); reflexivity.
Qed.

(* ----------------------------------------------------------------- *)
(** *** The visit count of a person *)

Lemma update_one_last_seen_first (person_id : PersonId) (ts : Timestamp)
    (before after : list PersonDoc) (p : PersonDoc) :
  Forall (fun q => p_person_id q <> person_id) before ->
  p_person_id p = person_id ->
  update_one_last_seen person_id ts (before ++ p :: after)
  = before ++ mkPersonDoc person_id (p_first_seen p) ts (p_visit_count p + 1) :: after.
Proof.
  intros Hb Hp. induction before as [| q before IH]; simpl.
  - rewrite Hp, String.eqb_refl. reflexivity.
  - inversion Hb as [| ? ? Hq Hrest]; subst.
    apply String.eqb_neq in Hq. rewrite Hq. now rewrite IH.
Qed.

Lemma st_retention_people (assigned_id : PersonId) (emb : Embedding)
    (is_new_person : bool) (s : State) :
  people (db (st_retention assigned_id emb is_new_person s)) = people (db s).
Proof.
  unfold st_retention. destruct (negb is_new_person); [|reflexivity].
  destruct (retention_decision assigned_id emb s); [|reflexivity].
  unfold st_store_embedding. cbn.
  destruct (timestamp_now s); [|reflexivity].
  unfold after_pymongo, db_after. cbn.
  destruct (db_fails env (S (tick s))); reflexivity.
Qed.

(** X19. Every resolution of a detection counts as a visit of the
    person.  When a detection is resolved by a position match and the
    store accepts the update, the first person document with that
    identifier gets the current time as last-seen time and a visit
    count that is one higher; its first-seen time and all other
    documents stay as they are.  A person who stays in the picture is
    therefore counted once on every sampling frame. *)
Theorem position_match_counts_a_visit (frame : Frame) (frame_num : Z)
    (d : Detection) (emb : Embedding) (s : State) (person_id : PersonId)
    (now : Timestamp) (before after : list PersonDoc) (p : PersonDoc) :
  (forall n, db_fails env n = false) ->
  (det_conf d >= detection_conf_threshold config)%R ->
  crop_size (crop_face frame d) <> 0%Z ->
  extract_embedding env (crop_face frame d) = Some emb ->
  position_match (tracked_people s) d = Some person_id ->
  person_id <> EmptyString ->
  timestamp_now s = Some now ->
  people (db s) = before ++ p :: after ->
  Forall (fun q => p_person_id q <> person_id) before ->
  p_person_id p = person_id ->
  exists s',
    resolve_detection frame frame_num d s = Some (Some (person_id, false), s')
    /\ people (db s') =
       before
       ++ mkPersonDoc person_id (p_first_seen p) now (p_visit_count p + 1) :: after.
Proof.
  intros Hok Hconf Hcrop Hemb Hpm Hne Hnow Hpeople Hbefore Hp.
  destruct (resolve_position_match frame frame_num d emb s person_id now
              Hconf Hcrop Hemb Hpm Hne Hnow) as (Hrun & _ & Hentry).
  eexists. split; [exact Hrun|].
  unfold st_commit. cbv zeta. cbn [db set_tracked_people]. rewrite Hentry.
  unfold st_update_last_seen, after_pymongo, db_after.
  cbn [db tick logged set_trace]. rewrite Hok. cbn [op_update_last_seen].
  cbn [people set_people]. rewrite st_retention_people, Hpeople.
  now apply update_one_last_seen_first.
Qed.

(* ----------------------------------------------------------------- *)
(** *** The detector *)

Lemma detect_loop_filter (boxes : list YoloBox) :
  forall detections,
  detect_loop boxes detections =
  detections
  ++ map to_detection
       (filter (fun b => (cls b =? 0)%Z
                         && Rgeb (box_conf b) (detection_conf_threshold config))
               boxes).
Proof.
  induction boxes as [| b rest IH]; intros detections; simpl.
  - now rewrite app_nil_r.
  - unfold Rgeb. destruct (cls b =? 0)%Z; simpl; [|apply IH].
    destruct (Rltb (box_conf b) (detection_conf_threshold config)); simpl;
      [apply IH|].
    rewrite IH, <- app_assoc. reflexivity.
Qed.

(** X20. The detections that [detect_faces] returns for a frame are
    those of the boxes of the first result that have class 0 and a
    confidence that is not below the detection threshold, in the order
    of the boxes.  The corner of every detection is non-negative, and
    the confidence test of the resolver in [process_video], which reads
    the same threshold, never skips one of them.  The width and the
    height of a detection are those of the raw box, also when a
    negative corner was clamped to 0.  Without a result, or when the
    first result has no boxes, there is no detection. *)
Theorem detect_faces_keeps_confident_faces (boxes : list YoloBox)
    (others : list (option (list YoloBox))) :
  detect_faces (Some boxes :: others) =
    map to_detection
        (filter (fun b => (cls b =? 0)%Z
                          && Rgeb (box_conf b) (detection_conf_threshold config))
                boxes)
  /\ Forall (fun d => let '(x, y, w, h, c) := d in
                      (0 <= x)%Z /\ (0 <= y)%Z
                      /\ Rltb (det_conf d) (detection_conf_threshold config) = false)
            (detect_faces (Some boxes :: others))
  /\ (forall b x1 y1 x2 y2, xyxy b = (x1, y1, x2, y2) ->
        to_detection b = (Z.max 0 x1, Z.max 0 y1, x2 - x1, y2 - y1, box_conf b)%Z)
  /\ detect_faces [] = []
  /\ detect_faces (None :: others) = [].
Proof.
  assert (Hform : detect_faces (Some boxes :: others) =
            map to_detection
                (filter (fun b => (cls b =? 0)%Z
                                  && Rgeb (box_conf b) (detection_conf_threshold config))
                        boxes)).
  { unfold detect_faces. now rewrite detect_loop_filter. }
  split; [exact Hform|]. split; [|split; [|split; reflexivity]].
  - rewrite Hform. apply Forall_forall. intros d Hin.
    apply in_map_iff in Hin. destruct Hin as (b & <- & Hin).
    apply filter_In in Hin. destruct Hin as [_ Hkeep].
    apply andb_true_iff in Hkeep. destruct Hkeep as [_ Hconf].
    unfold to_detection. destruct (xyxy b) as [[[x1 y1] x2] y2]. cbn.
    unfold Rgeb in Hconf. apply negb_true_iff in Hconf.
    repeat split; [lia | lia | exact Hconf].
  - intros b x1 y1 x2 y2 E. unfold to_detection. rewrite E. reflexivity.
Qed.

Lemma sorted_by_score_head (rest : list Face) :
  forall x,
  exists before best_face after tl,
    x :: rest = before ++ best_face :: after
    /\ Forall (fun f => (det_score f < det_score best_face)%R) before
    /\ Forall (fun f => (det_score f <= det_score best_face)%R) after
    /\ sorted_by_score (x :: rest) = best_face :: tl.
Proof.
  induction rest as [| y rest IH]; intros x.
  - exists [], x, [], []. simpl. auto.
  - destruct (IH y) as (b & best & a & tl & E & Hb & Ha & Hs).
    change (sorted_by_score (x :: y :: rest))
      with (insert_by_score x (sorted_by_score (y :: rest))).
    rewrite Hs. cbn [insert_by_score].
    destruct (Rltb (det_score x) (det_score best)) eqn:C.
    + apply Rltb_true in C.
      exists (x :: b), best, a, (insert_by_score x tl). rewrite E.
      split; [reflexivity|]. split; [constructor; assumption|]. auto.
    + apply Rltb_false in C.
      exists [], x, (y :: rest), (best :: tl).
      split; [reflexivity|]. split; [constructor|]. split; [|reflexivity].
      rewrite E. apply Forall_app. split.
      * eapply Forall_impl; [|exact Hb]. intros f Hf. cbv beta in *. lra.
      * constructor; [exact C|].
        eapply Forall_impl; [|exact Ha]. intros f Hf. cbv beta in *. lra.
Qed.

(** X21. The embedding extracted from a crop is the embedding of the
    face with the highest detection score, the first of them in the
    order of the model's answer when several faces share that score.
    When that face has no embedding the result is [None], also when
    other faces have one; it is [None] as well when the model finds no
    face or answers [None]. *)
Theorem extract_embedding_takes_first_best_face :
  face_detector_extract_embedding None = None
  /\ face_detector_extract_embedding (Some []) = None
  /\ forall f fs,
       exists before best_face after,
         f :: fs = before ++ best_face :: after
         /\ Forall (fun g => (det_score g < det_score best_face)%R) before
         /\ Forall (fun g => (det_score g <= det_score best_face)%R) after
         /\ face_detector_extract_embedding (Some (f :: fs)) = embedding best_face.
Proof.
  split; [reflexivity|]. split; [reflexivity|].
  intros f fs.
  destruct (sorted_by_score_head fs f) as (b & best & a & tl & E & Hb & Ha & Hs).
  exists b, best, a. split; [exact E|]. split; [exact Hb|]. split; [exact Ha|].
  unfold face_detector_extract_embedding. cbv zeta. rewrite Hs. reflexivity.
Qed.

(* ----------------------------------------------------------------- *)
(** *** The padded face region *)

(** A slice whose bounds lie within the axis. *)
Lemma slice_len_within (n start stop : Z) :
  (0 <= start <= stop)%Z -> (stop <= n)%Z -> slice_len n start stop = (stop - start)%Z.
Proof.
  intros H1 H2. unfold slice_len, slice_index.
  destruct (Z.ltb_spec stop 0); destruct (Z.ltb_spec start 0); lia.
Qed.

(** X22. The padded face region of a detection whose corner lies in the
    frame and whose width and height are positive is not empty, so the
    resolver does not skip the detection for an empty crop.  The region
    lies within the frame, starts at or before the corner of the box,
    and its size is the product of its height, its width and the three
    colour channels. *)
Theorem crop_of_detection_in_frame_is_not_empty (frame : Frame)
    (x y w h : Z) (c : R) :
  (0 <= x < frame_width frame)%Z ->
  (0 <= y < frame_height frame)%Z ->
  (0 < w)%Z -> (0 < h)%Z ->
  let crop := crop_face frame (x, y, w, h, c) in
  crop_size crop <> 0%Z
  /\ (0 <= crop_xa crop <= x)%Z
  /\ (x < crop_xb crop <= frame_width frame)%Z
  /\ (0 <= crop_ya crop <= y)%Z
  /\ (y < crop_yb crop <= frame_height frame)%Z
  /\ crop_size crop =
     ((crop_yb crop - crop_ya crop) * (crop_xb crop - crop_xa crop) * 3)%Z.
Proof.
  intros Hx Hy Hw Hh. cbv zeta.
  assert (Hpad : (0 <= Z.quot (Z.max w h) 10)%Z) by (apply Z.quot_pos; lia).
  unfold crop_face, crop_size.
  cbn [crop_frame crop_ya crop_yb crop_xa crop_xb].
  set (pad := Z.quot (Z.max w h) 10) in *.
  set (ya := Z.max 0 (y - pad)). set (yb := Z.min (frame_height frame) (y + h + pad)).
  set (xa := Z.max 0 (x - pad)). set (xb := Z.min (frame_width frame) (x + w + pad)).
  assert (Hya : (0 <= ya <= y)%Z) by (unfold ya; lia).
  assert (Hyb : (y < yb <= frame_height frame)%Z) by (unfold yb; lia).
  assert (Hxa : (0 <= xa <= x)%Z) by (unfold xa; lia).
  assert (Hxb : (x < xb <= frame_width frame)%Z) by (unfold xb; lia).
  rewrite (slice_len_within (frame_height frame) ya yb) by lia.
  rewrite (slice_len_within (frame_width frame) xa xb) by lia.
  split; [|auto 10].
  assert (Hpos : (0 < (yb - ya) * (xb - xa))%Z) by (apply Z.mul_pos_pos; lia).
  lia.
Qed.

(* ----------------------------------------------------------------- *)
(** *** The configuration file *)

Lemma merge_defaults_get (k : string) (defaults : list (string * Json)) :
  forall cfg,
  dict_get k (merge_defaults defaults cfg) =
  match dict_get k cfg with
  | Some v => Some v
  | None => dict_get k defaults
  end.
Proof.
  induction defaults as [| [k0 v0] rest IH]; intros cfg; simpl.
  - destruct (dict_get k cfg); reflexivity.
  - rewrite IH. unfold dict_mem.
    destruct (dict_get k0 cfg) as [v1|] eqn:G0.
    + destruct (dict_get k cfg) as [v|] eqn:G; [reflexivity|].
      destruct (String.eqb k k0) eqn:E; [|reflexivity].
      apply String.eqb_eq in E. subst k0. congruence.
    + destruct (String.eqb k k0) eqn:E.
      * apply String.eqb_eq in E. subst k0.
        rewrite dict_get_set_same, G0. reflexivity.
      * rewrite dict_get_set_other by (now apply String.eqb_neq).
        reflexivity.
Qed.

(** X23. The configuration loaded from an existing file holds, for
    every key, the value of the file when the file has the key, [null]
    included, and the default value otherwise: every default parameter
    is present, and keys that are not default parameters are kept.  The
    file itself is not rewritten.  Without a file, the defaults are
    returned and written.  In both cases the key ["logs_folder"], which
    [process_video] reads without a default, is present, and loading
    again gives the same configuration. *)
Theorem load_or_create_config_fills_missing_parameters :
  (forall cfg k,
     dict_get k (fst (load_or_create_config (Some cfg))) =
     match dict_get k cfg with
     | Some v => Some v
     | None => dict_get k DEFAULT_CONFIG
     end)
  /\ (forall cfg, snd (load_or_create_config (Some cfg)) = Some cfg)
  /\ load_or_create_config None = (DEFAULT_CONFIG, Some DEFAULT_CONFIG)
  /\ (forall file,
        dict_mem "logs_folder"%string (fst (load_or_create_config file)) = true)
  /\ (forall file,
        fst (load_or_create_config (snd (load_or_create_config file)))
        = fst (load_or_create_config file)).
Proof.
  split; [intros cfg k; apply merge_defaults_get|].
  split; [reflexivity|]. split; [reflexivity|]. split.
  - intros [cfg|]; [|reflexivity]. unfold dict_mem. cbn [load_or_create_config fst].
    rewrite merge_defaults_get.
    destruct (dict_get "logs_folder"%string cfg); reflexivity.
  - intros [cfg|]; reflexivity.
Qed.

(* ----------------------------------------------------------------- *)
(** *** The progress report *)

(** X24. The progress report never raises: with a total that is not
    positive it leaves the progress state as it is, without dividing.
    With a positive total it stores the two frame numbers and their
    ratio in percent, which lies between 0 and 100 exactly when the
    current frame lies between 0 and the total.  The total that
    [process_video] passes is never 0: a capture that reports no frame
    count is replaced by [max_frames], when that is given and not 0,
    and by 1000 otherwise. *)
Theorem progress_callback_never_divides_by_zero (current_frame total_frames : Z)
    (p : Progress) :
  (exists p',
     progress_callback current_frame total_frames p = Some p'
     /\ ((total_frames <= 0)%Z -> p' = p)
     /\ ((0 < total_frames)%Z ->
         p' = mkProgress current_frame total_frames
                         (IZR current_frame / IZR total_frames * 100)
         /\ ((0 <= pr_progress p' <= 100)%R
             <-> (0 <= current_frame <= total_frames)%Z)))
  /\ (forall reported max_frames,
        estimate_total_frames reported max_frames <> 0%Z).
Proof.
  split.
  - unfold progress_callback.
    destruct (Z.gtb_spec total_frames 0) as [Hpos | Hnpos].
    + assert (Ht : (0 < IZR total_frames)%R) by (apply IZR_lt; lia).
      unfold py_div.
      replace (Reqb (IZR total_frames) 0) with false
        by (symmetry; apply Reqb_false; lra).
      eexists. split; [reflexivity|]. split; [lia|]. intros _.
      split; [reflexivity|]. cbn [pr_progress].
      assert (Hq : (IZR current_frame / IZR total_frames * IZR total_frames
                    = IZR current_frame)%R) by (field; lra).
      set (q := (IZR current_frame / IZR total_frames)%R) in *.
      split.
      * intros [Hlo Hhi]. split; apply le_IZR; nra.
      * intros [Hlo Hhi]. apply IZR_le in Hlo, Hhi. split; nra.
    + exists p. split; [reflexivity|]. split; [auto | lia].
  - intros reported max_frames. unfold estimate_total_frames.
    destruct (Z.eqb_spec reported 0) as [-> | Hne]; cbn [andb]; [|exact Hne].
    destruct max_frames as [m|]; [|discriminate].
    destruct (Z.eqb_spec m 0); cbn [negb]; [discriminate | assumption].
Qed.

(* ----------------------------------------------------------------- *)
(** *** The display of a frame *)

Lemma draw_on_frame_calls (s : State) :
  exists s',
    draw_on_frame s = Some (tt, s')
    /\ only_reads s s'
         [CGetUniqueVisitorCount; CGetVisitCount Entry; CGetVisitCount Exit].
Proof.
  unfold draw_on_frame.
  destruct (get_unique_visitor_count_reads s) as (n1 & s1 & Hrun1 & R1).
  unfold bind at 1. rewrite Hrun1.
  destruct (get_visit_count_reads Entry s1) as (n2 & s2 & Hrun2 & R2).
  unfold bind at 1. rewrite Hrun2.
  destruct (get_visit_count_reads Exit s2) as (n3 & s3 & Hrun3 & R3).
  unfold bind at 1. rewrite Hrun3.
  exists s3. split; [reflexivity|].
  exact (only_reads_trans _ _ _ _ _ (only_reads_trans _ _ _ _ _ R1 R2) R3).
Qed.

(** X25. The display of a frame in [process_video] only reads the
    store: it changes neither the store nor the gallery nor the tracked
    persons.  The overlay queries the number of persons, of entry
    records and of exit records.  With [visualize] enabled the overlay
    is computed twice for every frame, once by [process_video] and once
    more by [Visualizer.visualize], so the three queries are made
    twice; the quit key is read only then. *)
Theorem display_of_a_frame_only_reads_the_store (frame_num : Z) (s : State) :
  exists s',
    (draw_on_frame ;;
     (if visualize config then visualizer_visualize frame_num else ret false)) s
    = Some (visualize config && quit_requested env frame_num, s')
    /\ db s' = db s
    /\ tracked_people s' = tracked_people s
    /\ known_embeddings s' = known_embeddings s
    /\ trace s' =
       trace s
       ++ [CGetUniqueVisitorCount; CGetVisitCount Entry; CGetVisitCount Exit]
       ++ (if visualize config
           then [CGetUniqueVisitorCount; CGetVisitCount Entry; CGetVisitCount Exit]
           else []).
Proof.
  destruct (draw_on_frame_calls s) as (s1 & Hrun1 & (T1 & K1 & _ & D1 & C1 & _)).
  unfold bind at 1. rewrite Hrun1. unfold visualizer_visualize.
  destruct (visualize config); cbn [negb andb].
  - destruct (draw_on_frame_calls s1) as (s2 & Hrun2 & (T2 & K2 & _ & D2 & C2 & _)).
    unfold bind at 1. rewrite Hrun2. exists s2. split; [reflexivity|].
    rewrite D2, T2, K2, C2, C1, <- app_assoc. auto.
  - exists s1. split; [reflexivity|]. rewrite app_nil_r. auto.
Qed.

(* ----------------------------------------------------------------- *)
(** *** The sampling cadence *)

(** X26. A [detection_skip_frames] of 1, of 0 or below 0 makes every
    frame a sampling frame: the cadence is [max(1, skip)], so no
    division by zero can occur and the recognition loop runs on every
    frame.  Whatever the cadence is, the recognition loop also runs on
    every frame on which nobody is tracked; the tracker update has
    nothing to do then. *)
Theorem recognition_runs_without_cadence_or_tracks (frame : Frame)
    (detections : list Detection) (frame_num : Z) (s : State) :
  ((detection_skip_frames config <= 1)%Z ->
   process_frame frame detections frame_num s =
   (update_trackers frame_num (Some detections) ;;
    recognition_loop frame frame_num detections ;;
    handle_exits frame_num (exit_frame_threshold config)) s)
  /\ (tracked_people s = [] ->
      process_frame frame detections frame_num s =
      (recognition_loop frame frame_num detections ;;
       handle_exits frame_num (exit_frame_threshold config)) s).
Proof.
  split.
  - intros Hskip. unfold process_frame.
    replace (Z.max 1 (detection_skip_frames config)) with 1%Z by lia.
    rewrite Z.mod_1_r. cbn [Z.eqb orb].
    destruct (update_trackers_only_tracks frame_num (Some detections) s)
      as (s1 & Hrun & _).
    unfold bind at 1. rewrite Hrun. unfold bind at 3. rewrite Hrun.
    unfold bind at 1. unfold gets at 1. reflexivity.
  - intros Hnobody. unfold process_frame.
    destruct (update_trackers_only_tracks frame_num (Some detections) s)
      as (s1 & Hrun & D & K & N & C & T).
    assert (Hsame : s1 = s).
    { destruct detections as [| d ds]; revert Hrun.
      - rewrite update_trackers_no_detections by auto.
        rewrite Hnobody. intros H. injection H as <-. destruct s; simpl in *.
        now subst.
      - unfold update_trackers, assign_detections_to_tracks.
        unfold bind at 1. unfold modify. cbn. rewrite Hnobody. cbn.
        intros H. injection H as <-. destruct s; simpl in *. now subst. }
    unfold bind at 1. rewrite Hrun, Hsame. unfold bind at 1. unfold gets at 1.
    rewrite Hnobody. rewrite orb_true_r. reflexivity.
Qed.

(* ----------------------------------------------------------------- *)
(** *** A stored embedding of another length *)

(** The best-match query is made outside every [try]: when it raises,
    the resolver ends with that exception. *)
Lemma resolve_detection_raises (frame : Frame) (frame_num : Z) (d : Detection)
    (emb : Embedding) (s : State) :
  (det_conf d >= detection_conf_threshold config)%R ->
  crop_size (crop_face frame d) <> 0%Z ->
  extract_embedding env (crop_face frame d) = Some emb ->
  truthy (position_match (tracked_people s) d) = false ->
  find_best_match emb (known_embeddings s) = None ->
  resolve_detection frame frame_num d s = None.
Proof.
  intros Hconf Hcrop Hemb Hpm Hfind.
  rewrite (resolve_qualifying frame frame_num d emb s Hconf Hcrop Hemb).
  unfold bind at 1. rewrite assign_identity_recognize by exact Hpm.
  rewrite (recognize_raises emb s Hfind). reflexivity.
Qed.

Lemma get_all_face_data_loads (s : State) :
  db_fails env (tick s) = false ->
  exists s',
    get_all_face_data s
    = Some (map (fun f => (f_person_id f, f_face_vector f)) (face_data (db s)), s')
    /\ tracked_people s' = tracked_people s.
Proof.
  intros Hok. unfold get_all_face_data. unfold bind at 1. rewrite log_run.
  unfold bind at 1. rewrite pymongo_run.
  change (tick (logged CGetAllFaceData s)) with (tick s). rewrite Hok.
  cbn [option_map fst]. eexists. split; reflexivity.
Qed.

(** X27. A store that holds an embedding which cannot be compared with
    the embedding of the first qualifying face ends the run: when no
    call of the store fails, the gallery is loaded from the store, and
    when the best-match query of the first detection of the first frame
    raises on it, as it does on a stored embedding of another length,
    [process_video] ends with that exception and returns no summary. *)
Theorem process_video_raises_on_incomparable_store (frame : Frame)
    (d : Detection) (ds : list Detection) (rest : list (Frame * list Detection))
    (max_frames : option Z) (emb : Embedding) (store : Db) :
  (forall n, db_fails env n = false) ->
  (det_conf d >= detection_conf_threshold config)%R ->
  crop_size (crop_face frame d) <> 0%Z ->
  extract_embedding env (crop_face frame d) = Some emb ->
  find_best_match emb
    (map (fun f => (f_person_id f, f_face_vector f)) (face_data store)) = None ->
  process_video ((frame, d :: ds) :: rest) max_frames (initial_state store) = None.
Proof.
  intros Hok Hconf Hcrop Hemb Hfind. unfold process_video.
  unfold bind at 1. rewrite init_mongodb_run.
  change (tick (initial_state store)) with 0%nat. rewrite (Hok 0%nat).
  destruct (init_counter_fields (set_tick 1 (initial_state store)))
    as (s1 & Hrun1 & T1 & _ & _ & F1).
  unfold bind at 1. rewrite Hrun1.
  destruct (get_all_face_data_loads s1 (Hok _)) as (s2 & Hrun2 & T2).
  unfold bind at 1. rewrite Hrun2. rewrite F1. simpl face_data.
  unfold bind at 1. unfold modify at 1.
  set (known := map (fun f => (f_person_id f, f_face_vector f)) (face_data store))
    in *.
  set (s3 := set_known_embeddings known s2).
  assert (T3 : tracked_people s3 = []) by (simpl; rewrite T2, T1; reflexivity).
  destruct (update_trackers_only_tracks 1 (Some (d :: ds)) s3)
    as (s4 & Hrun4 & _ & K4 & _ & _ & T4).
  assert (T4' : tracked_people s4 = []).
  { rewrite T3 in T4. destruct (tracked_people s4); [reflexivity | discriminate]. }
  assert (Hres : resolve_detection frame 1 d s4 = None).
  { apply (resolve_detection_raises frame 1 d emb s4); auto.
    - rewrite T4'. reflexivity.
    - rewrite K4. exact Hfind. }
  assert (Hframe : process_frame frame (d :: ds) 1 s3 = None).
  { unfold process_frame. unfold bind at 1. rewrite Hrun4.
    unfold bind at 1. unfold gets at 1. rewrite T4'. rewrite orb_true_r.
    unfold bind at 1. simpl recognition_loop. unfold bind at 1. rewrite Hres.
    reflexivity. }
  unfold bind at 1. simpl frames_loop. unfold bind at 1.
  change (0 + 1)%Z with 1%Z. rewrite Hframe. reflexivity.
Qed.

End Model.

(* ================================================================= *)
(** * The properties on concrete runs *)

Open Scope string_scope.
Open Scope Z_scope.

(** *** Cosine similarity of the example embeddings *)

Lemma norm_e_front : norm e_front = 1%R.
Proof.
  unfold norm, e_front. simpl sum_of_squares.
  replace (1 * 1 + (0 * 0 + 0))%R with 1%R by lra. apply sqrt_1.
Qed.

Lemma norm_e_side : norm e_side = 1%R.
Proof.
  unfold norm, e_side. simpl sum_of_squares.
  replace (0 * 0 + (1 * 1 + 0))%R with 1%R by lra. apply sqrt_1.
Qed.

Lemma norm_e_back : norm e_back = 1%R.
Proof.
  unfold norm, e_back. simpl sum_of_squares.
  replace (-1 * -1 + (0 * 0 + 0))%R with 1%R by lra. apply sqrt_1.
Qed.

Lemma norm_e_long : norm e_long = 1%R.
Proof.
  unfold norm, e_long. simpl sum_of_squares.
  replace (1 * 1 + (0 * 0 + (0 * 0 + 0)))%R with 1%R by lra. apply sqrt_1.
Qed.

Lemma cosine_similarity_unit (a b : Embedding) (d : R) :
  norm a = 1%R -> norm b = 1%R -> dot a b = Some d ->
  cosine_similarity a b = Some d.
Proof.
  intros Ha Hb Hd.
  destruct (cosine_similarity_nonzero a b d) as [_ ->];
    try (rewrite ?Ha, ?Hb; lra); [exact Hd|].
  rewrite Ha, Hb. f_equal. field.
Qed.

Lemma cosine_side_front : cosine_similarity e_side e_front = Some 0%R.
Proof.
  rewrite (cosine_similarity_unit e_side e_front (0 * 1 + (1 * 0 + 0))%R)
    by (apply norm_e_side || apply norm_e_front || reflexivity).
  f_equal. lra.
Qed.

Lemma cosine_front_front : cosine_similarity e_front e_front = Some 1%R.
Proof.
  rewrite (cosine_similarity_unit e_front e_front (1 * 1 + (0 * 0 + 0))%R)
    by (apply norm_e_front || reflexivity).
  f_equal. lra.
Qed.

Lemma cosine_front_back : cosine_similarity e_front e_back = Some (-1)%R.
Proof.
  rewrite (cosine_similarity_unit e_front e_back (1 * -1 + (0 * 0 + 0))%R)
    by (apply norm_e_front || apply norm_e_back || reflexivity).
  f_equal. lra.
Qed.

(** Between [e_front], of length 2, and [e_long], of length 3, the dot
    product raises, and with it the similarity. *)
Lemma cosine_front_long : cosine_similarity e_front e_long = None.
Proof.
  apply cosine_similarity_raises.
  - rewrite norm_e_front. lra.
  - rewrite norm_e_long. lra.
  - discriminate.
Qed.





(** C5 at frame 40 with threshold 30: the person last matched in frame 1
    exits, the one last matched in frame 28 stays. *)
Lemma handle_exits_exactly_overdue_witness :
  NoDup (map fst (tracked_people stale_and_recent_state))
  /\ exists s' calls,
       handle_exits (example_env never embed_by_side) default_config 40 30
                    stale_and_recent_state = Some (tt, s')
       /\ exit_count "person1" calls = 1%nat
       /\ dict_get "person1" (tracked_people s') = None
       /\ exit_count "person2" calls = 0%nat
       /\ dict_get "person2" (tracked_people s')
          = Some (track_at det_right 28 (example_frame 28)).
Proof.
  assert (Hnd : NoDup (map fst (tracked_people stale_and_recent_state))).
  { simpl. repeat constructor; simpl; intuition discriminate. }
  split; [exact Hnd|].
  destruct (handle_exits_exactly_overdue (example_env never embed_by_side)
              default_config 40 30 stale_and_recent_state Hnd)
    as (s' & calls & Hrun & _ & _ & _ & _ & Hper & _).
  exists s', calls. split; [exact Hrun|].
  destruct (Hper "person1"%string (track_at det_left 1 (example_frame 1)))
    as [H1 _]; [simpl; auto|].
  destruct (Hper "person2"%string (track_at det_right 28 (example_frame 28)))
    as [_ H2]; [simpl; auto|].
  destruct H1 as [H1a H1b]; [simpl; lia|].
  destruct H2 as [H2a H2b]; [simpl; lia|].
  auto.
Defined.

(** C8 on the first frame of a run on an empty store. *)
Lemma empty_gallery_first_detection_witness :
  tracked_in_gallery (initial_state empty_db)
  /\ known_embeddings (initial_state empty_db) = []
  /\ (det_conf det_left >= detection_conf_threshold default_config)%R
  /\ crop_size (crop_face (example_frame 1) det_left) <> 0%Z
  /\ extract_embedding (example_env never embed_by_side)
       (crop_face (example_frame 1) det_left) = Some e_front
  /\ exists path s',
       resolve_detection (example_env never embed_by_side) default_config
         (example_frame 1) 1 det_left (initial_state empty_db)
       = Some (Some ("person1"%string, true), s')
       /\ known_embeddings s' = [("person1"%string, e_front)]
       /\ map saved_visit (trace s') =
          [None; None; None; Some ("person1"%string, Entry); None]
       /\ db s' = mkDb [mkPersonDoc "person1" 0%Z 0%Z 2%Z]
                       [mkFaceDoc "person1" e_front 0%Z]
                       [mkVisitDoc "person1" Entry 0%Z path] (Some 1%Z).
Proof.
  assert (H1 : tracked_in_gallery (initial_state empty_db))
    by (intros id H; discriminate).
  assert (H2 : known_embeddings (initial_state empty_db) = []) by reflexivity.
  assert (H3 : (det_conf det_left >= detection_conf_threshold default_config)%R)
    by (simpl; lra).
  assert (H4 : crop_size (crop_face (example_frame 1) det_left) <> 0%Z)
    by (vm_compute; discriminate).
  assert (H5 : extract_embedding (example_env never embed_by_side)
                 (crop_face (example_frame 1) det_left) = Some e_front)
    by reflexivity.
  repeat (split; [assumption|]).
  destruct (empty_gallery_first_detection (example_env never embed_by_side)
              default_config (example_frame 1) 1 det_left e_front
              (initial_state empty_db) H1 H2 H3 H4 H5)
    as (id & path & s' & Hrun & _ & Hid & Htrace & Hknown & _ & Hdb).
  assert (E : id = "person1"%string) by (apply (Hid eq_refl 0%Z); reflexivity).
  subst id.
  exists path, s'. split; [exact Hrun|]. split; [exact Hknown|]. split.
  - rewrite Htrace. reflexivity.
  - apply (Hdb (fun _ => eq_refl) 0%Z); reflexivity.
Defined.

(** *** Two tracked persons 30 px apart *)

(** The tracker matches the two detections of frame 5 to the two
    tracked persons. *)
Lemma update_trackers_matches_both (env : Env) :
  update_trackers env 5 (Some [det_a; det_b]) two_tracked_state
  = Some (tt, two_matched_state).
Proof. reflexivity. Qed.

(** The state of the two matched persons satisfies the invariant of the
    frame loop. *)
Lemma two_matched_well_formed : well_formed two_matched_state.
Proof.
  split; [|split; [|split]].
  - simpl. repeat constructor; simpl; intuition discriminate.
  - intros id Hmem. apply dict_mem_In in Hmem. simpl in *.
    destruct Hmem as [<- | [<- | []]]; auto.
  - repeat constructor; discriminate.
  - discriminate.
Qed.

Lemma resolve_det_b :
  resolve_detection (example_env never embed_by_side) default_config
                    (example_frame 5) 5 det_b two_matched_state
  = Some (Some ("person1", false),
          st_commit (example_env never embed_by_side) default_config
                    (example_frame 5) 5 det_b e_side "person1" false 4%Z
                    two_matched_state).
Proof.
  apply resolve_position_match.
  - simpl. lra.
  - vm_compute. discriminate.
  - reflexivity.
  - reflexivity.
  - discriminate.
  - reflexivity.
Qed.

(** C1 fails on the code: in frame 5 the detection that sits exactly on
    the track of person2 is resolved to person1, the first tracked
    person within 50 px. *)
Lemma spatial_precedence_counterexample :
  ~ spatial_precedence_claim (example_env never embed_by_side) default_config
      (example_frame 5) 5 det_b two_matched_state.
Proof.
  intros Hclaim.
  specialize (Hclaim "person2"
                (mkTrack 5 (Some (det_box det_b)) (Some (det_box det_b))
                         (Some (crop_face (example_frame 4) det_b)) (9 / 10)%R 4%Z)
                (det_box det_b)).
  specialize (Hclaim (or_intror (or_introl eq_refl)) eq_refl eq_refl _ _ resolve_det_b).
  discriminate Hclaim.
Qed.

Lemma stale_and_recent_well_formed : well_formed stale_and_recent_state.
Proof.
  split; [|split; [|split]].
  - simpl. repeat constructor; simpl; intuition discriminate.
  - intros id Hmem. apply dict_mem_In in Hmem. simpl in *.
    destruct Hmem as [<- | [<- | []]]; auto.
  - repeat constructor; discriminate.
  - discriminate.
Qed.

(** C1, as the code has it, at frame 30: person1 is far from the
    detection, person2 is the first tracked person within 50 px. *)
Lemma position_match_resolves_to_first_near_witness :
  well_formed stale_and_recent_state
  /\ (det_conf det_right >= detection_conf_threshold default_config)%R
  /\ crop_size (crop_face (example_frame 30) det_right) <> 0%Z
  /\ near det_right (track_at det_left 1 (example_frame 1)) = false
  /\ near det_right (track_at det_right 28 (example_frame 28)) = true
  /\ exists now s',
       timestamp_now stale_and_recent_state = Some now
       /\ resolve_detection (example_env never embed_by_side) default_config
                            (example_frame 30) 30 det_right stale_and_recent_state
          = Some (Some ("person2", false), s')
       /\ dict_get "person2" (tracked_people s')
          = Some (fresh_track (example_frame 30) 30 det_right now)
       /\ map fst (tracked_people s') = map fst (tracked_people stale_and_recent_state).
Proof.
  assert (H0 : well_formed stale_and_recent_state)
    by exact stale_and_recent_well_formed.
  assert (H1 : (det_conf det_right >= detection_conf_threshold default_config)%R)
    by (simpl; lra).
  assert (H2 : crop_size (crop_face (example_frame 30) det_right) <> 0%Z)
    by (vm_compute; discriminate).
  assert (H3 : near det_right (track_at det_left 1 (example_frame 1)) = false)
    by reflexivity.
  assert (H4 : near det_right (track_at det_right 28 (example_frame 28)) = true)
    by reflexivity.
  repeat (split; [assumption|]).
  apply (position_match_resolves_to_first_near
           (example_env never embed_by_side) default_config
           (example_frame 30) 30 det_right e_side stale_and_recent_state
           [("person1", track_at det_left 1 (example_frame 1))] []
           "person2" (track_at det_right 28 (example_frame 28)));
    try assumption; try reflexivity.
  repeat constructor.
Defined.

(** The retention decision for the embedding of the detection on the
    right against the stored embedding of person1. *)
Lemma retention_side_for_person1 :
  retention_decision (example_env never embed_by_side) default_config
                     "person1" e_side two_matched_state = true.
Proof.
  rewrite retention_decision_max by reflexivity.
  replace (recent_face_data (db two_matched_state) "person1")
    with [mkFaceDoc "person1" e_front 0%Z] by reflexivity.
  unfold max_similarity. cbn [similarities f_face_vector].
  rewrite cosine_side_front. cbn [fold_left].
  apply Rltb_true. rewrite Rmax_left by lra. simpl. lra.
Qed.

(** C2 fails on the code: the detection resolved by the position match
    is offered to the retention decision, and its embedding is added to
    the gallery under the matched person. *)
Lemma gallery_untouched_counterexample :
  ~ gallery_untouched_claim (example_env never embed_by_side) default_config
      (example_frame 5) 5 det_b two_matched_state.
Proof.
  intros Hclaim.
  destruct (Hclaim "person1" _ _ eq_refl resolve_det_b) as [Hknown _].
  destruct (st_commit_fields (example_env never embed_by_side) default_config
              (example_frame 5) 5 det_b e_side "person1" false 4%Z
              two_matched_state eq_refl) as (_ & K & _ & _).
  rewrite K in Hknown.
  change (st_entry (example_env never embed_by_side) default_config
                   "person1" 4%Z two_matched_state) with two_matched_state in Hknown.
  unfold retention_appends in Hknown. rewrite retention_side_for_person1 in Hknown.
  simpl in Hknown. discriminate Hknown.
Qed.

(** C2, as the code has it, on the same resolution as the witness of
    C1: no best-match query, and the embedding is offered to the
    retention decision. *)
Lemma retention_offered_unless_new_person_witness :
  well_formed stale_and_recent_state
  /\ exists s' calls,
       resolve_detection (example_env never embed_by_side) default_config
                         (example_frame 30) 30 det_right stale_and_recent_state
       = Some (Some ("person2", false), s')
       /\ trace s' = (trace stale_and_recent_state ++ calls)%list
       /\ existsb is_find_best_match calls = false
       /\ existsb is_should_store calls = true.
Proof.
  split; [exact stale_and_recent_well_formed|].
  destruct (proj1 (retention_offered_unless_new_person
                     (example_env never embed_by_side) default_config)
              (example_frame 30) 30 det_right e_side stale_and_recent_state
              [("person1", track_at det_left 1 (example_frame 1))] []
              "person2" (track_at det_right 28 (example_frame 28)))
    as (now & s' & calls & _ & Hrun & Htrace & Hcalls & Hfind & _).
  - exact stale_and_recent_well_formed.
  - simpl. lra.
  - vm_compute. discriminate.
  - reflexivity.
  - reflexivity.
  - repeat constructor.
  - reflexivity.
  - exists s', calls. repeat (split; [assumption|]).
    rewrite Hcalls. reflexivity.
Defined.

(** *** Frame 5 as a whole *)

Lemma retention_front_for_person1 :
  retention_decision (example_env never embed_by_side) default_config
                     "person1" e_front two_matched_state = false.
Proof.
  rewrite retention_decision_max by reflexivity.
  replace (recent_face_data (db two_matched_state) "person1")
    with [mkFaceDoc "person1" e_front 0] by reflexivity.
  unfold max_similarity. cbn [similarities f_face_vector].
  rewrite cosine_front_front. cbn [fold_left].
  apply Rltb_false. rewrite Rmax_right by lra. simpl. lra.
Qed.

(** In frame 5 the tracker matches both persons, the resolver assigns
    both detections to person1, and the frame ends with the track of
    person1 on the box of person2 and with the embedding of person2
    stored under person1, in the gallery and in the store. *)
Lemma frame_five_merges_two_persons :
  exists s',
    process_frame (example_env never embed_by_side) default_config
                  (example_frame 5) [det_a; det_b] 5 two_tracked_state
    = Some (tt, s')
    /\ map (fun kv => (fst kv, bbox (snd kv))) (tracked_people s')
       = [("person1", Some (det_box det_b)); ("person2", Some (det_box det_b))]
    /\ known_embeddings s'
       = [("person1", e_front); ("person2", e_side); ("person1", e_side)]
    /\ map (fun f => (f_person_id f, f_face_vector f)) (face_data (db s'))
       = [("person1", e_front); ("person2", e_side); ("person1", e_side)].
Proof.
  set (env := example_env never embed_by_side).
  set (sA := st_commit env default_config (example_frame 5) 5 det_a e_front
                       "person1" false 4 two_matched_state).
  set (sB := st_commit env default_config (example_frame 5) 5 det_b e_side
                       "person1" false 4 sA).
  (* the first detection *)
  destruct (resolve_position_match env default_config (example_frame 5) 5 det_a
              e_front two_matched_state "person1" 4)
    as (HrunA & _ & HentryA);
    [simpl; lra | vm_compute; discriminate | reflexivity | reflexivity
    | discriminate | reflexivity |].
  destruct (st_commit_fields env default_config (example_frame 5) 5 det_a e_front
              "person1" false 4 two_matched_state eq_refl) as (TA & KA & NA & _).
  pose proof (st_commit_face_data env default_config (example_frame 5) 5 det_a
                e_front "person1" false 4 two_matched_state eq_refl) as FA.
  fold sA in HrunA, TA, KA, NA, FA.
  rewrite HentryA in KA, FA.
  assert (HretA : retention_appends env default_config "person1" e_front false
                                    two_matched_state = false).
  { unfold retention_appends, env. rewrite retention_front_for_person1.
    reflexivity. }
  rewrite HretA in KA, FA.
  (* the second detection *)
  destruct (resolve_position_match env default_config (example_frame 5) 5 det_b
              e_side sA "person1" 4)
    as (HrunB & _ & HentryB);
    [simpl; lra | vm_compute; discriminate | reflexivity
    | rewrite TA; reflexivity | discriminate | exact NA |].
  destruct (st_commit_fields env default_config (example_frame 5) 5 det_b e_side
              "person1" false 4 sA NA) as (TB & KB & NB & _).
  pose proof (st_commit_face_data env default_config (example_frame 5) 5 det_b
                e_side "person1" false 4 sA NA) as FB.
  fold sB in HrunB, TB, KB, NB, FB.
  rewrite HentryB in KB, FB.
  assert (Hret : retention_appends env default_config "person1" e_side false sA = true).
  { unfold retention_appends. simpl negb. simpl andb.
    replace (db_fails env (S (tick sA))) with false by reflexivity.
    rewrite andb_true_r.
    rewrite retention_decision_max by reflexivity.
    unfold recent_face_data. rewrite FA.
    unfold max_similarity.
    match goal with
    | |- context [similarities e_side ?l] =>
        replace l with [mkFaceDoc "person1" e_front 0] by reflexivity
    end.
    cbn [similarities f_face_vector].
    rewrite cosine_side_front. cbn [fold_left].
    apply Rltb_true. rewrite Rmax_left by lra. simpl. lra. }
  rewrite Hret in KB, FB. rewrite KA in KB. rewrite FA in FB.
  rewrite TA in TB.
  (* the frame *)
  exists sB. split.
  - unfold process_frame. unfold bind at 1.
    rewrite (update_trackers_matches_both env).
    unfold bind at 1. unfold gets at 1.
    replace ((5 mod Z.max 1 (detection_skip_frames default_config) =? 0)
             || match tracked_people two_matched_state with
                | [] => true
                | _ :: _ => false
                end) with true by reflexivity.
    unfold bind at 1. simpl recognition_loop.
    unfold bind at 1. rewrite HrunA. unfold bind at 1. rewrite HrunB.
    unfold ret at 1.
    apply handle_exits_keeps_recent. rewrite TB.
    repeat constructor; simpl; lia.
  - rewrite TB, KB, FB. repeat split; reflexivity.
Qed.

(** *** The retention decision on concrete stores *)

Lemma max_similarity_front_front :
  max_similarity e_front
    (recent_face_data (db (one_embedding_state e_front)) "person1") = Some 1%R.
Proof.
  replace (recent_face_data (db (one_embedding_state e_front)) "person1")
    with [mkFaceDoc "person1" e_front 0] by reflexivity.
  unfold max_similarity. cbn [similarities f_face_vector].
  rewrite cosine_front_front. reflexivity.
Qed.

(** C6 fails on the code: when the query for the stored embeddings
    raises, an embedding equal to the stored one (similarity 1, above
    the default threshold 0.8) is retained. *)
Lemma retention_rule_counterexample :
  ~ retention_claim (example_env (fun n => Nat.eqb n 0) embed_by_side)
      default_config "person1" e_front (one_embedding_state e_front).
Proof.
  intros Hclaim.
  specialize (Hclaim _ _ (should_store_embedding_st _ _ _ _ _)).
  cbv zeta in Hclaim. destruct Hclaim as [_ Hmax].
  specialize (Hmax 1%R max_similarity_front_front).
  change (retention_decision (example_env (fun n => Nat.eqb n 0) embed_by_side)
            default_config "person1" e_front (one_embedding_state e_front))
    with true in Hmax.
  destruct Hmax as [Hlt _]. specialize (Hlt eq_refl). simpl in Hlt. lra.
Qed.

(** The loop of the decision starts its maximum at 0: with a diversity
    threshold of 0, an embedding opposite to the stored one (similarity
    -1, below the threshold) is not retained. *)
Lemma retention_starts_maximum_at_zero :
  retention_decision (example_env never embed_by_side) zero_diversity_config
                     "person1" e_front (one_embedding_state e_back) = false.
Proof.
  rewrite retention_decision_max by reflexivity.
  replace (recent_face_data (db (one_embedding_state e_back)) "person1")
    with [mkFaceDoc "person1" e_back 0] by reflexivity.
  unfold max_similarity. cbn [similarities f_face_vector].
  rewrite cosine_front_back. cbn [fold_left].
  apply Rltb_false. rewrite Rmax_left by lra. simpl. lra.
Qed.

(** C6, as the code has it: under the default threshold an embedding
    orthogonal to the stored one is retained, and so is an embedding of
    another length than the stored one, on which the similarity
    raises. *)
Lemma should_store_embedding_decision_witness :
  db_fails (example_env never embed_by_side)
           (tick (one_embedding_state e_front)) = false
  /\ (exists s',
        should_store_embedding (example_env never embed_by_side) default_config
                               "person1" e_side (one_embedding_state e_front)
        = Some (true, s'))
  /\ (exists s',
        should_store_embedding (example_env never embed_by_side) default_config
                               "person1" e_front (one_embedding_state e_long)
        = Some (true, s')).
Proof.
  split; [reflexivity|]. split.
  - destruct (should_store_embedding_decision (example_env never embed_by_side)
                default_config "person1" e_side (one_embedding_state e_front))
      as (retain & s' & Hrun & _ & _ & _ & Hok).
    destruct (Hok eq_refl) as (_ & _ & _ & Hmax).
    destruct (Hmax 0%R) as [_ Hiff].
    + replace (recent_face_data (db (one_embedding_state e_front)) "person1")
        with [mkFaceDoc "person1" e_front 0] by reflexivity.
      unfold max_similarity. cbn [similarities f_face_vector].
      rewrite cosine_side_front. reflexivity.
    + assert (E : retain = true) by (apply Hiff; simpl; lra).
      subst retain. exists s'. exact Hrun.
  - destruct (should_store_embedding_decision (example_env never embed_by_side)
                default_config "person1" e_front (one_embedding_state e_long))
      as (retain & s' & Hrun & _ & _ & _ & Hok).
    destruct (Hok eq_refl) as (_ & Hraise & _).
    assert (E : retain = true).
    { apply (Hraise (mkFaceDoc "person1" e_long 0)).
      - simpl. auto.
      - discriminate.
      - rewrite norm_e_front. lra.
      - simpl f_face_vector. rewrite norm_e_long. lra. }
    subst retain. exists s'. exact Hrun.
Defined.

(** *** The failing inputs *)

(** C3 on the code.  One person is tracked, last matched in frame 6.
    The tracker update of frame 7 without detections (an empty list, or
    none) makes no call on the store, so the person's last-seen time in
    the store is not refreshed; it only clears the current box. *)
Theorem update_trackers_without_detections_refreshes_nobody (env : Env) :
  let unmatched :=
    mkTrack 6 None (Some (det_box det_left))
            (Some (crop_face (example_frame 4) det_left)) (9 / 10)%R 4 in
  (exists s',
     update_trackers env 7 (Some []) (one_tracked_state 6) = Some (tt, s')
     /\ trace s' = trace (one_tracked_state 6)
     /\ db s' = db (one_tracked_state 6)
     /\ tracked_people s' = [("person1", unmatched)])
  /\ (exists s',
        update_trackers env 7 None (one_tracked_state 6) = Some (tt, s')
        /\ trace s' = trace (one_tracked_state 6)
        /\ db s' = db (one_tracked_state 6)
        /\ tracked_people s' = [("person1", unmatched)]).
Proof.
  split; rewrite update_trackers_no_detections by auto;
    eexists; repeat split; reflexivity.
Qed.

(** C4 on the code.  A stream of one frame with one face, on an empty
    store: when [process_video] returns, after its final exit check with
    threshold 0, the person of that frame is still tracked and the only
    visit record saved is the entry. *)
Theorem final_exit_check_keeps_person_of_last_frame :
  exists results s' person_id now,
    process_video (example_env never embed_by_side) default_config
                  [(example_frame 1, [det_left])] None (initial_state empty_db)
    = Some (results, s')
    /\ processed_frames results = 1
    /\ tracked_people s' =
       [(person_id, fresh_track (example_frame 1) 1 det_left now)]
    /\ saved_visits (trace s') = [(person_id, Entry)].
Proof.
  apply (single_frame_run (example_env never embed_by_side) default_config
           (example_frame 1) det_left e_front None empty_db).
  - reflexivity.
  - reflexivity.
  - simpl. lra.
  - vm_compute. discriminate.
  - reflexivity.
  - simpl. lia.
Qed.

(** C9 on the code.  The first face of a run on an empty store is
    registered as person1.  When the insert of the embedding into the
    store raises (the fourth oracle read), or already the insert of the
    person (the third), the embedding is in the in-memory gallery all
    the same, and not in the store. *)
Theorem failed_registration_still_extends_gallery :
  (exists s',
     resolve_detection (example_env (fun n => Nat.eqb n 3) embed_by_side)
                       default_config (example_frame 1) 1 det_left
                       (initial_state empty_db)
     = Some (Some ("person1", true), s')
     /\ known_embeddings s' = [("person1", e_front)]
     /\ face_data (db s') = []
     /\ map p_person_id (people (db s')) = ["person1"])
  /\ (exists s',
        resolve_detection (example_env (fun n => Nat.eqb n 2) embed_by_side)
                          default_config (example_frame 1) 1 det_left
                          (initial_state empty_db)
        = Some (Some ("person1", true), s')
        /\ known_embeddings s' = [("person1", e_front)]
        /\ face_data (db s') = []
        /\ people (db s') = []).
Proof.
  pose (env_of := fun fails => example_env fails embed_by_side).
  assert (Hrun : forall fails,
    resolve_detection (env_of fails) default_config
                      (example_frame 1) 1 det_left (initial_state empty_db)
    = Some (Some (new_person_id (env_of fails) e_front (initial_state empty_db), true),
            st_commit (env_of fails) default_config (example_frame 1) 1 det_left
              e_front (new_person_id (env_of fails) e_front (initial_state empty_db))
              true (clock (env_of fails) (tick (initial_state empty_db)))
              (st_register_new (env_of fails) e_front (initial_state empty_db)))).
  { intros fails.
    apply (resolve_new_person (example_env fails embed_by_side) default_config
             (example_frame 1) 1 det_left e_front (initial_state empty_db)
             None (-1)%R (-1)%R).
    - simpl. lra.
    - vm_compute. discriminate.
    - reflexivity.
    - reflexivity.
    - reflexivity.
    - apply andb_false_r. }
  split; eexists; (split; [apply Hrun | repeat split; reflexivity]).
Qed.

(** *** The further properties on concrete runs *)

(** The embedding model of the examples returns embeddings of length 2,
    the length of the embeddings in the example stores. *)
Lemma embed_by_side_of_length (fails : nat -> bool) :
  model_of_length (example_env fails embed_by_side) 2.
Proof.
  intros crop emb. simpl. unfold embed_by_side.
  destruct (crop_xa crop <? 320); intros H; injection H as <-; reflexivity.
Qed.

Lemma two_person_db_of_length : store_of_length 2 two_person_db.
Proof. repeat constructor. Qed.

(** X8 on a stream of one frame and the store of two persons. *)
Lemma process_video_returns_iff_connected_witness :
  model_of_length (example_env never embed_by_side) 2
  /\ store_of_length 2 two_person_db
  /\ db_fails (example_env never embed_by_side) 0 = false
  /\ exists results s',
       process_video (example_env never embed_by_side) default_config
                     [(example_frame 1, [det_left])] None
                     (initial_state two_person_db)
       = Some (results, s')
       /\ NoDup (map fst (tracked_people s')).
Proof.
  assert (H1 : model_of_length (example_env never embed_by_side) 2)
    by apply embed_by_side_of_length.
  assert (H2 : store_of_length 2 two_person_db) by apply two_person_db_of_length.
  assert (H3 : db_fails (example_env never embed_by_side) 0 = false) by reflexivity.
  repeat (split; [assumption|]).
  destruct (proj2 (process_video_returns_iff_connected
                     (example_env never embed_by_side) default_config 2
                     [(example_frame 1, [det_left])] None two_person_db H1 H2) H3)
    as (results & s' & Hrun & Hnd & _).
  exists results, s'. split; [exact Hrun | exact Hnd].
Defined.

(** X9 on the same run. *)
Lemma process_video_entries_and_exits_alternate_witness :
  db_fails (example_env never embed_by_side) 0 = false
  /\ model_of_length (example_env never embed_by_side) 2
  /\ store_of_length 2 two_person_db
  /\ exists results s',
       process_video (example_env never embed_by_side) default_config
                     [(example_frame 1, [det_left])] None
                     (initial_state two_person_db)
       = Some (results, s')
       /\ presence_after "person1" false (trace s')
          = Some (dict_mem "person1" (tracked_people s')).
Proof.
  assert (H1 : db_fails (example_env never embed_by_side) 0 = false) by reflexivity.
  assert (H2 : model_of_length (example_env never embed_by_side) 2)
    by apply embed_by_side_of_length.
  assert (H3 : store_of_length 2 two_person_db) by apply two_person_db_of_length.
  repeat (split; [assumption|]).
  destruct (process_video_entries_and_exits_alternate
              (example_env never embed_by_side) default_config 2
              [(example_frame 1, [det_left])] None two_person_db H1 H2 H3)
    as (results & s' & Hrun & HP).
  exists results, s'. split; [exact Hrun | apply HP].
Defined.

(** X10 on the same run. *)
Lemma process_video_store_only_grows_witness :
  db_fails (example_env never embed_by_side) 0 = false
  /\ model_of_length (example_env never embed_by_side) 2
  /\ store_of_length 2 two_person_db
  /\ exists results s' new_faces new_visits,
       process_video (example_env never embed_by_side) default_config
                     [(example_frame 1, [det_left])] None
                     (initial_state two_person_db)
       = Some (results, s')
       /\ face_data (db s') = (face_data two_person_db ++ new_faces)%list
       /\ visit_records (db s') = (visit_records two_person_db ++ new_visits)%list.
Proof.
  assert (H1 : db_fails (example_env never embed_by_side) 0 = false) by reflexivity.
  assert (H2 : model_of_length (example_env never embed_by_side) 2)
    by apply embed_by_side_of_length.
  assert (H3 : store_of_length 2 two_person_db) by apply two_person_db_of_length.
  repeat (split; [assumption|]).
  destruct (process_video_store_only_grows
              (example_env never embed_by_side) default_config 2
              [(example_frame 1, [det_left])] None two_person_db H1 H2 H3)
    as (results & s' & ps & fs & vs & Hrun & _ & Hf & Hv & _).
  exists results, s', fs, vs. split; [exact Hrun|]. split; [exact Hf | exact Hv].
Defined.

(** X11 on the same run. *)
Lemma process_video_gallery_extends_loaded_witness :
  db_fails (example_env never embed_by_side) 0 = false
  /\ model_of_length (example_env never embed_by_side) 2
  /\ store_of_length 2 two_person_db
  /\ exists results s',
       process_video (example_env never embed_by_side) default_config
                     [(example_frame 1, [det_left])] None
                     (initial_state two_person_db)
       = Some (results, s')
       /\ gallery_of_length 2 (known_embeddings s').
Proof.
  assert (H1 : db_fails (example_env never embed_by_side) 0 = false) by reflexivity.
  assert (H2 : model_of_length (example_env never embed_by_side) 2)
    by apply embed_by_side_of_length.
  assert (H3 : store_of_length 2 two_person_db) by apply two_person_db_of_length.
  repeat (split; [assumption|]).
  destruct (process_video_gallery_extends_loaded
              (example_env never embed_by_side) default_config 2
              [(example_frame 1, [det_left])] None two_person_db H1 H2 H3)
    as (results & s' & loaded & added & Hrun & _ & _ & Hlen).
  exists results, s'. split; [exact Hrun | exact Hlen].
Defined.

(** X12 on a stream of two frames with [max_frames = 0]. *)
Lemma process_video_counts_frames_read_witness :
  db_fails (example_env never embed_by_side) 0 = false
  /\ model_of_length (example_env never embed_by_side) 2
  /\ store_of_length 2 empty_db
  /\ (forall n,
        visualize default_config
        && quit_requested (example_env never embed_by_side) n = false)
  /\ exists results s',
       process_video (example_env never embed_by_side) default_config
                     [(example_frame 1, [det_left]); (example_frame 2, [])]
                     (Some 0) (initial_state empty_db)
       = Some (results, s')
       /\ processed_frames results = 2
       /\ total_detections results = 1.
Proof.
  assert (H1 : db_fails (example_env never embed_by_side) 0 = false) by reflexivity.
  assert (H2 : model_of_length (example_env never embed_by_side) 2)
    by apply embed_by_side_of_length.
  assert (H3 : store_of_length 2 empty_db) by constructor.
  assert (H : forall n,
             visualize default_config
             && quit_requested (example_env never embed_by_side) n = false)
    by (intros n; reflexivity).
  repeat (split; [assumption|]).
  destruct (process_video_counts_frames_read
              (example_env never embed_by_side) default_config 2
              [(example_frame 1, [det_left]); (example_frame 2, [])]
              (Some 0) empty_db H1 H2 H3 H) as (results & s' & Hrun & Hcount).
  cbv zeta in Hcount. destruct Hcount as [Hp Ht].
  exists results, s'. split; [exact Hrun|]. split; [exact Hp | exact Ht].
Defined.

(** X13 on frame 6, with both persons tracked. *)
Lemma frame_between_samples_resolves_nobody_witness :
  NoDup (map fst (tracked_people two_tracked_state))
  /\ tracked_people two_tracked_state <> []
  /\ 6 mod Z.max 1 (detection_skip_frames default_config) <> 0
  /\ exists s' calls,
       process_frame (example_env never embed_by_side) default_config
                     (example_frame 6) [det_a] 6 two_tracked_state
       = Some (tt, s')
       /\ known_embeddings s' = known_embeddings two_tracked_state
       /\ trace s' = (trace two_tracked_state ++ calls)%list.
Proof.
  assert (H1 : NoDup (map fst (tracked_people two_tracked_state))).
  { simpl. repeat constructor; simpl; intuition discriminate. }
  assert (H2 : tracked_people two_tracked_state <> []) by discriminate.
  assert (H3 : 6 mod Z.max 1 (detection_skip_frames default_config) <> 0)
    by (vm_compute; discriminate).
  repeat (split; [assumption|]).
  destruct (frame_between_samples_resolves_nobody
              (example_env never embed_by_side) default_config
              (example_frame 6) [det_a] 6 two_tracked_state H1 H2 H3)
    as (s' & calls & Hrun & K & _ & _ & C & _).
  exists s', calls. auto.
Defined.

Lemma find_best_match_front :
  find_best_match e_front [("person1", e_front)] = Some (Some "person1", 1%R, (-1)%R).
Proof.
  unfold find_best_match. simpl. rewrite cosine_front_front. unfold Rgtb.
  replace (Rltb (-1) 1) with true by (symmetry; apply Rltb_true; lra).
  reflexivity.
Qed.

(** X14 on a gallery that holds [e_front] for person1, with nobody
    tracked. *)
Lemma known_person_is_reidentified_witness :
  (det_conf det_left >= detection_conf_threshold default_config)%R
  /\ crop_size (crop_face (example_frame 1) det_left) <> 0
  /\ extract_embedding (example_env never embed_by_side)
       (crop_face (example_frame 1) det_left) = Some e_front
  /\ position_match (tracked_people (one_embedding_state e_front)) det_left = None
  /\ find_best_match e_front (known_embeddings (one_embedding_state e_front))
     = Some (Some "person1", 1%R, (-1)%R)
  /\ "person1" <> EmptyString
  /\ (1 >= embedding_similarity_threshold default_config)%R
  /\ exists s',
       resolve_detection (example_env never embed_by_side) default_config
                         (example_frame 1) 1 det_left (one_embedding_state e_front)
       = Some (Some ("person1", false), s')
       /\ dict_get "person1" (tracked_people s')
          = Some (fresh_track (example_frame 1) 1 det_left 0).
Proof.
  assert (H1 : (det_conf det_left >= detection_conf_threshold default_config)%R)
    by (simpl; lra).
  assert (H2 : crop_size (crop_face (example_frame 1) det_left) <> 0)
    by (vm_compute; discriminate).
  assert (H3 : extract_embedding (example_env never embed_by_side)
                 (crop_face (example_frame 1) det_left) = Some e_front)
    by reflexivity.
  assert (H4 : position_match (tracked_people (one_embedding_state e_front)) det_left
               = None) by reflexivity.
  assert (H5 : find_best_match e_front
                 (known_embeddings (one_embedding_state e_front))
               = Some (Some "person1", 1%R, (-1)%R))
    by exact find_best_match_front.
  assert (H6 : "person1" <> EmptyString) by discriminate.
  assert (H7 : (1 >= embedding_similarity_threshold default_config)%R)
    by (simpl; lra).
  repeat (split; [assumption|]).
  destruct (known_person_is_reidentified
              (example_env never embed_by_side) default_config
              (example_frame 1) 1 det_left e_front (one_embedding_state e_front)
              "person1" 1%R (-1)%R H1 H2 H3 H4 H5 H6 H7)
    as (s' & path & retain & Hrun & _ & Htrack & _).
  exists s'. split; [exact Hrun | exact Htrack].
Defined.

(** X15 at frame 40 with threshold 30. *)
Lemma handle_exits_twice_is_once_witness :
  NoDup (map fst (tracked_people stale_and_recent_state))
  /\ exists s',
       handle_exits (example_env never embed_by_side) default_config 40 30
                    stale_and_recent_state = Some (tt, s')
       /\ handle_exits (example_env never embed_by_side) default_config 40 30 s'
          = Some (tt, s').
Proof.
  assert (Hnd : NoDup (map fst (tracked_people stale_and_recent_state))).
  { simpl. repeat constructor; simpl; intuition discriminate. }
  split; [exact Hnd|].
  destruct (handle_exits_twice_is_once (example_env never embed_by_side)
              default_config 40 30 stale_and_recent_state Hnd)
    as (s' & Hrun & _ & Hagain).
  exists s'. split; [exact Hrun | exact Hagain].
Defined.

(** X16 on the empty store, whose counter is at 0. *)
Lemma get_next_person_id_never_repeats_witness :
  counter (db (initial_state empty_db)) = Some 0
  /\ db_fails (example_env never embed_by_side) (tick (initial_state empty_db))
     = false
  /\ exists s1,
       get_next_person_id (example_env never embed_by_side) (initial_state empty_db)
       = Some ("person1", s1)
       /\ counter (db s1) = Some 1.
Proof.
  assert (H1 : counter (db (initial_state empty_db)) = Some 0) by reflexivity.
  assert (H2 : db_fails (example_env never embed_by_side)
                        (tick (initial_state empty_db)) = false) by reflexivity.
  repeat (split; [assumption|]).
  destruct (get_next_person_id_never_repeats (example_env never embed_by_side)
              (initial_state empty_db) 0 H1 H2) as (s1 & Hrun & Hc & _).
  exists s1. split; [exact Hrun | exact Hc].
Defined.

(** X18 on the store that knows person1. *)
Lemma register_person_known_id_changes_nothing_witness :
  In "person1" (map p_person_id (people (db (one_embedding_state e_front))))
  /\ exists s',
       register_person (example_env never embed_by_side) "person1" e_side 7
                       (one_embedding_state e_front) = Some (tt, s')
       /\ db s' = db (one_embedding_state e_front).
Proof.
  assert (H : In "person1"
                 (map p_person_id (people (db (one_embedding_state e_front)))))
    by (simpl; auto).
  split; [exact H|].
  destruct (register_person_known_id_changes_nothing
              (example_env never embed_by_side) "person1" e_side 7
              (one_embedding_state e_front) H) as (s' & Hrun & Hdb & _).
  exists s'. split; [exact Hrun | exact Hdb].
Defined.

(** X19 on person2, matched by position in frame 30. *)
Lemma position_match_counts_a_visit_witness :
  (forall n, db_fails (example_env never embed_by_side) n = false)
  /\ (det_conf det_right >= detection_conf_threshold default_config)%R
  /\ crop_size (crop_face (example_frame 30) det_right) <> 0
  /\ position_match (tracked_people stale_and_recent_state) det_right
     = Some "person2"
  /\ exists s',
       resolve_detection (example_env never embed_by_side) default_config
                         (example_frame 30) 30 det_right stale_and_recent_state
       = Some (Some ("person2", false), s')
       /\ people (db s') =
          [mkPersonDoc "person1" 0 3 3; mkPersonDoc "person2" 1 4 4].
Proof.
  assert (H0 : forall n, db_fails (example_env never embed_by_side) n = false)
    by (intros n; reflexivity).
  assert (H1 : (det_conf det_right >= detection_conf_threshold default_config)%R)
    by (simpl; lra).
  assert (H2 : crop_size (crop_face (example_frame 30) det_right) <> 0)
    by (vm_compute; discriminate).
  assert (H3 : position_match (tracked_people stale_and_recent_state) det_right
               = Some "person2") by reflexivity.
  repeat (split; [assumption|]).
  apply (position_match_counts_a_visit
           (example_env never embed_by_side) default_config
           (example_frame 30) 30 det_right e_side stale_and_recent_state
           "person2" 4 [mkPersonDoc "person1" 0 3 3] []
           (mkPersonDoc "person2" 1 4 3));
    try assumption; try reflexivity; try discriminate.
  repeat constructor. discriminate.
Defined.

(** X22 on the face on the left of a 640 x 480 frame. *)
Lemma crop_of_detection_in_frame_is_not_empty_witness :
  0 <= 100 < frame_width (example_frame 1)
  /\ 0 <= 100 < frame_height (example_frame 1)
  /\ crop_size (crop_face (example_frame 1) det_left) <> 0.
Proof.
  assert (H1 : 0 <= 100 < frame_width (example_frame 1)) by (simpl; lia).
  assert (H2 : 0 <= 100 < frame_height (example_frame 1)) by (simpl; lia).
  repeat (split; [assumption|]).
  exact (proj1 (crop_of_detection_in_frame_is_not_empty
                  (example_frame 1) 100 100 50 50 (9 / 10)%R H1 H2
                  eq_refl eq_refl)).
Defined.

(** X27 on a store in which person1 has an embedding of length 3,
    while the embedding model returns embeddings of length 2. *)
Lemma process_video_raises_on_incomparable_store_witness :
  (forall n, db_fails (example_env never embed_by_side) n = false)
  /\ (det_conf det_left >= detection_conf_threshold default_config)%R
  /\ crop_size (crop_face (example_frame 1) det_left) <> 0
  /\ extract_embedding (example_env never embed_by_side)
       (crop_face (example_frame 1) det_left) = Some e_front
  /\ find_best_match e_front [("person1", e_long)] = None
  /\ process_video (example_env never embed_by_side) default_config
                   [(example_frame 1, [det_left])] None
                   (initial_state (db (one_embedding_state e_long)))
     = None.
Proof.
  assert (H1 : forall n, db_fails (example_env never embed_by_side) n = false)
    by (intros n; reflexivity).
  assert (H2 : (det_conf det_left >= detection_conf_threshold default_config)%R)
    by (simpl; lra).
  assert (H3 : crop_size (crop_face (example_frame 1) det_left) <> 0)
    by (vm_compute; discriminate).
  assert (H4 : extract_embedding (example_env never embed_by_side)
                 (crop_face (example_frame 1) det_left) = Some e_front)
    by reflexivity.
  assert (H5 : find_best_match e_front [("person1", e_long)] = None).
  { unfold find_best_match. simpl. rewrite cosine_front_long. reflexivity. }
  repeat (split; [assumption|]).
  exact (process_video_raises_on_incomparable_store
           (example_env never embed_by_side) default_config
           (example_frame 1) det_left [] [] None e_front
           (db (one_embedding_state e_long)) H1 H2 H3 H4 H5).
Defined.
